(** * Index-management reconciliation: a shallow embedding

    This development embeds [internal/indexmanagement/reconcile.go] of the
    elasticsearch operator and states its documented properties.  Go structs
    become records (one module per struct, so that [Container.Name c] reads
    like [container.Name]), nil-able maps and slices keep their nil value,
    store round trips are threaded through a small state-and-trace monad,
    and a run-time panic is an explicit outcome. *)

From Stdlib Require Import ZArith Ascii String List Lia.
From stdpp Require Import base option list gmap strings pretty sorting.

Local Open Scope string_scope.
Local Open Scope Z_scope.

(** ** Go values *)

(** A Go map or slice may be nil; [reflect.DeepEqual] tells nil from empty. *)
Definition gomap : Type := option (gmap string string).
Definition slice (A : Type) : Type := option (list A).

(** [len] and [range] treat the nil slice as the empty one. *)
Definition elems {A : Type} (s : slice A) : list A :=
  match s with
  | Some l => l
  | None => []
  end.

(** [p != nil] for a pointer *)
Definition notNil {A : Type} (p : option A) : bool :=
  match p with
  | Some _ => true
  | None => false
  end.

(** Outcome of a Go call that may panic. *)
Inductive outcome (A : Type) : Type :=
| Returns (a : A)
| Panics (msg : string).
Arguments Returns {A} a.
Arguments Panics {A} msg.

(** ** Kubernetes API objects (the fields the package reads or writes) *)

Module Toleration.
Record t : Type := mk
  { Key : string; Operator : string; Value : string; Effect : string;
    TolerationSeconds : option Z }.
End Toleration.

Module EnvVar.
Record t : Type := mk { Name : string; Value : string }.
End EnvVar.

Module ResourceRequirements.
(** quantities in milli-units *)
Record t : Type := mk
  { Limits : option (gmap string Z); Requests : option (gmap string Z) }.
End ResourceRequirements.

Module VolumeMount.
Record t : Type := mk { Name : string; ReadOnly : bool; MountPath : string }.
End VolumeMount.

Module Container.
Record t : Type := mk
  { Name : string;
    Image : string;
    Command : slice string;
    Args : slice string;
    ImagePullPolicy : string;
    Resources : ResourceRequirements.t;
    Env : slice EnvVar.t;
    VolumeMounts : slice VolumeMount.t }.
End Container.

Module PodSpec.
Record t : Type := mk
  { ServiceAccountName : string;
    Containers : slice Container.t;
    Volumes : slice string;
    NodeSelector : gomap;
    Tolerations : slice Toleration.t;
    RestartPolicy : string;
    TerminationGracePeriodSeconds : option Z }.
End PodSpec.

Module ObjectMeta.
Record t : Type := mk
  { Name : string;
    Namespace : string;
    Labels : gomap;
    OwnerReferences : slice string;
    ResourceVersion : string }.
End ObjectMeta.

Module TypeMeta.
Record t : Type := mk { Kind : string; APIVersion : string }.
End TypeMeta.

Module PodTemplateSpec.
Record t : Type := mk { Meta : ObjectMeta.t; Spec : PodSpec.t }.
End PodTemplateSpec.

Module JobSpec.
Record t : Type := mk
  { BackoffLimit : option Z;
    Parallelism : option Z;
    Template : PodTemplateSpec.t }.
End JobSpec.

Module JobTemplateSpec.
Record t : Type := mk { Meta : ObjectMeta.t; Spec : JobSpec.t }.
End JobTemplateSpec.

Module CronJobSpec.
Record t : Type := mk
  { Schedule : string;
    Suspend : option bool;
    ConcurrencyPolicy : string;
    SuccessfulJobsHistoryLimit : option Z;
    FailedJobsHistoryLimit : option Z;
    JobTemplate : JobTemplateSpec.t }.

(** the assignment [spec.Schedule = s] *)
Definition setSchedule (s : string) (spec : t) : t :=
  mk s (Suspend spec) (ConcurrencyPolicy spec)
     (SuccessfulJobsHistoryLimit spec) (FailedJobsHistoryLimit spec)
     (JobTemplate spec).
End CronJobSpec.

Module CronJobStatus.
Record t : Type := mk { Active : slice string; LastScheduleTime : option Z }.
End CronJobStatus.

Module CronJob.
Record t : Type := mk
  { Type_ : TypeMeta.t;
    Meta : ObjectMeta.t;
    Spec : CronJobSpec.t;
    Status : CronJobStatus.t }.

(** the assignment [job.Spec = spec] *)
Definition setSpec (spec : CronJobSpec.t) (job : t) : t :=
  mk (Type_ job) (Meta job) spec (Status job).

Definition Name (job : t) : string := ObjectMeta.Name (Meta job).
Definition Namespace (job : t) : string := ObjectMeta.Namespace (Meta job).

(** [job.Spec.JobTemplate.Spec.Template.Spec] *)
Definition podSpec (job : t) : PodSpec.t :=
  PodTemplateSpec.Spec
    (JobSpec.Template (JobTemplateSpec.Spec (CronJobSpec.JobTemplate (Spec job)))).
End CronJob.

Module ConfigMap.
Record t : Type := mk
  { Type_ : TypeMeta.t; Meta : ObjectMeta.t; Data : gomap }.

(** the assignment [cm.Data = data] *)
Definition setData (data : gomap) (cm : t) : t :=
  mk (Type_ cm) (Meta cm) data.

Definition Name (cm : t) : string := ObjectMeta.Name (Meta cm).
Definition Namespace (cm : t) : string := ObjectMeta.Namespace (Meta cm).
End ConfigMap.

(** ** The comparators package

    [internal/utils/comparators] is used by [areCronJobsSame] but lies
    outside this file's source; its four predicates are an interface. *)
Class Comparators : Type :=
  { AreStringMapsSame : gomap -> gomap -> bool;
    AreTolerationsSame : slice Toleration.t -> slice Toleration.t -> bool;
    AreResourceRequementsSame :
      ResourceRequirements.t -> ResourceRequirements.t -> bool;
    EnvValueEqual : slice EnvVar.t -> slice EnvVar.t -> bool }.

(** [reflect.DeepEqual] on [[]string]: nil and empty differ. *)
Definition deepEqualStrings (a b : slice string) : bool := bool_decide (a = b).

(** [reflect.DeepEqual] on [map[string]string]. *)
Definition deepEqualData (a b : gomap) : bool := bool_decide (a = b).

(** [lhs.Spec.Suspend != nil && rhs.Spec.Suspend != nil &&
    *lhs.Spec.Suspend != *rhs.Spec.Suspend] *)
Definition suspendDiffers (l r : option bool) : bool :=
  match l, r with
  | Some a, Some b => negb (Bool.eqb a b)
  | _, _ => false
  end.

(** The guard at the top of [areCronJobsSame], as written: both operands
    of [!=] are the container count of [lhs]. *)
Definition containerCountGuard (lhs rhs : CronJob.t) : bool :=
  negb (Nat.eqb
          (length (elems (PodSpec.Containers (CronJob.podSpec lhs))))
          (length (elems (PodSpec.Containers (CronJob.podSpec lhs))))).

Section AreCronJobsSame.
Context `{Comparators}.

(** Body of the per-container loop for one index. [None] stands for
    falling through to the next iteration. *)
Definition compareContainer (container other : Container.t) : option bool :=
  if negb (String.eqb (Container.Name container) (Container.Name other))
  then Some false
  else if negb (String.eqb (Container.Image container) (Container.Image other))
  then Some false
  else if negb (deepEqualStrings (Container.Command container)
                                 (Container.Command other))
  then Some false
  else if negb (deepEqualStrings (Container.Args container)
                                 (Container.Args other))
  then Some false
  else if negb (AreResourceRequementsSame (Container.Resources container)
                                          (Container.Resources other))
  then Some false
  else if negb (EnvValueEqual (Container.Env container) (Container.Env other))
  then Some false
  else None.

(** [for i, container := range lhs...Containers] with
    [other := rhs...Containers[i]]; the indexing panics out of range. *)
Fixpoint containerLoop (i : nat) (containers : list Container.t)
         (others : list Container.t) : outcome bool :=
  match containers with
  | [] => Returns true
  | container :: rest =>
      match others !! i with
      | None => Panics "index out of range"
      | Some other =>
          match compareContainer container other with
          | Some b => Returns b
          | None => containerLoop (S i) rest others
          end
      end
  end.

(** [areCronJobsSame(lhs, rhs)]: the verdict together with [lhs] as the
    call leaves it ([lhs] is a pointer and its schedule may be assigned). *)
Definition areCronJobsSame (lhs rhs : CronJob.t) : outcome (bool * CronJob.t) :=
  let lp := CronJob.podSpec lhs in
  let rp := CronJob.podSpec rhs in
  if containerCountGuard lhs rhs
  then Returns (false, lhs)
  else if negb (AreStringMapsSame (PodSpec.NodeSelector lp)
                                  (PodSpec.NodeSelector rp))
  then Returns (false, lhs)
  else if negb (AreTolerationsSame (PodSpec.Tolerations lp)
                                   (PodSpec.Tolerations rp))
  then Returns (false, lhs)
  else if negb (String.eqb (CronJobSpec.Schedule (CronJob.Spec lhs))
                           (CronJobSpec.Schedule (CronJob.Spec rhs)))
  then Returns
         (false,
          CronJob.setSpec
            (CronJobSpec.setSchedule
               (CronJobSpec.Schedule (CronJob.Spec rhs)) (CronJob.Spec lhs))
            lhs)
  else if suspendDiffers (CronJobSpec.Suspend (CronJob.Spec lhs))
                         (CronJobSpec.Suspend (CronJob.Spec rhs))
  then Returns (false, lhs)
  else
    match containerLoop 0 (elems (PodSpec.Containers lp))
                        (elems (PodSpec.Containers rp)) with
    | Returns b => Returns (b, lhs)
    | Panics msg => Panics msg
    end.
End AreCronJobsSame.

(** ** Errors

    Go's [error] interface is [option error] ([None] is nil).  The
    classification of store errors ([apierrors.Is...]) and the wrapping of
    [kverrors] belong to libraries, hence an interface. *)
Inductive kvValue : Type :=
| KVString (s : string)
| KVLabels (m : gmap string string).

Class ApiErrors (error : Type) : Type :=
  { IsAlreadyExists : error -> bool;
    IsNotFound : error -> bool;
    IsConflict : error -> bool;
    (** [kverrors.Wrap] of a non-nil error *)
    WrapError : error -> string -> list (string * kvValue) -> error }.

(** [kverrors.Wrap(err, msg, kv...)]: nil stays nil. *)
Definition Wrap {error : Type} `{ApiErrors error} (err : option error)
           (msg : string) (kv : list (string * kvValue)) : option error :=
  match err with
  | None => None
  | Some e => Some (WrapError e msg kv)
  end.

(** ** The store client *)

Module NamespacedName.
Record t : Type := mk { Name : string; Namespace : string }.
End NamespacedName.

Inductive Object : Type :=
| CronJobObject (job : CronJob.t)
| ConfigMapObject (cm : ConfigMap.t).

(** [client.Client] over a store state [St]; every operation is one
    blocking round trip that answers and moves the store. *)
Class Client (error St : Type) : Type :=
  { Create : Object -> St -> option error * St;
    GetCronJob : NamespacedName.t -> St -> (error + CronJob.t) * St;
    GetConfigMap : NamespacedName.t -> St -> (error + ConfigMap.t) * St;
    Update : Object -> St -> option error * St;
    Delete : Object -> St -> option error * St;
    ListCronJobs :
      string -> gmap string string -> St -> (error + list CronJob.t) * St }.

(** What a run leaves behind, in order: store calls and log lines. *)
Inductive Event (error : Type) : Type :=
| CreateCall (obj : Object)
| GetCronJobCall (key : NamespacedName.t)
| GetConfigMapCall (key : NamespacedName.t)
| UpdateCall (obj : Object)
| DeleteCall (obj : Object)
| ListCall (namespace : string) (labels : gmap string string)
| LogError (err : error) (msg : string) (kv : list (string * kvValue)).
Arguments CreateCall {error} obj.
Arguments GetCronJobCall {error} key.
Arguments GetConfigMapCall {error} key.
Arguments UpdateCall {error} obj.
Arguments DeleteCall {error} obj.
Arguments ListCall {error} namespace labels.
Arguments LogError {error} err msg kv.

Definition isUpdateCall {error : Type} (e : Event error) : bool :=
  match e with
  | UpdateCall _ => true
  | _ => false
  end.

(** ** Cluster and policy types *)

(** Modelled from the spec: the declarations of [apis.Elasticsearch],
    [apis.IndexManagementPolicySpec], [apis.IndexManagementPolicyMappingSpec]
    and [apis.PolicyMap] are outside this file's source; the fields are the
    ones the code selects, the phase contents those of the data model. *)
Module Elasticsearch.
Record t : Type := mk
  { Name : string;
    Namespace : string;
    NodeSelector : gomap;
    Tolerations : slice Toleration.t }.
End Elasticsearch.

Module HotPhase.
Record t : Type := mk
  { MaxAge : option string; MaxDocs : option Z; MaxSize : option string }.
End HotPhase.

Module DeletePhase.
Record t : Type := mk { MinAge : string }.
End DeletePhase.

Module Phases.
Record t : Type := mk
  { Hot : option HotPhase.t; Delete : option DeletePhase.t }.
End Phases.

Module Policy.
Record t : Type := mk
  { Name : string; PollInterval : string; Phases : Phases.t }.
(** the zero value, which a Go map lookup yields for a missing key *)
Definition zero : t := mk "" "" (Phases.mk None None).
End Policy.

Module Mapping.
Record t : Type := mk { Name : string; PolicyRef : string }.
End Mapping.

(** [policies[ref]] *)
Definition policyAt (policies : gmap string Policy.t) (ref : string) : Policy.t :=
  match policies !! ref with
  | Some p => p
  | None => Policy.zero
  end.

(** ** Package constants *)

Definition indexManagementConfigmap : string := "indexmanagement-scripts".

(** [int32(40)] *)
Definition defaultShardSize : Z := 40.

(** [uint64] arithmetic wraps. *)
Definition wrap64 (z : Z) : Z := z mod 2 ^ 64.
Definition wrap32 (z : Z) : Z := (z + 2 ^ 31) mod 2 ^ 32 - 2 ^ 31.

Definition millisPerSecond : Z := wrap64 1000.
Definition millisPerMinute : Z := wrap64 (60 * millisPerSecond).
Definition millisPerHour : Z := wrap64 (millisPerMinute * 60).
Definition millisPerDay : Z := wrap64 (millisPerHour * 24).
Definition millisPerWeek : Z := wrap64 (millisPerDay * 7).

Definition imLabels : gmap string string :=
  <["provider" := "openshift"]>
    (<["component" := "indexManagement"]>
       (<["logging-infra" := "indexManagement"]> ∅)).

(** [fmt.Sprintf("%s-rollover-%s", cluster, mapping)] and its sibling *)
Definition rolloverName (cluster mapping : string) : string :=
  cluster +:+ "-rollover-" +:+ mapping.
Definition deleteName (cluster mapping : string) : string :=
  cluster +:+ "-delete-" +:+ mapping.

(** ** [sets.String] *)

Definition stringLe (a b : string) : Prop := String.leb a b = true.

#[global] Instance stringLe_dec (a b : string) : Decision (stringLe a b).
Proof. unfold stringLe. apply _. Defined.

(** [s.List()]: the members in ascending order *)
Definition sortedList (s : gset string) : list string :=
  merge_sort stringLe (elements s).

(** ** Effects: store state, trace, panics *)

Section Effects.
Context {error St : Type}.

(** A computation reads and moves the store, emits events, and either
    returns or panics. *)
Definition M (A : Type) : Type := St -> outcome A * St * list (Event error).

Definition ret {A : Type} (a : A) : M A := fun s => (Returns a, s, []).

Definition bind {A B : Type} (m : M A) (f : A -> M B) : M B :=
  fun s =>
    match m s with
    | (Returns a, s1, t1) =>
        match f a s1 with
        | (r, s2, t2) => (r, s2, (t1 ++ t2)%list)
        end
    | (Panics msg, s1, t1) => (Panics msg, s1, t1)
    end.

Definition liftOutcome {A : Type} (o : outcome A) : M A :=
  fun s => (o, s, []).

(** one store round trip, recorded *)
Definition roundTrip {A : Type} (op : St -> A * St) (ev : Event error) : M A :=
  fun s => match op s with
           | (a, s1) => (Returns a, s1, [ev])
           end.

Definition logError (err : error) (msg : string)
           (kv : list (string * kvValue)) : M unit :=
  fun s => (Returns tt, s, [LogError err msg kv]).
End Effects.

Notation "'do' x <~ m ;; k" := (bind m (fun x => k))
  (at level 10, x name, m at level 99, k at level 200).

(** the result, final store and trace of running [m] from store [s] *)
Definition resultOf {error St A : Type} (m : @M error St A) (s : St) : outcome A :=
  fst (fst (m s)).
Definition storeAfter {error St A : Type} (m : @M error St A) (s : St) : St :=
  snd (fst (m s)).
Definition traceOf {error St A : Type} (m : @M error St A) (s : St)
  : list (Event error) :=
  snd (m s).

(** [retry.DefaultRetry.Steps] of client-go *)
Definition DefaultRetrySteps : nat := 5.

(** Repository code outside this file's source that
    [ReconcileCurationConfigmap] calls: the packaged scripts, the
    config-map constructor and the owner back-reference. *)
Class Packaging : Type :=
  { scriptMap : gomap;
    NewConfigMap :
      string -> string -> gmap string string -> gomap -> ConfigMap.t;
    AddOwnerRefToConfigMap : Elasticsearch.t -> ConfigMap.t -> ConfigMap.t }.

Section Reconcile.
Context {error St : Type} `{ApiErrors error} `{Client error St}.
Context `{Comparators} `{Packaging}.

Local Abbreviation M := (@M error St).

(** [retry.RetryOnConflict(backoff, fn)] of client-go: [fn] runs until it
    succeeds, fails with something other than a conflict, or the steps
    are used up, in which case the last conflict is returned. The sleeps
    between attempts are not modelled. *)
Fixpoint retryLoop (steps : nat) (lastErr : option error)
         (fn : M (option error)) : M (option error) :=
  match steps with
  | O => ret lastErr
  | S n =>
      do err <~ fn ;;
      match err with
      | None => ret None
      | Some e =>
          if IsConflict e then retryLoop n (Some e) fn else ret (Some e)
      end
  end.

Definition RetryOnConflict (steps : nat) (fn : M (option error))
  : M (option error) :=
  retryLoop steps None fn.

(** [for _, x := range l { body }] *)
Fixpoint forEach {A : Type} (l : list A) (body : A -> M unit) : M unit :=
  match l with
  | [] => ret tt
  | x :: rest => do _ <~ body x ;; forEach rest body
  end.

(** Body of the first loop of [RemoveCronJobsForMappings]. *)
Definition insertExpected (cluster : Elasticsearch.t)
           (policies : gmap string Policy.t) (expected : gset string)
           (mapping : Mapping.t) : gset string :=
  let policy := policyAt policies (Mapping.PolicyRef mapping) in
  let expected :=
    if notNil (Phases.Hot (Policy.Phases policy))
    then expected ∪ {[ rolloverName (Elasticsearch.Name cluster)
                                   (Mapping.Name mapping) ]}
    else expected in
  if notNil (Phases.Delete (Policy.Phases policy))
  then expected ∪ {[ deleteName (Elasticsearch.Name cluster)
                               (Mapping.Name mapping) ]}
  else expected.

(** The first loop of [RemoveCronJobsForMappings]. *)
Definition expectedNames (cluster : Elasticsearch.t) (mappings : list Mapping.t)
           (policies : gmap string Policy.t) : gset string :=
  fold_left (insertExpected cluster policies) mappings ∅.

(** The second loop: the names of the listed items. *)
Definition existingNames (items : list CronJob.t) : gset string :=
  fold_left (fun (existing : gset string) (cron : CronJob.t) =>
               existing ∪ {[ CronJob.Name cron ]})
            items ∅.

(** the object literal handed to [Delete] *)
Definition cronJobNamed (name namespace : string) : CronJob.t :=
  CronJob.mk
    (TypeMeta.mk "CronJob" "batch/v1beta1")
    (ObjectMeta.mk name namespace None None "")
    (CronJobSpec.mk "" None "" None None
       (JobTemplateSpec.mk
          (ObjectMeta.mk "" "" None None "")
          (JobSpec.mk None None
             (PodTemplateSpec.mk
                (ObjectMeta.mk "" "" None None "")
                (PodSpec.mk "" None None None None "" None)))))
    (CronJobStatus.mk None None).

(** body of the deletion loop *)
Definition removeOne (namespace name : string) : M unit :=
  let cronjob := cronJobNamed name namespace in
  do err <~ roundTrip (Delete (CronJobObject cronjob))
                   (DeleteCall (CronJobObject cronjob)) ;;
  match err with
  | Some e =>
      if negb (IsNotFound e)
      then logError e "failed to remove cronjob"
                    [("namespace", KVString namespace); ("name", KVString name)]
      else ret tt
  | None => ret tt
  end.

Definition RemoveCronJobsForMappings (cluster : Elasticsearch.t)
           (mappings : list Mapping.t) (policies : gmap string Policy.t)
  : M (option error) :=
  let expected := expectedNames cluster mappings policies in
  let namespace := Elasticsearch.Namespace cluster in
  do listed <~ roundTrip (ListCronJobs namespace imLabels)
                      (ListCall namespace imLabels) ;;
  match listed with
  | inl err =>
      ret (Wrap (Some err) "failed to list cron jobs"
                [("namespace", KVString namespace); ("labels", KVLabels imLabels)])
  | inr items =>
      let existing := existingNames items in
      let difference := existing ∖ expected in
      do _ <~ forEach (sortedList difference) (removeOne namespace) ;;
      ret None
  end.

(** the closure handed to [RetryOnConflict] by
    [ReconcileCurationConfigmap] *)
Definition updateConfigMapOnce (desired : ConfigMap.t) : M (option error) :=
  let key := NamespacedName.mk (ConfigMap.Name desired)
                               (ConfigMap.Namespace desired) in
  do got <~ roundTrip (GetConfigMap key) (GetConfigMapCall key) ;;
  match got with
  | inl retryError => ret (Some retryError)
  | inr current =>
      if negb (deepEqualData (ConfigMap.Data desired) (ConfigMap.Data current))
      then
        let current := ConfigMap.setData (ConfigMap.Data desired) current in
        roundTrip (Update (ConfigMapObject current))
                  (UpdateCall (ConfigMapObject current))
      else ret None
  end.

(** the object [ReconcileCurationConfigmap] wants stored *)
Definition desiredConfigMap (cluster : Elasticsearch.t) : ConfigMap.t :=
  AddOwnerRefToConfigMap cluster
    (NewConfigMap indexManagementConfigmap (Elasticsearch.Namespace cluster)
                  imLabels scriptMap).

Definition ReconcileCurationConfigmap (cluster : Elasticsearch.t)
  : M (option error) :=
  let desired := desiredConfigMap cluster in
  let errCtx :=
    [("configmap", KVString (ConfigMap.Name desired));
     ("cluster", KVString (Elasticsearch.Name cluster));
     ("namespace", KVString (Elasticsearch.Namespace cluster))] in
  do err <~ roundTrip (Create (ConfigMapObject desired))
                   (CreateCall (ConfigMapObject desired)) ;;
  match err with
  | None => ret None
  | Some e =>
      if negb (IsAlreadyExists e)
      then ret (Wrap (Some e) "failed to create cluster configmap" errCtx)
      else
        do err <~ RetryOnConflict DefaultRetrySteps
                 (updateConfigMapOnce desired) ;;
        ret (Wrap err "failed to update configmap" errCtx)
  end.

(** the closure handed to [RetryOnConflict] by [reconcileCronJob] *)
Definition updateCronJobOnce (desired : CronJob.t)
           (fnAreCronJobsSame :
              CronJob.t -> CronJob.t -> outcome (bool * CronJob.t))
  : M (option error) :=
  let key := NamespacedName.mk (CronJob.Name desired)
                               (CronJob.Namespace desired) in
  do got <~ roundTrip (GetCronJob key) (GetCronJobCall key) ;;
  match got with
  | inl retryError => ret (Some retryError)
  | inr current =>
      do verdict <~ liftOutcome (fnAreCronJobsSame current desired) ;;
      let same := fst verdict in
      let current := snd verdict in
      if negb same
      then
        let current := CronJob.setSpec (CronJob.Spec desired) current in
        roundTrip (Update (CronJobObject current))
                  (UpdateCall (CronJobObject current))
      else ret None
  end.

Definition reconcileCronJob (cluster : Elasticsearch.t) (desired : CronJob.t)
           (fnAreCronJobsSame :
              CronJob.t -> CronJob.t -> outcome (bool * CronJob.t))
  : M (option error) :=
  do err <~ roundTrip (Create (CronJobObject desired))
                   (CreateCall (CronJobObject desired)) ;;
  match err with
  | None => ret None
  | Some e =>
      if negb (IsAlreadyExists e)
      then ret (Wrap (Some e) "failed to create cronjob for cluster"
                     [("namespace", KVString (Elasticsearch.Namespace cluster));
                      ("cluster", KVString (Elasticsearch.Name cluster))])
      else
        do err <~ RetryOnConflict DefaultRetrySteps
                 (updateCronJobOnce desired fnAreCronJobsSame) ;;
        ret (Wrap err "failed to update cronjob for cluster"
                  [("namespace", KVString (CronJob.Namespace desired));
                   ("cluster", KVString (CronJob.Name desired))])
  end.
End Reconcile.

(** ** The policy translator *)

(** [type rolloverConditions struct] *)
Module rolloverConditions.
Record t : Type := mk { MaxAge : string; MaxDocs : Z; MaxSize : string }.
End rolloverConditions.

(** [int32] multiplication *)
Definition mulInt32 (a b : Z) : Z := wrap32 (a * b).

(** Modelled from the spec: [calculateConditions] is called by
    [ReconcileRolloverCronjob] but defined outside this file's source.
    Following the spec it is given the Hot phase and the shard count.
    Max age and max docs pass through when set; max size is the explicit
    one, or [defaultShardSize × primaryShards] when the policy leaves it
    unset.  How a shard-size number is written into the string field is
    not fixed by the spec, so [formatSize] is a parameter. *)
Definition calculateConditions (formatSize : Z -> string) (hot : HotPhase.t)
           (primaryShards : Z) : rolloverConditions.t :=
  rolloverConditions.mk
    (match HotPhase.MaxAge hot with
     | Some age => age
     | None => ""
     end)
    (match HotPhase.MaxDocs hot with
     | Some docs => docs
     | None => 0
     end)
    (match HotPhase.MaxSize hot with
     | Some size => size
     | None => formatSize (mulInt32 defaultShardSize primaryShards)
     end).

Inductive timeUnit : Type := Seconds | Minutes | Hours | Days | Weeks.

Definition unitSuffix (u : timeUnit) : ascii :=
  match u with
  | Seconds => "s"
  | Minutes => "m"
  | Hours => "h"
  | Days => "d"
  | Weeks => "w"
  end%char.

Definition unitMillis (u : timeUnit) : Z :=
  match u with
  | Seconds => millisPerSecond
  | Minutes => millisPerMinute
  | Hours => millisPerHour
  | Days => millisPerDay
  | Weeks => millisPerWeek
  end.

Definition unitOfSuffix (c : ascii) : option timeUnit :=
  if Ascii.eqb c "s" then Some Seconds
  else if Ascii.eqb c "m" then Some Minutes
  else if Ascii.eqb c "h" then Some Hours
  else if Ascii.eqb c "d" then Some Days
  else if Ascii.eqb c "w" then Some Weeks
  else None.

Definition digitValue (c : ascii) : option Z :=
  let n := Z.of_nat (nat_of_ascii c) in
  if (48 <=? n) && (n <=? 57) then Some (n - 48) else None.

(** Scanner over the duration string: [total] is the sum of the finished
    segments, [magnitude] the digits read since the last unit. *)
Fixpoint scanDuration (s : string) (total : Z) (magnitude : option Z)
  : option Z :=
  match s with
  | EmptyString =>
      match magnitude with
      | None => Some total
      | Some _ => None
      end
  | String c rest =>
      match digitValue c with
      | Some d =>
          let sofar := match magnitude with
                       | Some n => n
                       | None => 0
                       end in
          scanDuration rest total (Some (wrap64 (10 * sofar + d)))
      | None =>
          match unitOfSuffix c, magnitude with
          | Some u, Some n =>
              scanDuration rest (wrap64 (total + n * unitMillis u)) None
          | _, _ => None
          end
      end
  end.

(** Modelled from the spec: [calculateMillisForTimeUnit] (the spec's
    [thresholdMillis]) is called by [ReconcileCurationCronjob] but defined
    outside this file's source.  A duration is one or more contiguous
    segments of a decimal magnitude and a unit suffix among s, m, h, d, w;
    segments accumulate; an unknown suffix or a missing magnitude fails.
    The result is a [uint64]. *)
Definition calculateMillisForTimeUnit (timeunit : string) : option Z :=
  match timeunit with
  | EmptyString => None
  | _ => scanDuration timeunit 0 None
  end.

(** A well-formed duration, for stating what the scanner accepts. *)
Definition digitChar (d : nat) : ascii := ascii_of_nat (48 + d).

Definition renderDigits (ds : list nat) : string :=
  fold_right (fun d acc => String (digitChar d) acc) EmptyString ds.

Definition digitsValue (ds : list nat) : Z :=
  fold_left (fun acc d => 10 * acc + Z.of_nat d) ds 0.

Definition renderDuration (segments : list (list nat * timeUnit)) : string :=
  fold_right
    (fun seg acc =>
       renderDigits (fst seg) +:+ String (unitSuffix (snd seg)) acc)
    EmptyString segments.

Definition durationMillis (segments : list (list nat * timeUnit)) : Z :=
  fold_right (fun seg acc => digitsValue (fst seg) * unitMillis (snd seg) + acc)
             0 segments.

Definition wellFormedSegment (seg : list nat * timeUnit) : Prop :=
  fst seg <> [] /\ Forall (fun d => (d < 10)%nat) (fst seg).

Arguments wrap64 : simpl never.
Arguments digitValue : simpl never.
Arguments digitChar : simpl never.
Arguments unitMillis : simpl never.

(** ** Reference instances

    Concrete errors, comparators, packaging and an in-memory store, on
    which the protocol can be run. *)

Inductive apiError : Type :=
| ErrAlreadyExists
| ErrNotFound
| ErrConflict
| ErrForbidden
| ErrWrapped (cause : apiError) (msg : string) (kv : list (string * kvValue)).

Definition apiErrors : ApiErrors apiError :=
  {| IsAlreadyExists e := match e with ErrAlreadyExists => true | _ => false end;
     IsNotFound e := match e with ErrNotFound => true | _ => false end;
     IsConflict e := match e with ErrConflict => true | _ => false end;
     WrapError := ErrWrapped |}.

#[global] Instance Toleration_eq_dec : EqDecision Toleration.t.
Proof. solve_decision. Defined.
#[global] Instance EnvVar_eq_dec : EqDecision EnvVar.t.
Proof. solve_decision. Defined.
#[global] Instance ResourceRequirements_eq_dec : EqDecision ResourceRequirements.t.
Proof. solve_decision. Defined.

(** comparators that hold exactly on equal arguments *)
Definition plainComparators : Comparators :=
  {| AreStringMapsSame a b := bool_decide (a = b);
     AreTolerationsSame a b := bool_decide (a = b);
     AreResourceRequementsSame a b := bool_decide (a = b);
     EnvValueEqual a b := bool_decide (a = b) |}.

Definition plainPackaging : Packaging :=
  {| scriptMap := Some (<["rollover" := "#!/bin/bash"]> ∅);
     NewConfigMap name namespace labels data :=
       ConfigMap.mk (TypeMeta.mk "ConfigMap" "v1")
                    (ObjectMeta.mk name namespace (Some labels) None "")
                    data;
     AddOwnerRefToConfigMap cluster cm :=
       ConfigMap.mk (ConfigMap.Type_ cm)
                    (ObjectMeta.mk (ConfigMap.Name cm) (ConfigMap.Namespace cm)
                                   (ObjectMeta.Labels (ConfigMap.Meta cm))
                                   (Some [Elasticsearch.Name cluster])
                                   (ObjectMeta.ResourceVersion (ConfigMap.Meta cm)))
                    (ConfigMap.Data cm) |}.

Module MemStore.
(** objects by (namespace, name) *)
Record t : Type := mk
  { cronJobs : gmap (string * string) CronJob.t;
    configMaps : gmap (string * string) ConfigMap.t }.

Definition empty : t := mk ∅ ∅.

Definition withVersion (v : string) (m : ObjectMeta.t) : ObjectMeta.t :=
  ObjectMeta.mk (ObjectMeta.Name m) (ObjectMeta.Namespace m)
                (ObjectMeta.Labels m) (ObjectMeta.OwnerReferences m) v.

Definition stampCronJob (v : string) (job : CronJob.t) : CronJob.t :=
  CronJob.mk (CronJob.Type_ job) (withVersion v (CronJob.Meta job))
             (CronJob.Spec job) (CronJob.Status job).

Definition stampConfigMap (v : string) (cm : ConfigMap.t) : ConfigMap.t :=
  ConfigMap.mk (ConfigMap.Type_ cm) (withVersion v (ConfigMap.Meta cm))
               (ConfigMap.Data cm).

Definition keyOf (m : ObjectMeta.t) : string * string :=
  (ObjectMeta.Namespace m, ObjectMeta.Name m).

Definition create (obj : Object) (s : t) : option apiError * t :=
  match obj with
  | CronJobObject job =>
      match cronJobs s !! keyOf (CronJob.Meta job) with
      | Some _ => (Some ErrAlreadyExists, s)
      | None =>
          (None, mk (<[keyOf (CronJob.Meta job) := stampCronJob "1" job]> (cronJobs s))
                    (configMaps s))
      end
  | ConfigMapObject cm =>
      match configMaps s !! keyOf (ConfigMap.Meta cm) with
      | Some _ => (Some ErrAlreadyExists, s)
      | None =>
          (None, mk (cronJobs s)
                    (<[keyOf (ConfigMap.Meta cm) := stampConfigMap "1" cm]>
                       (configMaps s)))
      end
  end.

Definition getCronJob (key : NamespacedName.t) (s : t)
  : (apiError + CronJob.t) * t :=
  match cronJobs s !! (NamespacedName.Namespace key, NamespacedName.Name key) with
  | Some job => (inr job, s)
  | None => (inl ErrNotFound, s)
  end.

Definition getConfigMap (key : NamespacedName.t) (s : t)
  : (apiError + ConfigMap.t) * t :=
  match configMaps s !! (NamespacedName.Namespace key, NamespacedName.Name key) with
  | Some cm => (inr cm, s)
  | None => (inl ErrNotFound, s)
  end.

(** an update lands only on the version it was read at, and moves it *)
Definition update (obj : Object) (s : t) : option apiError * t :=
  match obj with
  | CronJobObject job =>
      match cronJobs s !! keyOf (CronJob.Meta job) with
      | None => (Some ErrNotFound, s)
      | Some stored =>
          let v := ObjectMeta.ResourceVersion (CronJob.Meta stored) in
          if String.eqb v (ObjectMeta.ResourceVersion (CronJob.Meta job))
          then (None, mk (<[keyOf (CronJob.Meta job) :=
                              stampCronJob (v +:+ "'") job]> (cronJobs s))
                         (configMaps s))
          else (Some ErrConflict, s)
      end
  | ConfigMapObject cm =>
      match configMaps s !! keyOf (ConfigMap.Meta cm) with
      | None => (Some ErrNotFound, s)
      | Some stored =>
          let v := ObjectMeta.ResourceVersion (ConfigMap.Meta stored) in
          if String.eqb v (ObjectMeta.ResourceVersion (ConfigMap.Meta cm))
          then (None, mk (cronJobs s)
                         (<[keyOf (ConfigMap.Meta cm) :=
                              stampConfigMap (v +:+ "'") cm]> (configMaps s)))
          else (Some ErrConflict, s)
      end
  end.

Definition delete (obj : Object) (s : t) : option apiError * t :=
  match obj with
  | CronJobObject job =>
      match cronJobs s !! keyOf (CronJob.Meta job) with
      | None => (Some ErrNotFound, s)
      | Some _ =>
          (None, mk (base.delete (keyOf (CronJob.Meta job)) (cronJobs s))
                    (configMaps s))
      end
  | ConfigMapObject cm =>
      match configMaps s !! keyOf (ConfigMap.Meta cm) with
      | None => (Some ErrNotFound, s)
      | Some _ =>
          (None, mk (cronJobs s)
                    (base.delete (keyOf (ConfigMap.Meta cm)) (configMaps s)))
      end
  end.

Definition listCronJobs (namespace : string) (labels : gmap string string) (s : t)
  : (apiError + list CronJob.t) * t :=
  (inr (List.filter
          (fun job => String.eqb (CronJob.Namespace job) namespace)
          (List.map snd (map_to_list (cronJobs s)))),
   s).

Definition client : Client apiError t :=
  {| Create := create;
     GetCronJob := getCronJob;
     GetConfigMap := getConfigMap;
     Update := update;
     Delete := delete;
     ListCronJobs := listCronJobs |}.
End MemStore.

(** a store whose every deletion is refused and whose listing is fixed *)
Definition stubbornClient (items : list CronJob.t) (refusal : apiError)
  : Client apiError unit :=
  {| Create := fun _ s => (Some ErrForbidden, s);
     GetCronJob := fun _ s => (inl ErrForbidden, s);
     GetConfigMap := fun _ s => (inl ErrForbidden, s);
     Update := fun _ s => (Some ErrForbidden, s);
     Delete := fun _ s => (Some refusal, s);
     ListCronJobs := fun _ _ s => (inr items, s) |}.

(** ** Sample objects *)

Definition sampleContainer (name : string) : Container.t :=
  Container.mk name "quay.io/openshift/elasticsearch:latest"
               (Some ["bash"]) (Some ["-c"; "/tmp/scripts/rollover"])
               "IfNotPresent"
               (ResourceRequirements.mk
                  None (Some (<["memory" := 33554432000]> (<["cpu" := 100]> ∅))))
               (Some [EnvVar.mk "ES_SERVICE" "https://elasticsearch:9200";
                      EnvVar.mk "POLICY_MAPPING" "app"])
               None.

Definition sampleJob (name schedule version : string)
           (containers : slice Container.t) : CronJob.t :=
  CronJob.mk
    (TypeMeta.mk "CronJob" "batch/v1beta1")
    (ObjectMeta.mk name "openshift-logging" (Some imLabels) None version)
    (CronJobSpec.mk schedule None "Forbid" (Some 1) (Some 1)
       (JobTemplateSpec.mk
          (ObjectMeta.mk "" "" None None "")
          (JobSpec.mk (Some 0) (Some 1)
             (PodTemplateSpec.mk
                (ObjectMeta.mk name "openshift-logging" (Some imLabels) None "")
                (PodSpec.mk "elasticsearch" containers None None None
                            "Never" (Some 300))))))
    (CronJobStatus.mk None None).

Definition sampleCluster : Elasticsearch.t :=
  Elasticsearch.mk "elasticsearch" "openshift-logging" None None.

Definition hotOnly : Policy.t :=
  Policy.mk "hot-only" "15m"
            (Phases.mk (Some (HotPhase.mk (Some "1d") None None)) None).

Definition hotAndDelete : Policy.t :=
  Policy.mk "hot-and-delete" "15m"
            (Phases.mk (Some (HotPhase.mk (Some "1d") None None))
                       (Some (DeletePhase.mk "7d"))).

(** ** Vocabulary for the statements *)

(** the four checks of [areCronJobsSame] that precede the container loop
    all pass *)
Definition headerSame `{Comparators} (lhs rhs : CronJob.t) : bool :=
  AreStringMapsSame (PodSpec.NodeSelector (CronJob.podSpec lhs))
                    (PodSpec.NodeSelector (CronJob.podSpec rhs))
  && AreTolerationsSame (PodSpec.Tolerations (CronJob.podSpec lhs))
                        (PodSpec.Tolerations (CronJob.podSpec rhs))
  && String.eqb (CronJobSpec.Schedule (CronJob.Spec lhs))
                (CronJobSpec.Schedule (CronJob.Spec rhs))
  && negb (suspendDiffers (CronJobSpec.Suspend (CronJob.Spec lhs))
                          (CronJobSpec.Suspend (CronJob.Spec rhs))).

(** wherever both lists have a container, the per-container checks pass *)
Definition containersAgree `{Comparators} (containers others : list Container.t)
  : Prop :=
  forall (i : nat) (c o : Container.t),
    containers !! i = Some c -> others !! i = Some o ->
    compareContainer c o = None.

Definition containerCount (job : CronJob.t) : nat :=
  length (elems (PodSpec.Containers (CronJob.podSpec job))).

(** a store holding exactly one scheduled job *)
Definition storeWith (job : CronJob.t) : MemStore.t :=
  MemStore.mk {[ MemStore.keyOf (CronJob.Meta job) := job ]} ∅.

(** the answer to [Update] is not a version conflict *)
Definition notConflict {error : Type} `{ApiErrors error} (r : option error)
  : bool :=
  match r with
  | Some e => negb (IsConflict e)
  | None => true
  end.

(** what one mapping puts into the expected set *)
Definition contributes (cluster : Elasticsearch.t)
           (policies : gmap string Policy.t) (m : Mapping.t) (x : string)
  : Prop :=
  (x = rolloverName (Elasticsearch.Name cluster) (Mapping.Name m)
   /\ Phases.Hot (Policy.Phases (policyAt policies (Mapping.PolicyRef m)))
      <> None)
  \/ (x = deleteName (Elasticsearch.Name cluster) (Mapping.Name m)
      /\ Phases.Delete (Policy.Phases (policyAt policies (Mapping.PolicyRef m)))
         <> None).

(** the objects handed to [Delete] in a trace, in order *)
Definition deletedObjects {error : Type} (t : list (Event error)) : list Object :=
  flat_map (fun ev => match ev with
                      | DeleteCall obj => [obj]
                      | _ => []
                      end) t.

(** the object [RemoveCronJobsForMappings] builds to delete [name] *)
Definition orphanObject (namespace name : string) : Object :=
  CronJobObject (cronJobNamed name namespace).

(** the key-value context of the deletion-failure log line *)
Definition removalContext (namespace name : string)
  : list (string * kvValue) :=
  [("namespace", KVString namespace); ("name", KVString name)].

(** what the deletion loop logs after a [Delete] answered [r] *)
Definition removalLog {error : Type} `{ApiErrors error} (namespace name : string)
           (r : option error) : list (Event error) :=
  match r with
  | Some e =>
      if negb (IsNotFound e)
      then [LogError e "failed to remove cronjob" (removalContext namespace name)]
      else []
  | None => []
  end.

(** a rendering of shard sizes, for running [calculateConditions] *)
Definition sizeInGigabytes (n : Z) : string := pretty n +:+ "gb".

(** the store of the orphan-cleanup example: rollover and delete jobs of
    mapping X and a rollover job of mapping Y *)
Definition orphanStore : MemStore.t :=
  snd (MemStore.create
         (CronJobObject (sampleJob "elasticsearch-rollover-Y" "*/15 * * * *" ""
                                   (Some [sampleContainer "indexmanagement"])))
         (snd (MemStore.create
                 (CronJobObject
                    (sampleJob "elasticsearch-delete-X" "*/15 * * * *" ""
                               (Some [sampleContainer "indexmanagement"])))
                 (snd (MemStore.create
                         (CronJobObject
                            (sampleJob "elasticsearch-rollover-X" "*/15 * * * *"
                                       ""
                                       (Some [sampleContainer "indexmanagement"])))
                         MemStore.empty))))).

(** what [orphanStore] lists *)
Definition orphanItems : list CronJob.t :=
  match fst (MemStore.listCronJobs "openshift-logging" imLabels orphanStore) with
  | inr items => items
  | inl _ => []
  end.

Definition samplePolicies : gmap string Policy.t :=
  <["hot-only" := hotOnly]> (<["hot-and-delete" := hotAndDelete]> ∅).

(** the stored and the desired job of the drift example *)
Definition storedJob : CronJob.t :=
  sampleJob "elasticsearch-rollover-app" "*/15 * * * *" "1"
            (Some [sampleContainer "indexmanagement"]).
Definition driftedJob : CronJob.t :=
  sampleJob "elasticsearch-rollover-app" "*/5 * * * *" ""
            (Some [sampleContainer "indexmanagement"]).
Definition unchangedJob : CronJob.t :=
  sampleJob "elasticsearch-rollover-app" "*/15 * * * *" ""
            (Some [sampleContainer "indexmanagement"]).

(** ** Building the desired job *)

(** [corev1.Volume] as [newCronJob] fills it.  [PodSpec.Volumes] keeps one
    line per volume; [describe] writes a volume into such a line without
    dropping any of its fields. *)
Module Volume.
Inductive source : Type :=
| Secret (secretName : string)
| ConfigMap (name : string) (defaultMode : option Z).

Record t : Type := mk { Name : string; VolumeSource : source }.

Definition describe (v : t) : string :=
  match VolumeSource v with
  | Secret secretName => Name v +:+ " secret " +:+ secretName
  | ConfigMap name None => Name v +:+ " configmap " +:+ name
  | ConfigMap name (Some mode) =>
      Name v +:+ " configmap " +:+ name +:+ " mode " +:+ pretty mode
  end.
End Volume.

(** [resource.MustParse("100m")] and [resource.MustParse("32Mi")], in
    milli-units *)
Definition defaultCPURequest : Z := 100.
Definition defaultMemoryRequest : Z := 32 * 1024 * 1024 * 1000.

(** Modelled from the spec: [utils.GetInt32] and [utils.GetInt64] are
    outside this file's source; they hand back a pointer to their
    argument (history limits 1 and 1, backoff limit 0, parallelism 1, a
    grace period of 300 seconds). *)
Definition GetInt32 (v : Z) : option Z := Some v.
Definition GetInt64 (v : Z) : option Z := Some v.

Definition jobHistoryLimitFailed : option Z := GetInt32 1.
Definition jobHistoryLimitSuccess : option Z := GetInt32 1.

(** [0o777] *)
Definition fullExecMode : Z := 511.

(** [append(s, xs...)] *)
Definition appendSlice {A : Type} (s xs : slice A) : slice A :=
  match elems xs with
  | [] => s
  | _ :: _ => Some (elems s ++ elems xs)%list
  end.

(** assignments to the fields of a container *)
Definition setEnv (env : slice EnvVar.t) (c : Container.t) : Container.t :=
  Container.mk (Container.Name c) (Container.Image c) (Container.Command c)
               (Container.Args c) (Container.ImagePullPolicy c)
               (Container.Resources c) env (Container.VolumeMounts c).

Definition setCommandAndArgs (command args : slice string) (c : Container.t)
  : Container.t :=
  Container.mk (Container.Name c) (Container.Image c) command args
               (Container.ImagePullPolicy c) (Container.Resources c)
               (Container.Env c) (Container.VolumeMounts c).

Definition setVolumeMounts (mounts : slice VolumeMount.t) (c : Container.t)
  : Container.t :=
  Container.mk (Container.Name c) (Container.Image c) (Container.Command c)
               (Container.Args c) (Container.ImagePullPolicy c)
               (Container.Resources c) (Container.Env c) mounts.

(** [strconv.FormatUint(n, 10)] *)
Definition FormatUint (n : Z) : string := pretty (Z.to_N n).

(** Functions the two entry points and [newCronJob] call but this file
    does not define: three of the same package ([crontabScheduleFor],
    [calculateConditions], [calculateMillisForTimeUnit]), the JSON and
    base64 encoders, the packaged image, the node-selector helper and the
    owner back-reference.  They are an interface. *)
Module Absent.
Class t (error : Type) : Type :=
  { crontabScheduleFor : string -> error + string;
    calculateConditions : Policy.t -> Z -> rolloverConditions.t;
    calculateMillisForTimeUnit : string -> error + Z;
    (** [json.Marshal(map[string]rolloverConditions{"conditions": c})] *)
    jsonMarshal : rolloverConditions.t -> error + string;
    (** [base64.StdEncoding.EncodeToString] *)
    EncodeToString : string -> string;
    PackagedElasticsearchImage : string;
    EnsureLinuxNodeSelector : gomap -> gomap;
    (** [cluster.AddOwnerRefTo(desired)] on a scheduled job *)
    AddOwnerRefTo : Elasticsearch.t -> CronJob.t -> CronJob.t }.
End Absent.

Section NewCronJob.
Context {error : Type} {absent : Absent.t error}.

Definition newCronJob (clusterName image namespace name schedule : string)
           (nodeSelector : gomap) (tolerations : slice Toleration.t)
           (envvars : slice EnvVar.t)
           (fnContainerHander : Container.t -> Container.t) : CronJob.t :=
  let container :=
    Container.mk "indexmanagement" image None None "IfNotPresent"
      (ResourceRequirements.mk
         None
         (Some (<["memory" := defaultMemoryRequest]>
                  (<["cpu" := defaultCPURequest]> ∅))))
      (Some [EnvVar.mk "ES_SERVICE" ("https://" +:+ clusterName +:+ ":9200")])
      None in
  let container := setEnv (appendSlice (Container.Env container) envvars)
                          container in
  let container := fnContainerHander container in
  let container :=
    setVolumeMounts
      (Some [VolumeMount.mk "certs" true "/etc/indexmanagement/keys";
             VolumeMount.mk "scripts" false "/tmp/scripts"])
      container in
  let podSpec :=
    PodSpec.mk clusterName
               (Some [container])
               (Some [Volume.describe
                        (Volume.mk "certs" (Volume.Secret clusterName));
                      Volume.describe
                        (Volume.mk "scripts"
                           (Volume.ConfigMap indexManagementConfigmap
                                             (Some fullExecMode)))])
               (Absent.EnsureLinuxNodeSelector nodeSelector)
               tolerations "Never" (GetInt64 300) in
  CronJob.mk
    (TypeMeta.mk "CronJob" "batch/v1beta1")
    (ObjectMeta.mk name namespace (Some imLabels) None "")
    (CronJobSpec.mk schedule None "Forbid"
       jobHistoryLimitSuccess jobHistoryLimitFailed
       (JobTemplateSpec.mk
          (ObjectMeta.mk "" "" None None "")
          (JobSpec.mk (GetInt32 0) (GetInt32 1)
             (PodTemplateSpec.mk
                (ObjectMeta.mk name namespace (Some imLabels) None "")
                podSpec))))
    (CronJobStatus.mk None None).
End NewCronJob.

(** ** The two entry points for scheduled jobs *)

Section EntryPoints.
Context {error St : Type} {errs : ApiErrors error} {cl : Client error St}.
Context {cmp : Comparators} {absent : Absent.t error}.

(** [log.Info]: informational lines are not part of the trace, which
    records store calls and error lines. *)
Definition logInfo (msg : string) (kv : list (string * kvValue))
  : @M error St unit :=
  ret tt.

(** the job [ReconcileRolloverCronjob] wants stored, for a schedule and
    an encoded payload *)
Definition desiredRolloverJob (cluster : Elasticsearch.t) (mapping : Mapping.t)
           (schedule payload : string) : CronJob.t :=
  let name := rolloverName (Elasticsearch.Name cluster) (Mapping.Name mapping) in
  let envvars :=
    Some [EnvVar.mk "PAYLOAD" (Absent.EncodeToString payload);
          EnvVar.mk "POLICY_MAPPING" (Mapping.Name mapping)] in
  let fnContainerHandler :=
    setCommandAndArgs (Some ["bash"]) (Some ["-c"; "/tmp/scripts/rollover"]) in
  let desired :=
    newCronJob (Elasticsearch.Name cluster) Absent.PackagedElasticsearchImage
               (Elasticsearch.Namespace cluster) name schedule
               (Elasticsearch.NodeSelector cluster)
               (Elasticsearch.Tolerations cluster) envvars fnContainerHandler in
  Absent.AddOwnerRefTo cluster desired.

Definition ReconcileRolloverCronjob (cluster : Elasticsearch.t)
           (policy : Policy.t) (mapping : Mapping.t) (primaryShards : Z)
  : @M error St (option error) :=
  if negb (notNil (Phases.Hot (Policy.Phases policy)))
  then
    do _ <~ logInfo
              "Skipping rollover cronjob for policymapping; hot phase not defined"
              [("policymapping", KVString (Mapping.Name mapping))] ;;
    ret None
  else
    match Absent.crontabScheduleFor (Policy.PollInterval policy) with
    | inl err =>
        ret (Wrap (Some err) "failed to reconcile rollover cronjob"
                  [("policymapping", KVString (Mapping.Name mapping))])
    | inr schedule =>
        let conditions := Absent.calculateConditions policy primaryShards in
        match Absent.jsonMarshal conditions with
        | inl err =>
            ret (Wrap (Some err)
                      "failed to serialize the rollover conditions to JSON" [])
        | inr payload =>
            reconcileCronJob cluster
                             (desiredRolloverJob cluster mapping schedule payload)
                             areCronJobsSame
        end
    end.

(** the job [ReconcileCurationCronjob] wants stored, for a schedule and a
    minimum age in milliseconds *)
Definition desiredCurationJob (cluster : Elasticsearch.t) (mapping : Mapping.t)
           (schedule : string) (minAgeMillis : Z) : CronJob.t :=
  let name := deleteName (Elasticsearch.Name cluster) (Mapping.Name mapping) in
  let envvars :=
    Some [EnvVar.mk "POLICY_MAPPING" (Mapping.Name mapping);
          EnvVar.mk "MIN_AGE" (FormatUint minAgeMillis)] in
  let fnContainerHandler :=
    setCommandAndArgs (Some ["bash"]) (Some ["-c"; "/tmp/scripts/delete"]) in
  let desired :=
    newCronJob (Elasticsearch.Name cluster) Absent.PackagedElasticsearchImage
               (Elasticsearch.Namespace cluster) name schedule
               (Elasticsearch.NodeSelector cluster)
               (Elasticsearch.Tolerations cluster) envvars fnContainerHandler in
  Absent.AddOwnerRefTo cluster desired.

Definition ReconcileCurationCronjob (cluster : Elasticsearch.t)
           (policy : Policy.t) (mapping : Mapping.t) (primaryShards : Z)
  : @M error St (option error) :=
  match Phases.Delete (Policy.Phases policy) with
  | None =>
      do _ <~ logInfo
                "Skipping curation cronjob for policymapping; delete phase not defined"
                [("policymapping", KVString (Mapping.Name mapping))] ;;
      ret None
  | Some deletePhase =>
      match Absent.crontabScheduleFor (Policy.PollInterval policy) with
      | inl err => ret (Some err)
      | inr schedule =>
          match Absent.calculateMillisForTimeUnit
                  (DeletePhase.MinAge deletePhase) with
          | inl err => ret (Some err)
          | inr minAgeMillis =>
              reconcileCronJob cluster
                               (desiredCurationJob cluster mapping schedule
                                                   minAgeMillis)
                               areCronJobsSame
          end
      end
  end.
End EntryPoints.

(** ** Vocabulary for the further properties *)

(** the verdict of a sameness call, without the object handed back *)
Definition verdictOf (o : outcome (bool * CronJob.t)) : outcome bool :=
  match o with
  | Returns v => Returns (fst v)
  | Panics msg => Panics msg
  end.

(** the fields of a container that [areCronJobsSame] reads *)
Definition comparedOfContainer (c : Container.t)
  : string * string * slice string * slice string
    * ResourceRequirements.t * slice EnvVar.t :=
  (Container.Name c, Container.Image c, Container.Command c, Container.Args c,
   Container.Resources c, Container.Env c).

(** the fields of a scheduled job that [areCronJobsSame] reads *)
Definition comparedPart (job : CronJob.t)
  : string * option bool * gomap * slice Toleration.t
    * list (string * string * slice string * slice string
            * ResourceRequirements.t * slice EnvVar.t) :=
  (CronJobSpec.Schedule (CronJob.Spec job),
   CronJobSpec.Suspend (CronJob.Spec job),
   PodSpec.NodeSelector (CronJob.podSpec job),
   PodSpec.Tolerations (CronJob.podSpec job),
   comparedOfContainer <$> elems (PodSpec.Containers (CronJob.podSpec job))).

(** the comparators answer "same" when given the values of [job] twice *)
Definition comparatorsAccept `{Comparators} (job : CronJob.t) : Prop :=
  AreStringMapsSame (PodSpec.NodeSelector (CronJob.podSpec job))
                    (PodSpec.NodeSelector (CronJob.podSpec job)) = true
  /\ AreTolerationsSame (PodSpec.Tolerations (CronJob.podSpec job))
                        (PodSpec.Tolerations (CronJob.podSpec job)) = true
  /\ Forall (fun c =>
               AreResourceRequementsSame (Container.Resources c)
                                         (Container.Resources c) = true
               /\ EnvValueEqual (Container.Env c) (Container.Env c) = true)
            (elems (PodSpec.Containers (CronJob.podSpec job))).

(** the assignment [job.Spec.Suspend = flag] *)
Definition setSuspend (flag : option bool) (job : CronJob.t) : CronJob.t :=
  CronJob.setSpec
    (CronJobSpec.mk (CronJobSpec.Schedule (CronJob.Spec job)) flag
                    (CronJobSpec.ConcurrencyPolicy (CronJob.Spec job))
                    (CronJobSpec.SuccessfulJobsHistoryLimit (CronJob.Spec job))
                    (CronJobSpec.FailedJobsHistoryLimit (CronJob.Spec job))
                    (CronJobSpec.JobTemplate (CronJob.Spec job)))
    job.

(** a stored job as a cluster decorates and an operator edits it: other
    metadata, status, concurrency policy, history limits, job and pod
    settings, and on each container another pull policy and no mounts;
    what [areCronJobsSame] reads is left as in [job] *)
Definition decorated (job : CronJob.t) : CronJob.t :=
  CronJob.mk
    (CronJob.Type_ job)
    (ObjectMeta.mk (CronJob.Name job) (CronJob.Namespace job)
                   (Some (<["edited" := "yes"]> imLabels)) (Some ["owner"])
                   "4711")
    (CronJobSpec.mk
       (CronJobSpec.Schedule (CronJob.Spec job))
       (CronJobSpec.Suspend (CronJob.Spec job))
       "Allow" (Some 3) (Some 5)
       (JobTemplateSpec.mk
          (ObjectMeta.mk "" "" None None "")
          (JobSpec.mk (Some 6) (Some 2)
             (PodTemplateSpec.mk
                (ObjectMeta.mk "" "" None None "")
                (PodSpec.mk
                   "default"
                   (Some ((fun c => setVolumeMounts
                                      None
                                      (Container.mk
                                         (Container.Name c) (Container.Image c)
                                         (Container.Command c) (Container.Args c)
                                         "Always" (Container.Resources c)
                                         (Container.Env c)
                                         (Container.VolumeMounts c)))
                            <$> elems (PodSpec.Containers (CronJob.podSpec job))))
                   None
                   (PodSpec.NodeSelector (CronJob.podSpec job))
                   (PodSpec.Tolerations (CronJob.podSpec job))
                   "OnFailure" (Some 30))))))
    (CronJobStatus.mk (Some ["job-1"]) (Some 1700000000)).

Definition isGetCall {error : Type} (e : Event error) : bool :=
  match e with
  | GetCronJobCall _ | GetConfigMapCall _ => true
  | _ => false
  end.

(** what the retry loop of [reconcileCronJob] may leave in the trace: a
    [Get] of the desired key, or an [Update] of a job carrying the desired
    specification *)
Definition cronJobRetryEvent {error : Type} (desired : CronJob.t)
           (ev : Event error) : Prop :=
  ev = GetCronJobCall (NamespacedName.mk (CronJob.Name desired)
                                         (CronJob.Namespace desired))
  \/ exists job, ev = UpdateCall (CronJobObject job)
                 /\ CronJob.Spec job = CronJob.Spec desired.

(** the same for [ReconcileCurationConfigmap] *)
Definition configMapRetryEvent {error : Type} (desired : ConfigMap.t)
           (ev : Event error) : Prop :=
  ev = GetConfigMapCall (NamespacedName.mk (ConfigMap.Name desired)
                                           (ConfigMap.Namespace desired))
  \/ exists cm, ev = UpdateCall (ConfigMapObject cm)
                /\ ConfigMap.Data cm = ConfigMap.Data desired.

(** what the deletion loop of [RemoveCronJobsForMappings] may leave in the
    trace: a [Delete] of a bare job of the namespace, or an error line *)
Definition cleanupEvent {error : Type} (namespace : string) (ev : Event error)
  : Prop :=
  (exists name, ev = DeleteCall (orphanObject namespace name))
  \/ exists e name, ev = LogError e "failed to remove cronjob"
                                  (removalContext namespace name).

(** A store that answers by script: fixed answers to [Create], the two
    [Get]s, [Delete] and [List], and an answer to [Update] that depends on
    how many updates came before.  The state counts the updates. *)
Definition scriptedClient {error : Type} (onCreate : option error)
           (onGetCronJob : error + CronJob.t)
           (onGetConfigMap : error + ConfigMap.t)
           (onUpdate : nat -> option error) (onDelete : option error)
           (onList : error + list CronJob.t) : Client error nat :=
  {| Create := fun _ n => (onCreate, n);
     GetCronJob := fun _ n => (onGetCronJob, n);
     GetConfigMap := fun _ n => (onGetConfigMap, n);
     Update := fun _ n => (onUpdate n, S n);
     Delete := fun _ n => (onDelete, n);
     ListCronJobs := fun _ _ n => (onList, n) |}.

(** a config map as the store might hold it, with other scripts *)
Definition staleConfigMap : ConfigMap.t :=
  ConfigMap.mk (TypeMeta.mk "ConfigMap" "v1")
               (ObjectMeta.mk indexManagementConfigmap "openshift-logging"
                              (Some imLabels) (Some ["elasticsearch"]) "12")
               (Some (<["rollover" := "#!/bin/sh"]> ∅)).

(** a job with a second container next to the one of [storedJob] *)
Definition sidecarJob : CronJob.t :=
  sampleJob "elasticsearch-rollover-app" "*/15 * * * *" "1"
            (Some [sampleContainer "indexmanagement"; sampleContainer "sidecar"]).

(** a job without containers *)
Definition emptiedJob : CronJob.t :=
  sampleJob "elasticsearch-rollover-app" "*/15 * * * *" "1" None.

(** ** Reference instances for the entry points *)

(** errors of a whole pass: what the store answers, what a translation
    refuses, and either of them with context *)
Inductive passError : Type :=
| StoreAnswer (e : apiError)
| BadInput (what input : string)
| InContext (cause : passError) (msg : string) (kv : list (string * kvValue)).

Definition passErrors : ApiErrors passError :=
  {| IsAlreadyExists e := match e with
                          | StoreAnswer ErrAlreadyExists => true
                          | _ => false
                          end;
     IsNotFound e := match e with
                     | StoreAnswer ErrNotFound => true
                     | _ => false
                     end;
     IsConflict e := match e with
                     | StoreAnswer ErrConflict => true
                     | _ => false
                     end;
     WrapError := InContext |}.

(** stand-ins for the absent functions: one poll interval is known, the
    conditions and durations are those of the translator above, and a
    negative document count does not serialize *)
Definition sampleAbsent : Absent.t passError :=
  {| Absent.crontabScheduleFor interval :=
       if String.eqb interval "15m" then inr "*/15 * * * *"
       else inl (BadInput "poll interval" interval);
     Absent.calculateConditions policy primaryShards :=
       match Phases.Hot (Policy.Phases policy) with
       | Some hot => calculateConditions sizeInGigabytes hot primaryShards
       | None => rolloverConditions.mk "" 0 ""
       end;
     Absent.calculateMillisForTimeUnit timeunit :=
       match calculateMillisForTimeUnit timeunit with
       | Some millis => inr millis
       | None => inl (BadInput "time unit" timeunit)
       end;
     Absent.jsonMarshal conditions :=
       if rolloverConditions.MaxDocs conditions <? 0
       then inl (BadInput "max_docs" (pretty (rolloverConditions.MaxDocs conditions)))
       else inr ("{conditions:{max_age:" +:+ rolloverConditions.MaxAge conditions
                 +:+ ",max_size:" +:+ rolloverConditions.MaxSize conditions
                 +:+ "}}");
     Absent.EncodeToString text := "base64(" +:+ text +:+ ")";
     Absent.PackagedElasticsearchImage :=
       "quay.io/openshift/elasticsearch:latest";
     Absent.EnsureLinuxNodeSelector selector :=
       Some (<["kubernetes.io/os" := "linux"]>
               (match selector with
                | Some m => m
                | None => ∅
                end));
     Absent.AddOwnerRefTo cluster job :=
       CronJob.mk (CronJob.Type_ job)
                  (ObjectMeta.mk (CronJob.Name job) (CronJob.Namespace job)
                                 (ObjectMeta.Labels (CronJob.Meta job))
                                 (Some [Elasticsearch.Name cluster])
                                 (ObjectMeta.ResourceVersion (CronJob.Meta job)))
                  (CronJob.Spec job) (CronJob.Status job) |}.

Definition noPhases : Policy.t :=
  Policy.mk "no-phases" "15m" (Phases.mk None None).

Definition badInterval : Policy.t :=
  Policy.mk "bad-interval" "every now and then"
            (Phases.mk (Some (HotPhase.mk (Some "1d") None None))
                       (Some (DeletePhase.mk "7d"))).

Definition hotAndDeleteQuarterly : Policy.t :=
  Policy.mk "hot-and-delete" "15m"
            (Phases.mk (Some (HotPhase.mk (Some "1d") None None))
                       (Some (DeletePhase.mk "7d"))).

(** the job the rollover entry point wants for mapping [app] under
    [hotAndDeleteQuarterly] with three shards *)
Definition wantedRolloverJob : CronJob.t :=
  @desiredRolloverJob passError sampleAbsent sampleCluster
    (Mapping.mk "app" "hot-and-delete") "*/15 * * * *"
    "{conditions:{max_age:1d,max_size:120gb}}".

(** scripted stores: the object exists and holds [storedJob]; the first
    update meets a conflict, or every update does *)
Definition conflictOnceClient : Client apiError nat :=
  scriptedClient (Some ErrAlreadyExists) (inr storedJob) (inl ErrNotFound)
                 (fun n => match n with
                           | O => Some ErrConflict
                           | S _ => None
                           end)
                 None (inr []).

Definition alwaysConflictClient : Client apiError nat :=
  scriptedClient (Some ErrAlreadyExists) (inr storedJob) (inl ErrNotFound)
                 (fun _ => Some ErrConflict) None (inr []).

(** the Create is refused as a duplicate, but nothing can be read *)
Definition unreadableClient : Client apiError nat :=
  scriptedClient (Some ErrAlreadyExists) (inl ErrNotFound) (inl ErrNotFound)
                 (fun _ => None) None (inr []).

(** the listing is refused *)
Definition listFailsClient : Client apiError nat :=
  scriptedClient None (inl ErrNotFound) (inl ErrNotFound) (fun _ => None) None
                 (inl ErrForbidden).

(** a store that accepts every Create and lists nothing *)
Definition acceptingClient : Client passError nat :=
  scriptedClient None (inl (StoreAnswer ErrNotFound))
                 (inl (StoreAnswer ErrNotFound)) (fun _ => None) None (inr []).

(** a store that holds [job] under every key *)
Definition holdingClient (job : CronJob.t) : Client passError nat :=
  scriptedClient (Some (StoreAnswer ErrAlreadyExists)) (inr job)
                 (inl (StoreAnswer ErrNotFound)) (fun _ => None) None
                 (inr [job]).

(** [storedJob] after the predicate has assigned it the schedule of
    [driftedJob] *)
Definition adoptedJob : CronJob.t :=
  sampleJob "elasticsearch-rollover-app" "*/5 * * * *" "1"
            (Some [sampleContainer "indexmanagement"]).

(** a store holding only [staleConfigMap] *)
Definition staleConfigStore : MemStore.t :=
  MemStore.mk ∅ {[ MemStore.keyOf (ConfigMap.Meta staleConfigMap)
                   := staleConfigMap ]}.

(** a store holding only the rollover job of mapping X *)
Definition convergedStore : MemStore.t :=
  storeWith (sampleJob "elasticsearch-rollover-X" "*/15 * * * *" "1"
                       (Some [sampleContainer "indexmanagement"])).

Definition phaselessPolicies : gmap string Policy.t :=
  <["no-phases" := noPhases]> ∅.

Definition quarterlyPolicies : gmap string Policy.t :=
  <["hot-and-delete" := hotAndDeleteQuarterly]> ∅.

(** a job as [newCronJob] builds it, before the owner back-reference *)
Definition builtRolloverJob : CronJob.t :=
  @newCronJob passError sampleAbsent
    "elasticsearch" "quay.io/openshift/elasticsearch:latest"
    "openshift-logging" "elasticsearch-rollover-app" "*/15 * * * *" None None
    (Some [EnvVar.mk "PAYLOAD" "cGF5bG9hZA=="; EnvVar.mk "POLICY_MAPPING" "app"])
    (setCommandAndArgs (Some ["bash"]) (Some ["-c"; "/tmp/scripts/rollover"])).

(** Two mappings of one name with different policies: the first policy
    has no phase, the second a Hot phase. *)
Definition sharedNameMappings : list Mapping.t :=
  [Mapping.mk "a" "no-phases"; Mapping.mk "a" "hot-only"].

Definition sharedNamePolicies : gmap string Policy.t :=
  <["no-phases" := noPhases]> samplePolicies.

(** Two mappings named Y: the first refers to a policy that is not in
    [samplePolicies], the second to the hot-only policy. *)
Definition danglingTwinMappings : list Mapping.t :=
  [Mapping.mk "Y" "no-such-policy"; Mapping.mk "Y" "hot-only"].

(** * Properties of the sameness predicate *)

Section SamenessFacts.
Context {cmp : Comparators}.

Lemma containerLoop_in_range (containers others : list Container.t) (i : nat) :
  (i + length containers <= length others)%nat ->
  exists b, containerLoop i containers others = Returns b.
Proof.
  revert i. induction containers as [|c rest IH]; intros i Hlen; simpl in *.
  - eauto.
  - destruct (others !! i) as [o|] eqn:Ho.
    + destruct (compareContainer c o); [eauto|].
      apply IH. lia.
    + apply lookup_ge_None in Ho. lia.
Qed.

Lemma containerLoop_agree (containers others : list Container.t) (i : nat) :
  (forall j c o, containers !! j = Some c -> others !! (i + j)%nat = Some o ->
                 compareContainer c o = None) ->
  (i + length containers <= length others)%nat ->
  containerLoop i containers others = Returns true.
Proof.
  revert i. induction containers as [|c rest IH]; intros i Hag Hlen; simpl in *.
  - reflexivity.
  - destruct (others !! i) as [o|] eqn:Ho.
    + rewrite (Hag 0%nat c o); [|reflexivity|by rewrite Nat.add_0_r].
      apply IH; [|lia].
      intros j c' o' Hc Ho'. apply (Hag (S j) c' o'); [exact Hc|].
      by rewrite Nat.add_succ_r.
    + apply lookup_ge_None in Ho. lia.
Qed.

Lemma containerLoop_overrun (containers others : list Container.t) (i : nat) :
  (forall j c o, containers !! j = Some c -> others !! (i + j)%nat = Some o ->
                 compareContainer c o = None) ->
  (i <= length others)%nat ->
  (length others < i + length containers)%nat ->
  containerLoop i containers others = Panics "index out of range".
Proof.
  revert i.
  induction containers as [|c rest IH]; intros i Hag Hi Hlen; simpl in *.
  - lia.
  - destruct (others !! i) as [o|] eqn:Ho; [|reflexivity].
    rewrite (Hag 0%nat c o); [|reflexivity|by rewrite Nat.add_0_r].
    apply lookup_lt_Some in Ho.
    apply IH; [|lia|lia].
    intros j c' o' Hc Ho'. apply (Hag (S j) c' o'); [exact Hc|].
    by rewrite Nat.add_succ_r.
Qed.

Lemma containerCountGuard_false (lhs rhs : CronJob.t) :
  containerCountGuard lhs rhs = false.
Proof. unfold containerCountGuard. by rewrite Nat.eqb_refl. Qed.

Lemma areCronJobsSame_after_header (lhs rhs : CronJob.t) :
  headerSame lhs rhs = true ->
  areCronJobsSame lhs rhs =
  match containerLoop 0 (elems (PodSpec.Containers (CronJob.podSpec lhs)))
                      (elems (PodSpec.Containers (CronJob.podSpec rhs))) with
  | Returns b => Returns (b, lhs)
  | Panics msg => Panics msg
  end.
Proof.
  unfold headerSame, areCronJobsSame. intros Hh.
  apply andb_prop in Hh as [Hh Hsus]. apply andb_prop in Hh as [Hh Hsch].
  apply andb_prop in Hh as [Hsel Htol].
  rewrite containerCountGuard_false, Hsel, Htol, Hsch. simpl.
  apply negb_true_iff in Hsus. by rewrite Hsus.
Qed.

(** a differing schedule alone decides the verdict, and the schedule of
    [lhs] is assigned only if the two comparators before it pass *)
Lemma areCronJobsSame_schedule_differs (lhs rhs : CronJob.t) :
  CronJobSpec.Schedule (CronJob.Spec lhs)
  <> CronJobSpec.Schedule (CronJob.Spec rhs) ->
  exists lhs', areCronJobsSame lhs rhs = Returns (false, lhs')
               /\ CronJob.Type_ lhs' = CronJob.Type_ lhs
               /\ CronJob.Meta lhs' = CronJob.Meta lhs
               /\ CronJob.Status lhs' = CronJob.Status lhs.
Proof.
  intros Hne. unfold areCronJobsSame.
  rewrite containerCountGuard_false. simpl.
  destruct (AreStringMapsSame _ _); simpl; [|by eauto].
  destruct (AreTolerationsSame _ _); simpl; [|by eauto].
  apply String.eqb_neq in Hne. rewrite Hne. simpl. by eauto.
Qed.

Lemma areCronJobsSame_panics_only_on_overrun (lhs rhs : CronJob.t) (msg : string) :
  areCronJobsSame lhs rhs = Panics msg ->
  (containerCount rhs < containerCount lhs)%nat.
Proof.
  intros Hp. unfold containerCount.
  destruct (Nat.le_gt_cases
              (length (elems (PodSpec.Containers (CronJob.podSpec lhs))))
              (length (elems (PodSpec.Containers (CronJob.podSpec rhs)))))
    as [Hle|Hgt]; [exfalso|exact Hgt].
  destruct (containerLoop_in_range _ _ 0%nat Hle) as [b Hb].
  unfold areCronJobsSame in Hp. rewrite Hb in Hp.
  repeat match type of Hp with
         | (if ?c then _ else _) = _ => destruct c
         end; discriminate.
Qed.

(** C1 (as the code behaves): with fewer containers on the current side
    than on the desired side, and everything the predicate does look at
    agreeing, [areCronJobsSame] answers "same": the differing container
    counts are not reported. *)
Theorem areCronJobsSame_misses_container_count (lhs rhs : CronJob.t) :
  (containerCount lhs < containerCount rhs)%nat ->
  headerSame lhs rhs = true ->
  containersAgree (elems (PodSpec.Containers (CronJob.podSpec lhs)))
                  (elems (PodSpec.Containers (CronJob.podSpec rhs))) ->
  areCronJobsSame lhs rhs = Returns (true, lhs).
Proof.
  intros Hlt Hh Hag. rewrite (areCronJobsSame_after_header _ _ Hh).
  rewrite containerLoop_agree; [reflexivity| |unfold containerCount in Hlt; lia].
  intros j c o Hc Ho. exact (Hag j c o Hc Ho).
Qed.

(** C9: the count guard never fires; the predicate returns whenever the
    current object has no more containers than the desired one; it panics
    on an out-of-range index when the current object has strictly more
    containers and every check made before that index is reached passes;
    and a panic happens in no other case. *)
Theorem areCronJobsSame_total_only_without_extra_containers (lhs rhs : CronJob.t) :
  containerCountGuard lhs rhs = false
  /\ ((containerCount lhs <= containerCount rhs)%nat ->
      exists v, areCronJobsSame lhs rhs = Returns v)
  /\ ((containerCount rhs < containerCount lhs)%nat ->
      headerSame lhs rhs = true ->
      containersAgree (elems (PodSpec.Containers (CronJob.podSpec lhs)))
                      (elems (PodSpec.Containers (CronJob.podSpec rhs))) ->
      areCronJobsSame lhs rhs = Panics "index out of range")
  /\ (forall msg, areCronJobsSame lhs rhs = Panics msg ->
                  (containerCount rhs < containerCount lhs)%nat).
Proof.
  split; [apply containerCountGuard_false|].
  split; [|split].
  - intros Hle.
    destruct (areCronJobsSame lhs rhs) as [v|msg] eqn:Hr; [eauto|].
    apply areCronJobsSame_panics_only_on_overrun in Hr. lia.
  - intros Hgt Hh Hag. rewrite (areCronJobsSame_after_header _ _ Hh).
    rewrite containerLoop_overrun; [reflexivity| |lia|exact Hgt].
    intros j c o Hc Ho. exact (Hag j c o Hc Ho).
  - intros msg. apply areCronJobsSame_panics_only_on_overrun.
Qed.
End SamenessFacts.

(** C1, at a concrete pair: no container stored, one desired. *)
Lemma areCronJobsSame_misses_container_count_witness :
  containerCount (sampleJob "es-rollover-app" "*/15 * * * *" "7" None) = 0%nat
  /\ containerCount (sampleJob "es-rollover-app" "*/15 * * * *" ""
                               (Some [sampleContainer "indexmanagement"])) = 1%nat
  /\ @areCronJobsSame plainComparators
       (sampleJob "es-rollover-app" "*/15 * * * *" "7" None)
       (sampleJob "es-rollover-app" "*/15 * * * *" ""
                  (Some [sampleContainer "indexmanagement"]))
     = Returns (true, sampleJob "es-rollover-app" "*/15 * * * *" "7" None).
Proof.
  split; [reflexivity|]. split; [reflexivity|].
  apply (@areCronJobsSame_misses_container_count plainComparators).
  - vm_compute. lia.
  - vm_compute. reflexivity.
  - intros i c o Hc. destruct i; discriminate Hc.
Defined.

(** C9, at a concrete pair: one container stored, none desired. *)
Lemma areCronJobsSame_total_only_without_extra_containers_witness :
  @areCronJobsSame plainComparators
    (sampleJob "es-rollover-app" "*/15 * * * *" "7"
               (Some [sampleContainer "indexmanagement"]))
    (sampleJob "es-rollover-app" "*/15 * * * *" "" None)
  = Panics "index out of range".
Proof.
  apply (@areCronJobsSame_total_only_without_extra_containers plainComparators).
  - vm_compute. lia.
  - vm_compute. reflexivity.
  - intros i c o _ Ho. destruct i; discriminate Ho.
Defined.

(** * Properties of the create-or-update protocol *)

Section ConvergerFacts.
Context {error St : Type} {errs : ApiErrors error} {cl : Client error St}.
Context {cmp : Comparators} {pkg : Packaging}.

Lemma bind_roundTrip {A B : Type} (op : St -> A * St) (ev : Event error)
      (k : A -> @M error St B) (s : St) :
  bind (roundTrip op ev) k s =
  (resultOf (k (fst (op s))) (snd (op s)),
   storeAfter (k (fst (op s))) (snd (op s)),
   ev :: traceOf (k (fst (op s))) (snd (op s))).
Proof.
  unfold bind, roundTrip, resultOf, storeAfter, traceOf.
  destruct (op s) as [a s1]. simpl.
  by destruct (k a s1) as [[r s2] t2].
Qed.

Lemma bind_trace_head {A B : Type} (m : @M error St A) (k : A -> @M error St B)
      (s : St) (ev : Event error) :
  (exists rest, traceOf m s = ev :: rest) ->
  exists rest, traceOf (bind m k) s = ev :: rest.
Proof.
  unfold traceOf, bind. destruct (m s) as [[[a|msg] s1] t1]; simpl.
  - intros [rest ->]. destruct (k a s1) as [[r s2] t2]. simpl. eauto.
  - intros [rest ->]. eauto.
Qed.

Lemma retry_starts_with_fn (n : nat) (fn : @M error St (option error)) (s : St)
      (ev : Event error) :
  (exists rest, traceOf fn s = ev :: rest) ->
  exists rest, traceOf (RetryOnConflict (S n) fn) s = ev :: rest.
Proof. intros Hfn. unfold RetryOnConflict. simpl. by apply bind_trace_head. Qed.

Lemma updateCronJobOnce_starts_with_get (desired : CronJob.t)
      (fn : CronJob.t -> CronJob.t -> outcome (bool * CronJob.t)) (s : St) :
  exists rest,
    traceOf (updateCronJobOnce desired fn) s =
    GetCronJobCall (NamespacedName.mk (CronJob.Name desired)
                                      (CronJob.Namespace desired)) :: rest.
Proof.
  unfold updateCronJobOnce, traceOf. rewrite bind_roundTrip. simpl. eauto.
Qed.

Lemma updateConfigMapOnce_starts_with_get (desired : ConfigMap.t) (s : St) :
  exists rest,
    traceOf (updateConfigMapOnce desired) s =
    GetConfigMapCall (NamespacedName.mk (ConfigMap.Name desired)
                                        (ConfigMap.Namespace desired)) :: rest.
Proof.
  unfold updateConfigMapOnce, traceOf. rewrite bind_roundTrip. simpl. eauto.
Qed.

(** the tail of both reconcilers: wrap whatever the retry loop returned *)
Lemma bind_then_wrap (m : @M error St (option error)) (msg : string)
      (kv : list (string * kvValue)) (s : St) :
  bind m (fun err => ret (Wrap err msg kv)) s =
  (match resultOf m s with
   | Returns err => Returns (Wrap err msg kv)
   | Panics p => Panics p
   end,
   storeAfter m s, traceOf m s).
Proof.
  unfold bind, ret, resultOf, storeAfter, traceOf.
  destruct (m s) as [[[err|p] s1] t1]; simpl; [|reflexivity].
  by rewrite app_nil_r.
Qed.

(** C4: the reconcilers branch on the answer to [Create] alone.  On
    success they return nil having made no other call; on "already exists"
    they run the retry loop, whose first call is the [Get], and return its
    error wrapped; on any other failure they return that failure wrapped,
    again with [Create] as the only call. *)
Theorem create_answer_selects_the_path (cluster : Elasticsearch.t)
        (desired : CronJob.t)
        (fn : CronJob.t -> CronJob.t -> outcome (bool * CronJob.t)) (s : St) :
  (let created := Create (CronJobObject desired) s in
   let run := reconcileCronJob cluster desired fn s in
   let loop := RetryOnConflict DefaultRetrySteps (updateCronJobOnce desired fn) in
   match fst created with
   | None => run = (Returns None, snd created, [CreateCall (CronJobObject desired)])
   | Some e =>
       if IsAlreadyExists e
       then
         run =
         (match resultOf loop (snd created) with
          | Returns err =>
              Returns (Wrap err "failed to update cronjob for cluster"
                            [("namespace", KVString (CronJob.Namespace desired));
                             ("cluster", KVString (CronJob.Name desired))])
          | Panics p => Panics p
          end,
          storeAfter loop (snd created),
          CreateCall (CronJobObject desired) :: traceOf loop (snd created))
         /\ exists rest,
             traceOf loop (snd created) =
             GetCronJobCall (NamespacedName.mk (CronJob.Name desired)
                                               (CronJob.Namespace desired))
             :: rest
       else
         run =
         (Returns (Some (WrapError e "failed to create cronjob for cluster"
                           [("namespace",
                             KVString (Elasticsearch.Namespace cluster));
                            ("cluster", KVString (Elasticsearch.Name cluster))])),
          snd created, [CreateCall (CronJobObject desired)])
   end)
  /\
  (let wanted := desiredConfigMap cluster in
   let created := Create (ConfigMapObject wanted) s in
   let run := ReconcileCurationConfigmap cluster s in
   let loop := RetryOnConflict DefaultRetrySteps (updateConfigMapOnce wanted) in
   let errCtx :=
     [("configmap", KVString (ConfigMap.Name wanted));
      ("cluster", KVString (Elasticsearch.Name cluster));
      ("namespace", KVString (Elasticsearch.Namespace cluster))] in
   match fst created with
   | None => run = (Returns None, snd created, [CreateCall (ConfigMapObject wanted)])
   | Some e =>
       if IsAlreadyExists e
       then
         run =
         (match resultOf loop (snd created) with
          | Returns err => Returns (Wrap err "failed to update configmap" errCtx)
          | Panics p => Panics p
          end,
          storeAfter loop (snd created),
          CreateCall (ConfigMapObject wanted) :: traceOf loop (snd created))
         /\ exists rest,
             traceOf loop (snd created) =
             GetConfigMapCall (NamespacedName.mk (ConfigMap.Name wanted)
                                                 (ConfigMap.Namespace wanted))
             :: rest
       else
         run =
         (Returns (Some (WrapError e "failed to create cluster configmap" errCtx)),
          snd created, [CreateCall (ConfigMapObject wanted)])
   end).
Proof.
  split.
  - cbv zeta. unfold reconcileCronJob. rewrite bind_roundTrip.
    destruct (Create (CronJobObject desired) s) as [[e|] s1]; simpl;
      [|reflexivity].
    destruct (IsAlreadyExists e); simpl; [|reflexivity].
    split.
    + unfold resultOf at 1, storeAfter at 1, traceOf at 1.
      rewrite bind_then_wrap. reflexivity.
    + apply retry_starts_with_fn, updateCronJobOnce_starts_with_get.
  - cbv zeta. unfold ReconcileCurationConfigmap. rewrite bind_roundTrip.
    destruct (Create (ConfigMapObject (desiredConfigMap cluster)) s)
      as [[e|] s1]; simpl; [|reflexivity].
    destruct (IsAlreadyExists e); simpl; [|reflexivity].
    split.
    + unfold resultOf at 1, storeAfter at 1, traceOf at 1.
      rewrite bind_then_wrap. reflexivity.
    + apply retry_starts_with_fn, updateConfigMapOnce_starts_with_get.
Qed.
(** C3: on the update path, when the sameness predicate answers "same"
    for the fetched object, the run ends with nil after exactly the refused
    [Create] and the [Get]: no [Update] is issued, and the store is the one
    the [Get] left.  The same holds for the configuration object, whose
    sameness is deep equality of the data maps. *)
Theorem same_verdict_issues_no_update (cluster : Elasticsearch.t)
        (desired : CronJob.t)
        (fn : CronJob.t -> CronJob.t -> outcome (bool * CronJob.t))
        (s s1 s2 : St) (e : error) :
  IsAlreadyExists e = true ->
  (forall current current',
      Create (CronJobObject desired) s = (Some e, s1) ->
      GetCronJob (NamespacedName.mk (CronJob.Name desired)
                                    (CronJob.Namespace desired)) s1
      = (inr current, s2) ->
      fn current desired = Returns (true, current') ->
      reconcileCronJob cluster desired fn s =
      (Returns None, s2,
       [CreateCall (CronJobObject desired);
        GetCronJobCall (NamespacedName.mk (CronJob.Name desired)
                                          (CronJob.Namespace desired))])
      /\ existsb isUpdateCall (traceOf (reconcileCronJob cluster desired fn) s)
         = false)
  /\
  (forall current,
      Create (ConfigMapObject (desiredConfigMap cluster)) s = (Some e, s1) ->
      GetConfigMap (NamespacedName.mk
                      (ConfigMap.Name (desiredConfigMap cluster))
                      (ConfigMap.Namespace (desiredConfigMap cluster))) s1
      = (inr current, s2) ->
      deepEqualData (ConfigMap.Data (desiredConfigMap cluster))
                    (ConfigMap.Data current) = true ->
      ReconcileCurationConfigmap cluster s =
      (Returns None, s2,
       [CreateCall (ConfigMapObject (desiredConfigMap cluster));
        GetConfigMapCall (NamespacedName.mk
                            (ConfigMap.Name (desiredConfigMap cluster))
                            (ConfigMap.Namespace (desiredConfigMap cluster)))])
      /\ existsb isUpdateCall (traceOf (ReconcileCurationConfigmap cluster) s)
         = false).
Proof.
  intros He. split.
  - intros current current' Hc Hg Hfn.
    assert (Hrun : reconcileCronJob cluster desired fn s =
                   (Returns None, s2,
                    [CreateCall (CronJobObject desired);
                     GetCronJobCall
                       (NamespacedName.mk (CronJob.Name desired)
                                          (CronJob.Namespace desired))])).
    { unfold reconcileCronJob. rewrite bind_roundTrip, Hc. simpl. rewrite He.
      simpl. unfold resultOf, storeAfter, traceOf. rewrite bind_then_wrap.
      unfold RetryOnConflict, DefaultRetrySteps, retryLoop, updateCronJobOnce.
      unfold resultOf, storeAfter, traceOf, bind, roundTrip, liftOutcome, ret.
      rewrite Hg, Hfn. reflexivity. }
    split; [exact Hrun|]. unfold traceOf. rewrite Hrun. reflexivity.
  - intros current Hc Hg Heq.
    assert (Hrun : ReconcileCurationConfigmap cluster s =
                   (Returns None, s2,
                    [CreateCall (ConfigMapObject (desiredConfigMap cluster));
                     GetConfigMapCall
                       (NamespacedName.mk
                          (ConfigMap.Name (desiredConfigMap cluster))
                          (ConfigMap.Namespace (desiredConfigMap cluster)))])).
    { unfold ReconcileCurationConfigmap. rewrite bind_roundTrip, Hc. simpl.
      rewrite He. simpl. unfold resultOf, storeAfter, traceOf.
      rewrite bind_then_wrap.
      unfold RetryOnConflict, DefaultRetrySteps, retryLoop, updateConfigMapOnce.
      unfold resultOf, storeAfter, traceOf, bind, roundTrip, ret.
      rewrite Hg, Heq. reflexivity. }
    split; [exact Hrun|]. unfold traceOf. rewrite Hrun. reflexivity.
Qed.

(** C2: the stored object exists, is fetched, and the desired
    specification is the stored one with another schedule.  Then, unless
    the store answers the update with a version conflict, the run issues
    exactly one [Update], and the object it submits is the fetched one
    with nothing but its schedule replaced: type, metadata, status and
    every other field of the specification are the stored ones. *)
Theorem schedule_drift_updates_schedule_only (cluster : Elasticsearch.t)
        (desired stored : CronJob.t) (s s1 s2 s3 : St) (e : error)
        (r : option error) :
  let key := NamespacedName.mk (CronJob.Name desired)
                               (CronJob.Namespace desired) in
  let updated :=
    CronJob.setSpec
      (CronJobSpec.setSchedule (CronJobSpec.Schedule (CronJob.Spec desired))
                               (CronJob.Spec stored))
      stored in
  CronJob.Spec desired =
  CronJobSpec.setSchedule (CronJobSpec.Schedule (CronJob.Spec desired))
                          (CronJob.Spec stored) ->
  CronJobSpec.Schedule (CronJob.Spec stored)
  <> CronJobSpec.Schedule (CronJob.Spec desired) ->
  Create (CronJobObject desired) s = (Some e, s1) ->
  IsAlreadyExists e = true ->
  GetCronJob key s1 = (inr stored, s2) ->
  Update (CronJobObject updated) s2 = (r, s3) ->
  notConflict r = true ->
  reconcileCronJob cluster desired areCronJobsSame s =
  (Returns (Wrap r "failed to update cronjob for cluster"
                 [("namespace", KVString (CronJob.Namespace desired));
                  ("cluster", KVString (CronJob.Name desired))]),
   s3,
   [CreateCall (CronJobObject desired); GetCronJobCall key;
    UpdateCall (CronJobObject updated)])
  /\ CronJob.Type_ updated = CronJob.Type_ stored
  /\ CronJob.Meta updated = CronJob.Meta stored
  /\ CronJob.Status updated = CronJob.Status stored
  /\ CronJobSpec.Suspend (CronJob.Spec updated)
     = CronJobSpec.Suspend (CronJob.Spec stored)
  /\ CronJobSpec.ConcurrencyPolicy (CronJob.Spec updated)
     = CronJobSpec.ConcurrencyPolicy (CronJob.Spec stored)
  /\ CronJobSpec.SuccessfulJobsHistoryLimit (CronJob.Spec updated)
     = CronJobSpec.SuccessfulJobsHistoryLimit (CronJob.Spec stored)
  /\ CronJobSpec.FailedJobsHistoryLimit (CronJob.Spec updated)
     = CronJobSpec.FailedJobsHistoryLimit (CronJob.Spec stored)
  /\ CronJobSpec.JobTemplate (CronJob.Spec updated)
     = CronJobSpec.JobTemplate (CronJob.Spec stored)
  /\ CronJobSpec.Schedule (CronJob.Spec updated)
     = CronJobSpec.Schedule (CronJob.Spec desired).
Proof.
  intros key updated Hspec Hne Hc He Hg Hu Hr.
  split; [|repeat split].
  destruct (areCronJobsSame_schedule_differs stored desired Hne)
    as (lhs' & Hsame & Hty & Hmeta & Hst).
  assert (Hupd : CronJob.setSpec (CronJob.Spec desired) lhs' = updated).
  { unfold updated, CronJob.setSpec. rewrite Hty, Hmeta, Hst, <- Hspec.
    reflexivity. }
  unfold reconcileCronJob. rewrite bind_roundTrip, Hc. simpl. rewrite He.
  simpl. unfold resultOf, storeAfter, traceOf. rewrite bind_then_wrap.
  unfold RetryOnConflict, DefaultRetrySteps. simpl retryLoop.
  unfold updateCronJobOnce.
  unfold resultOf, storeAfter, traceOf, bind, roundTrip, liftOutcome, ret.
  fold key. rewrite Hg, Hsame. simpl. rewrite Hupd, Hu.
  destruct r as [e'|]; simpl in *; [|reflexivity].
  apply negb_true_iff in Hr. rewrite Hr. reflexivity.
Qed.
End ConvergerFacts.

(** * Properties of the orphan collector *)

Lemma append_cancel_l (c a b : string) : c +:+ a = c +:+ b -> a = b.
Proof.
  induction c as [|ch c IH]; simpl; [done|].
  intros Heq. injection Heq as Heq. by apply IH.
Qed.

Lemma rolloverName_inj (c a b : string) :
  rolloverName c a = rolloverName c b -> a = b.
Proof.
  unfold rolloverName. intros Heq. apply append_cancel_l in Heq.
  by apply (append_cancel_l "-rollover-") in Heq.
Qed.

Lemma deleteName_inj (c a b : string) :
  deleteName c a = deleteName c b -> a = b.
Proof.
  unfold deleteName. intros Heq. apply append_cancel_l in Heq.
  by apply (append_cancel_l "-delete-") in Heq.
Qed.

Lemma rolloverName_not_deleteName (c a b : string) :
  rolloverName c a <> deleteName c b.
Proof.
  unfold rolloverName, deleteName. intros Heq.
  apply append_cancel_l in Heq. discriminate Heq.
Qed.

Lemma sortedList_elem_of (names : gset string) (x : string) :
  x ∈ sortedList names <-> x ∈ names.
Proof.
  unfold sortedList. rewrite merge_sort_Permutation. apply elem_of_elements.
Qed.

Lemma stringLe_total : Total stringLe.
Proof. intros a b. apply String.leb_total. Qed.

Lemma sortedList_ascending (names : gset string) :
  Sorted stringLe (sortedList names).
Proof.
  unfold sortedList.
  apply (@Sorted_merge_sort _ stringLe _ stringLe_total).
Qed.

Lemma sortedList_NoDup (names : gset string) : NoDup (sortedList names).
Proof.
  unfold sortedList. rewrite merge_sort_Permutation. apply NoDup_elements.
Qed.

Lemma insertExpected_elem_of (cluster : Elasticsearch.t)
      (policies : gmap string Policy.t) (acc : gset string) (m : Mapping.t)
      (x : string) :
  x ∈ insertExpected cluster policies acc m
  <-> x ∈ acc \/ contributes cluster policies m x.
Proof.
  unfold insertExpected, contributes.
  destruct (Phases.Hot _), (Phases.Delete _); simpl;
    rewrite ?elem_of_union, ?elem_of_singleton; intuition congruence.
Qed.

Lemma expected_fold_elem_of (cluster : Elasticsearch.t)
      (policies : gmap string Policy.t) (mappings : list Mapping.t)
      (acc : gset string) (x : string) :
  x ∈ fold_left (insertExpected cluster policies) mappings acc
  <-> x ∈ acc \/ exists m, m ∈ mappings /\ contributes cluster policies m x.
Proof.
  revert acc. induction mappings as [|m rest IH]; intros acc; simpl.
  - split; [by left|]. intros [Hx|(m & Hm & _)]; [done|].
    by apply elem_of_nil in Hm.
  - rewrite IH, insertExpected_elem_of. split.
    + intros [[Hx|Hc]|(m' & Hm' & Hc)].
      * by left.
      * right. exists m. split; [apply elem_of_cons; by left|done].
      * right. exists m'. split; [apply elem_of_cons; by right|done].
    + intros [Hx|(m' & Hm' & Hc)]; [by left; left|].
      apply elem_of_cons in Hm' as [->|Hm']; [by left; right|].
      right. by exists m'.
Qed.

Lemma existing_fold_elem_of (items : list CronJob.t) (acc : gset string)
      (x : string) :
  x ∈ fold_left (fun (existing : gset string) (cron : CronJob.t) =>
                   existing ∪ {[ CronJob.Name cron ]}) items acc
  <-> x ∈ acc \/ exists job, job ∈ items /\ CronJob.Name job = x.
Proof.
  revert acc. induction items as [|job rest IH]; intros acc; simpl.
  - split; [by left|]. intros [Hx|(job & Hjob & _)]; [done|].
    by apply elem_of_nil in Hjob.
  - rewrite IH, elem_of_union, elem_of_singleton. split.
    + intros [[Hx| ->]|(job' & Hjob' & Hn)].
      * by left.
      * right. exists job. split; [apply elem_of_cons; by left|done].
      * right. exists job'. split; [apply elem_of_cons; by right|done].
    + intros [Hx|(job' & Hjob' & Hn)]; [by left; left|].
      apply elem_of_cons in Hjob' as [->|Hjob']; [by left; right|].
      right. by exists job'.
Qed.

Lemma existingNames_elem_of (items : list CronJob.t) (x : string) :
  x ∈ existingNames items <-> exists job, job ∈ items /\ CronJob.Name job = x.
Proof.
  unfold existingNames. rewrite existing_fold_elem_of.
  split; [intros [Hx|Hx]; [by apply not_elem_of_empty in Hx|done]|by right].
Qed.

Lemma expectedNames_elem_of (cluster : Elasticsearch.t)
      (mappings : list Mapping.t) (policies : gmap string Policy.t) (x : string) :
  x ∈ expectedNames cluster mappings policies
  <-> exists m, m ∈ mappings /\ contributes cluster policies m x.
Proof.
  unfold expectedNames. rewrite expected_fold_elem_of.
  split; [intros [Hx|Hx]; [by apply not_elem_of_empty in Hx|done]|by right].
Qed.

Lemma dangling_contributes_nothing (cluster : Elasticsearch.t)
      (policies : gmap string Policy.t) (m : Mapping.t) (x : string) :
  policies !! Mapping.PolicyRef m = None ->
  ~ contributes cluster policies m x.
Proof.
  intros Hnone. unfold contributes, policyAt. rewrite Hnone. simpl.
  intros [[_ Hp]|[_ Hp]]; by apply Hp.
Qed.

Lemma rolloverName_expected_iff (cluster : Elasticsearch.t)
      (mappings : list Mapping.t) (policies : gmap string Policy.t)
      (name : string) :
  rolloverName (Elasticsearch.Name cluster) name
    ∈ expectedNames cluster mappings policies
  <-> exists m, m ∈ mappings /\ Mapping.Name m = name
                /\ Phases.Hot (Policy.Phases
                                 (policyAt policies (Mapping.PolicyRef m)))
                   <> None.
Proof.
  rewrite expectedNames_elem_of. split.
  - intros (m & Hm & [[Heq Hp]|[Heq _]]).
    + apply rolloverName_inj in Heq. by exists m.
    + by apply rolloverName_not_deleteName in Heq.
  - intros (m & Hm & <- & Hp). exists m. split; [done|]. by left.
Qed.

Lemma deleteName_expected_iff (cluster : Elasticsearch.t)
      (mappings : list Mapping.t) (policies : gmap string Policy.t)
      (name : string) :
  deleteName (Elasticsearch.Name cluster) name
    ∈ expectedNames cluster mappings policies
  <-> exists m, m ∈ mappings /\ Mapping.Name m = name
                /\ Phases.Delete (Policy.Phases
                                    (policyAt policies (Mapping.PolicyRef m)))
                   <> None.
Proof.
  rewrite expectedNames_elem_of. split.
  - intros (m & Hm & [[Heq _]|[Heq Hp]]).
    + symmetry in Heq. by apply rolloverName_not_deleteName in Heq.
    + apply deleteName_inj in Heq. by exists m.
  - intros (m & Hm & <- & Hp). exists m. split; [done|]. by right.
Qed.

Lemma orphanObject_inj (namespace a b : string) :
  orphanObject namespace a = orphanObject namespace b -> a = b.
Proof. unfold orphanObject, cronJobNamed. intros Heq. by injection Heq. Qed.

Lemma deletedObjects_app {error : Type} (t1 t2 : list (Event error)) :
  deletedObjects (t1 ++ t2) = (deletedObjects t1 ++ deletedObjects t2)%list.
Proof. unfold deletedObjects. apply flat_map_app. Qed.

Lemma deletedObjects_elem_of {error : Type} (t : list (Event error))
      (obj : Object) :
  obj ∈ deletedObjects t <-> DeleteCall obj ∈ t.
Proof.
  induction t as [|ev rest IH]; simpl.
  - split; intros Hin; by apply elem_of_nil in Hin.
  - rewrite elem_of_app, IH, elem_of_cons. split.
    + intros [Hin|Hin]; [left|by right].
      destruct ev; simpl in Hin; try by apply elem_of_nil in Hin.
      apply list_elem_of_singleton in Hin. by subst.
    + intros [<-|Hin]; [left; simpl|by right].
      by apply list_elem_of_singleton.
Qed.

Section OrphanFacts.
Context {error St : Type} {errs : ApiErrors error} {cl : Client error St}.

Lemma removeOne_run (namespace name : string) (s : St) :
  removeOne namespace name s =
  (Returns tt,
   snd (Delete (orphanObject namespace name) s),
   DeleteCall (orphanObject namespace name)
   :: removalLog namespace name (fst (Delete (orphanObject namespace name) s))).
Proof.
  unfold removeOne, orphanObject. rewrite bind_roundTrip.
  destruct (Delete _ s) as [[e|] s1]; simpl; [|reflexivity].
  unfold removalLog, removalContext. by destruct (IsNotFound e).
Qed.

Lemma forEach_removeOne_cons (namespace name : string) (rest : list string)
      (s : St) :
  forEach (name :: rest) (removeOne namespace) s =
  (resultOf (forEach rest (removeOne namespace))
            (snd (Delete (orphanObject namespace name) s)),
   storeAfter (forEach rest (removeOne namespace))
              (snd (Delete (orphanObject namespace name) s)),
   (DeleteCall (orphanObject namespace name)
    :: removalLog namespace name (fst (Delete (orphanObject namespace name) s)))
   ++ traceOf (forEach rest (removeOne namespace))
              (snd (Delete (orphanObject namespace name) s)))%list.
Proof.
  simpl forEach. unfold bind at 1. rewrite removeOne_run.
  unfold resultOf, storeAfter, traceOf.
  by destruct (forEach rest (removeOne namespace) _) as [[r s2] t2].
Qed.

Lemma forEach_removeOne_returns (namespace : string) (names : list string)
      (s : St) :
  resultOf (forEach names (removeOne namespace)) s = Returns tt.
Proof.
  revert s. induction names as [|name rest IH]; intros s; [reflexivity|].
  unfold resultOf at 1. rewrite forEach_removeOne_cons. simpl. apply IH.
Qed.

Lemma removalLog_deletes_nothing (namespace name : string) (r : option error) :
  deletedObjects (removalLog namespace name r) = [].
Proof.
  unfold removalLog. destruct r as [e|]; [|reflexivity].
  by destruct (IsNotFound e).
Qed.

Lemma forEach_removeOne_deletes (namespace : string) (names : list string)
      (s : St) :
  deletedObjects (traceOf (forEach names (removeOne namespace)) s)
  = orphanObject namespace <$> names.
Proof.
  revert s. induction names as [|name rest IH]; intros s; [reflexivity|].
  unfold traceOf at 1. rewrite forEach_removeOne_cons. simpl.
  rewrite deletedObjects_app, removalLog_deletes_nothing, IH. reflexivity.
Qed.

Lemma forEach_removeOne_logs_only_failures (namespace : string)
      (names : list string) (s : St) (e : error) (msg : string)
      (kv : list (string * kvValue)) :
  LogError e msg kv ∈ traceOf (forEach names (removeOne namespace)) s ->
  IsNotFound e = false
  /\ msg = "failed to remove cronjob"
  /\ exists name, name ∈ names /\ kv = removalContext namespace name.
Proof.
  revert s. induction names as [|name rest IH]; intros s.
  - intros Hin. by apply elem_of_nil in Hin.
  - unfold traceOf at 1. rewrite forEach_removeOne_cons. simpl.
    rewrite elem_of_cons, elem_of_app. intros [Heq|[Hin|Hin]].
    + discriminate Heq.
    + unfold removalLog in Hin.
      destruct (fst (Delete (orphanObject namespace name) s)) as [e'|];
        [|by apply elem_of_nil in Hin].
      destruct (IsNotFound e') eqn:Hnf; simpl in Hin;
        [by apply elem_of_nil in Hin|].
      apply list_elem_of_singleton in Hin. injection Hin as -> -> ->.
      split; [done|]. split; [done|].
      exists name. split; [apply elem_of_cons; by left|done].
    + destruct (IH _ Hin) as (Hnf & Hmsg & name' & Hname' & Hkv).
      split; [done|]. split; [done|].
      exists name'. split; [apply elem_of_cons; by right|done].
Qed.

Lemma forEach_removeOne_logs_refusal (namespace : string) (names : list string)
      (s : St) (name : string) (e : error) :
  name ∈ names ->
  (forall s', fst (Delete (orphanObject namespace name) s') = Some e) ->
  IsNotFound e = false ->
  LogError e "failed to remove cronjob" (removalContext namespace name)
  ∈ traceOf (forEach names (removeOne namespace)) s.
Proof.
  intros Hin Hrefuse Hnf. revert s.
  induction names as [|name' rest IH]; intros s;
    [by apply elem_of_nil in Hin|].
  unfold traceOf at 1. rewrite forEach_removeOne_cons. simpl.
  apply elem_of_cons. right. apply elem_of_app.
  apply elem_of_cons in Hin as [<-|Hin].
  - left. rewrite Hrefuse. unfold removalLog. rewrite Hnf. simpl.
    by apply list_elem_of_singleton.
  - right. by apply IH.
Qed.

Lemma RemoveCronJobsForMappings_listed (cluster : Elasticsearch.t)
      (mappings : list Mapping.t) (policies : gmap string Policy.t)
      (s s1 : St) (items : list CronJob.t) :
  ListCronJobs (Elasticsearch.Namespace cluster) imLabels s = (inr items, s1) ->
  let loop :=
    forEach (sortedList (existingNames items
                         ∖ expectedNames cluster mappings policies))
            (removeOne (Elasticsearch.Namespace cluster)) in
  RemoveCronJobsForMappings cluster mappings policies s =
  (Returns None, storeAfter loop s1,
   ListCall (Elasticsearch.Namespace cluster) imLabels :: traceOf loop s1).
Proof.
  intros Hl loop. unfold RemoveCronJobsForMappings.
  rewrite bind_roundTrip, Hl. simpl. fold loop.
  pose proof (forEach_removeOne_returns
                (Elasticsearch.Namespace cluster)
                (sortedList (existingNames items
                             ∖ expectedNames cluster mappings policies)) s1)
    as Hret.
  fold loop in Hret. unfold resultOf, storeAfter, traceOf, bind, ret in *.
  destruct (loop s1) as [[r s2] t2]. simpl in *. subst r.
  by rewrite app_nil_r.
Qed.

Lemma RemoveCronJobsForMappings_list_failed (cluster : Elasticsearch.t)
      (mappings : list Mapping.t) (policies : gmap string Policy.t)
      (s s1 : St) (e : error) :
  ListCronJobs (Elasticsearch.Namespace cluster) imLabels s = (inl e, s1) ->
  RemoveCronJobsForMappings cluster mappings policies s =
  (Returns (Some (WrapError e "failed to list cron jobs"
                    [("namespace", KVString (Elasticsearch.Namespace cluster));
                     ("labels", KVLabels imLabels)])),
   s1, [ListCall (Elasticsearch.Namespace cluster) imLabels]).
Proof.
  intros Hl. unfold RemoveCronJobsForMappings.
  rewrite bind_roundTrip, Hl. reflexivity.
Qed.
Lemma RemoveCronJobsForMappings_deletes_iff (cluster : Elasticsearch.t)
      (mappings : list Mapping.t) (policies : gmap string Policy.t)
      (s s1 : St) (items : list CronJob.t) (name : string) :
  ListCronJobs (Elasticsearch.Namespace cluster) imLabels s = (inr items, s1) ->
  DeleteCall (orphanObject (Elasticsearch.Namespace cluster) name)
    ∈ traceOf (RemoveCronJobsForMappings cluster mappings policies) s
  <-> (exists job, job ∈ items /\ CronJob.Name job = name)
      /\ name ∉ expectedNames cluster mappings policies.
Proof.
  intros Hl. unfold traceOf.
  rewrite (RemoveCronJobsForMappings_listed _ _ _ _ _ _ Hl). simpl.
  rewrite elem_of_cons, <- deletedObjects_elem_of, forEach_removeOne_deletes,
    list_elem_of_fmap.
  split.
  - intros [Heq|(name' & Heq & Hin)]; [discriminate Heq|].
    apply orphanObject_inj in Heq. subst name'.
    apply sortedList_elem_of, elem_of_difference in Hin as [Hex Hnot].
    by apply existingNames_elem_of in Hex.
  - intros [Hex Hnot]. right. exists name. split; [done|].
    apply sortedList_elem_of, elem_of_difference.
    by apply existingNames_elem_of in Hex.
Qed.

(** C5, as amended: once the listing has answered, the objects handed to
    [Delete] are exactly the listed names that are not expected, each
    once, in ascending order.  The expected set is a union over the whole
    mapping list: it holds the rollover name of a mapping name exactly
    when some mapping of the list with that name has a policy with a Hot
    phase, the delete name exactly when some mapping with that name has a
    policy with a Delete phase, and nothing else.  No expected name is
    deleted. *)
Theorem orphans_are_listed_minus_expected (cluster : Elasticsearch.t)
        (mappings : list Mapping.t) (policies : gmap string Policy.t)
        (s s1 : St) (items : list CronJob.t) :
  ListCronJobs (Elasticsearch.Namespace cluster) imLabels s = (inr items, s1) ->
  let namespace := Elasticsearch.Namespace cluster in
  let expected := expectedNames cluster mappings policies in
  let t := traceOf (RemoveCronJobsForMappings cluster mappings policies) s in
  (forall x, x ∈ expected
             <-> exists m, m ∈ mappings /\ contributes cluster policies m x)
  /\ (forall name,
         (rolloverName (Elasticsearch.Name cluster) name ∈ expected
          <-> exists m, m ∈ mappings /\ Mapping.Name m = name
                        /\ Phases.Hot (Policy.Phases
                                         (policyAt policies
                                                   (Mapping.PolicyRef m)))
                           <> None)
         /\ (deleteName (Elasticsearch.Name cluster) name ∈ expected
             <-> exists m, m ∈ mappings /\ Mapping.Name m = name
                           /\ Phases.Delete (Policy.Phases
                                               (policyAt policies
                                                         (Mapping.PolicyRef m)))
                              <> None))
  /\ deletedObjects t
     = orphanObject namespace <$> sortedList (existingNames items ∖ expected)
  /\ NoDup (deletedObjects t)
  /\ (forall name,
         DeleteCall (orphanObject namespace name) ∈ t
         <-> (exists job, job ∈ items /\ CronJob.Name job = name)
             /\ name ∉ expected)
  /\ (forall name, name ∈ expected ->
                   DeleteCall (orphanObject namespace name) ∉ t).
Proof.
  intros Hl namespace expected t.
  assert (Ht : deletedObjects t
               = orphanObject namespace
                   <$> sortedList (existingNames items ∖ expected)).
  { unfold t, traceOf.
    rewrite (RemoveCronJobsForMappings_listed _ _ _ _ _ _ Hl). simpl.
    apply forEach_removeOne_deletes. }
  pose proof (fun name =>
                RemoveCronJobsForMappings_deletes_iff
                  cluster mappings policies s s1 items name Hl) as Hdel.
  fold namespace expected t in Hdel.
  split; [intros x; apply expectedNames_elem_of|].
  split; [|split; [exact Ht|split; [|split; [exact Hdel|]]]].
  - intros name. split.
    + apply rolloverName_expected_iff.
    + apply deleteName_expected_iff.
  - rewrite Ht. apply NoDup_fmap_2; [|apply sortedList_NoDup].
    intros a b. apply orphanObject_inj.
  - intros name Hexp Hin. apply Hdel in Hin as [_ Hnot]. by apply Hnot.
Qed.

(** C6: once the listing has answered, cleanup returns nil whatever the
    deletions answer; every orphan is handed to [Delete], in order, whatever
    the earlier deletions answered; a log line is written only for a
    failure that is not "not found"; and an orphan whose deletion the store
    refuses with such a failure gets its log line while the others are
    still deleted. *)
Theorem failed_deletion_never_aborts_cleanup (cluster : Elasticsearch.t)
        (mappings : list Mapping.t) (policies : gmap string Policy.t)
        (s s1 : St) (items : list CronJob.t) :
  ListCronJobs (Elasticsearch.Namespace cluster) imLabels s = (inr items, s1) ->
  let namespace := Elasticsearch.Namespace cluster in
  let orphans :=
    sortedList (existingNames items ∖ expectedNames cluster mappings policies) in
  let run := RemoveCronJobsForMappings cluster mappings policies in
  resultOf run s = Returns None
  /\ deletedObjects (traceOf run s) = orphanObject namespace <$> orphans
  /\ (forall s' name,
         removeOne namespace name s' =
         (Returns tt, snd (Delete (orphanObject namespace name) s'),
          DeleteCall (orphanObject namespace name)
          :: match fst (Delete (orphanObject namespace name) s') with
             | Some e =>
                 if IsNotFound e then []
                 else [LogError e "failed to remove cronjob"
                                (removalContext namespace name)]
             | None => []
             end))
  /\ (forall e msg kv, LogError e msg kv ∈ traceOf run s ->
                       IsNotFound e = false)
  /\ (forall name e,
         name ∈ orphans ->
         (forall s', fst (Delete (orphanObject namespace name) s') = Some e) ->
         IsNotFound e = false ->
         LogError e "failed to remove cronjob" (removalContext namespace name)
         ∈ traceOf run s).
Proof.
  intros Hl namespace orphans run.
  pose proof (RemoveCronJobsForMappings_listed cluster mappings policies
                s s1 items Hl) as Hrun.
  cbv zeta in Hrun. fold namespace orphans run in Hrun.
  unfold resultOf, traceOf. rewrite Hrun. simpl.
  split; [reflexivity|].
  split; [apply forEach_removeOne_deletes|].
  split.
  { intros s' name. rewrite removeOne_run. unfold removalLog.
    destruct (fst (Delete (orphanObject namespace name) s')) as [e|];
      [|reflexivity].
    by destruct (IsNotFound e). }
  split.
  - intros e msg kv Hin. apply elem_of_cons in Hin as [Heq|Hin];
      [discriminate Heq|].
    by apply forEach_removeOne_logs_only_failures in Hin as [Hnf _].
  - intros name e Hin Hrefuse Hnf. apply elem_of_cons. right.
    by apply forEach_removeOne_logs_refusal.
Qed.

(** C10, as amended: a mapping whose policy reference is missing from the
    policy map is read as the zero policy, without phases.  It puts no
    name into the expected set, so that the whole run is the one without
    that mapping: same calls, same result, nothing logged or returned
    about the reference.  The only error the entry point returns is a
    failed listing.  A listed object carrying the mapping's rollover name
    is deleted exactly when no mapping of the same name has a policy with
    a Hot phase, one carrying its delete name exactly when no mapping of
    the same name has a policy with a Delete phase. *)
Theorem dangling_policy_reference_is_silent (cluster : Elasticsearch.t)
        (before after : list Mapping.t) (m : Mapping.t)
        (policies : gmap string Policy.t) (s : St) :
  policies !! Mapping.PolicyRef m = None ->
  let mappings := (before ++ m :: after)%list in
  let namespace := Elasticsearch.Namespace cluster in
  let run := RemoveCronJobsForMappings cluster mappings policies in
  policyAt policies (Mapping.PolicyRef m) = Policy.zero
  /\ Phases.Hot (Policy.Phases Policy.zero) = None
  /\ Phases.Delete (Policy.Phases Policy.zero) = None
  /\ (forall expected,
         insertExpected cluster policies expected m = expected)
  /\ expectedNames cluster mappings policies
     = expectedNames cluster (before ++ after) policies
  /\ run s = RemoveCronJobsForMappings cluster (before ++ after) policies s
  /\ (resultOf run s = Returns None
      \/ exists e,
          fst (ListCronJobs namespace imLabels s) = inl e
          /\ resultOf run s =
             Returns (Some (WrapError e "failed to list cron jobs"
                              [("namespace", KVString namespace);
                               ("labels", KVLabels imLabels)])))
  /\ (forall items s1 job,
         ListCronJobs namespace imLabels s = (inr items, s1) ->
         job ∈ items ->
         (CronJob.Name job
          = rolloverName (Elasticsearch.Name cluster) (Mapping.Name m) ->
          (DeleteCall (orphanObject namespace (CronJob.Name job))
             ∈ traceOf run s
           <-> ~ exists m', m' ∈ mappings
                            /\ Mapping.Name m' = Mapping.Name m
                            /\ Phases.Hot (Policy.Phases
                                             (policyAt policies
                                                       (Mapping.PolicyRef m')))
                               <> None))
         /\ (CronJob.Name job
             = deleteName (Elasticsearch.Name cluster) (Mapping.Name m) ->
             (DeleteCall (orphanObject namespace (CronJob.Name job))
                ∈ traceOf run s
              <-> ~ exists m', m' ∈ mappings
                               /\ Mapping.Name m' = Mapping.Name m
                               /\ Phases.Delete
                                    (Policy.Phases
                                       (policyAt policies
                                                 (Mapping.PolicyRef m')))
                                  <> None))).
Proof.
  intros Hnone mappings namespace run.
  assert (Hzero : policyAt policies (Mapping.PolicyRef m) = Policy.zero).
  { unfold policyAt. by rewrite Hnone. }
  assert (Hstep : forall expected,
             insertExpected cluster policies expected m = expected).
  { intros expected. unfold insertExpected. by rewrite Hzero. }
  assert (Hexp : expectedNames cluster mappings policies
                 = expectedNames cluster (before ++ after) policies).
  { unfold expectedNames, mappings. rewrite !fold_left_app. simpl.
    by rewrite Hstep. }
  split; [exact Hzero|]. split; [reflexivity|]. split; [reflexivity|].
  split; [exact Hstep|]. split; [exact Hexp|].
  split; [|split].
  - unfold run, RemoveCronJobsForMappings. by rewrite Hexp.
  - destruct (ListCronJobs namespace imLabels s) as [[e|items] s1] eqn:Hl.
    + right. exists e. split; [done|]. unfold run, resultOf.
      by rewrite (RemoveCronJobsForMappings_list_failed _ _ _ _ _ _ Hl).
    + left. unfold run, resultOf.
      by rewrite (RemoveCronJobsForMappings_listed _ _ _ _ _ _ Hl).
  - intros items s1 job Hl Hjob.
    pose proof (RemoveCronJobsForMappings_deletes_iff
                  cluster mappings policies s s1 items (CronJob.Name job) Hl)
      as Hdel.
    fold namespace run in Hdel.
    assert (Hex : exists job', job' ∈ items
                               /\ CronJob.Name job' = CronJob.Name job)
      by (by exists job).
    split; intros Hname; rewrite Hdel; rewrite Hname in Hex |- *.
    + pose proof (rolloverName_expected_iff cluster mappings policies
                                            (Mapping.Name m)) as Hiff.
      tauto.
    + pose proof (deleteName_expected_iff cluster mappings policies
                                          (Mapping.Name m)) as Hiff.
      tauto.
Qed.
End OrphanFacts.

(** * Properties of the policy translator *)

Lemma wrap32_in_range (z : Z) :
  - 2 ^ 31 <= z < 2 ^ 31 -> wrap32 z = z.
Proof. intros Hz. unfold wrap32. rewrite Z.mod_small; lia. Qed.

(** C7: an explicit max size of the Hot phase is returned as it is, for
    every shard count; without one, the returned max size is
    [defaultShardSize × primaryShards] in [int32] arithmetic, which is the
    plain product whenever that fits, e.g. [3 × defaultShardSize] for three
    shards; [defaultShardSize] is 40. *)
Theorem max_size_explicit_or_per_shard_default (formatSize : Z -> string)
        (hot : HotPhase.t) (primaryShards : Z) :
  (forall size,
      HotPhase.MaxSize hot = Some size ->
      rolloverConditions.MaxSize (calculateConditions formatSize hot primaryShards)
      = size)
  /\ (HotPhase.MaxSize hot = None ->
      rolloverConditions.MaxSize (calculateConditions formatSize hot primaryShards)
      = formatSize (mulInt32 defaultShardSize primaryShards))
  /\ (- 2 ^ 31 <= defaultShardSize * primaryShards < 2 ^ 31 ->
      mulInt32 defaultShardSize primaryShards = defaultShardSize * primaryShards)
  /\ mulInt32 defaultShardSize 3 = 3 * defaultShardSize
  /\ defaultShardSize = 40.
Proof.
  unfold calculateConditions. simpl.
  split; [intros size Hs; by rewrite Hs|].
  split; [intros Hs; by rewrite Hs|].
  split; [apply wrap32_in_range|].
  split; reflexivity.
Qed.

Lemma max_size_explicit_or_per_shard_default_witness :
  rolloverConditions.MaxSize
    (calculateConditions sizeInGigabytes
                         (HotPhase.mk (Some "1d") None (Some "25gb")) 7)
  = "25gb"
  /\ rolloverConditions.MaxSize
       (calculateConditions sizeInGigabytes
                            (HotPhase.mk (Some "1d") None None) 3)
     = "120gb".
Proof.
  split.
  - apply (max_size_explicit_or_per_shard_default
             sizeInGigabytes
             (HotPhase.mk (Some "1d") None (Some "25gb")) 7).
    reflexivity.
  - apply (proj1 (proj2 (max_size_explicit_or_per_shard_default
                           sizeInGigabytes
                           (HotPhase.mk (Some "1d") None None) 3))).
    reflexivity.
Defined.

Lemma wrap64_idem (z : Z) : wrap64 (wrap64 z) = wrap64 z.
Proof. unfold wrap64. apply Z.mod_mod. lia. Qed.

Lemma wrap64_range (z : Z) : 0 <= wrap64 z < 2 ^ 64.
Proof. unfold wrap64. apply Z.mod_pos_bound. lia. Qed.

Lemma wrap64_small (z : Z) : 0 <= z < 2 ^ 64 -> wrap64 z = z.
Proof. unfold wrap64. apply Z.mod_small. Qed.

Lemma wrap64_step (a b d : Z) :
  wrap64 a = wrap64 b -> wrap64 (10 * a + d) = wrap64 (10 * b + d).
Proof.
  unfold wrap64. intros Hab.
  rewrite (Z.add_mod (10 * a)), (Z.add_mod (10 * b)) by lia.
  rewrite (Z.mul_mod 10 a), (Z.mul_mod 10 b) by lia.
  by rewrite Hab.
Qed.

Lemma wrap64_accumulate (total n n' f : Z) :
  wrap64 n = wrap64 n' -> wrap64 (total + n * f) = wrap64 (total + n' * f).
Proof.
  unfold wrap64. intros Hn.
  rewrite (Z.add_mod total (n * f)), (Z.add_mod total (n' * f)) by lia.
  rewrite (Z.mul_mod n f), (Z.mul_mod n' f) by lia.
  by rewrite Hn.
Qed.

Lemma wrap64_shift (a b c : Z) :
  wrap64 a = wrap64 b -> wrap64 (a + c) = wrap64 (b + c).
Proof.
  unfold wrap64. intros Hab.
  rewrite (Z.add_mod a c), (Z.add_mod b c) by lia.
  by rewrite Hab.
Qed.

Lemma digits_fold_wrap (ds : list nat) (a b : Z) :
  wrap64 a = wrap64 b ->
  wrap64 (fold_left (fun acc d => 10 * acc + Z.of_nat d) ds a)
  = wrap64 (fold_left (fun acc d => 10 * acc + Z.of_nat d) ds b).
Proof.
  revert a b. induction ds as [|d ds IH]; intros a b Hab; simpl; [done|].
  apply IH. by apply wrap64_step.
Qed.

Lemma digitValue_digitChar (d : nat) :
  (d < 10)%nat -> digitValue (digitChar d) = Some (Z.of_nat d).
Proof.
  intros Hd. do 10 (destruct d as [|d]; [reflexivity|]). lia.
Qed.

Lemma digitValue_unitSuffix (u : timeUnit) : digitValue (unitSuffix u) = None.
Proof. by destruct u. Qed.

Lemma unitOfSuffix_unitSuffix (u : timeUnit) :
  unitOfSuffix (unitSuffix u) = Some u.
Proof. by destruct u. Qed.

Lemma renderDigits_cons (d : nat) (ds : list nat) (rest : string) :
  renderDigits (d :: ds) +:+ rest
  = String (digitChar d) (renderDigits ds +:+ rest).
Proof. reflexivity. Qed.

Lemma scanDuration_digit (c : ascii) (rest : string) (total d : Z)
      (magnitude : option Z) :
  digitValue c = Some d ->
  scanDuration (String c rest) total magnitude
  = scanDuration rest total
                 (Some (wrap64 (10 * match magnitude with
                                     | Some n => n
                                     | None => 0
                                     end + d))).
Proof. intros Hd. cbn [scanDuration]. by rewrite Hd. Qed.

Lemma scanDuration_unit (c : ascii) (rest : string) (total n : Z)
      (u : timeUnit) :
  digitValue c = None ->
  unitOfSuffix c = Some u ->
  scanDuration (String c rest) total (Some n)
  = scanDuration rest (wrap64 (total + n * unitMillis u)) None.
Proof. intros Hd Hu. cbn [scanDuration]. by rewrite Hd, Hu. Qed.

Lemma scanDuration_digits (ds : list nat) (rest : string) (total n0 : Z) :
  Forall (fun d => (d < 10)%nat) ds ->
  exists n,
    scanDuration (renderDigits ds +:+ rest) total (Some n0)
    = scanDuration rest total (Some n)
    /\ wrap64 n
       = wrap64 (fold_left (fun acc d => 10 * acc + Z.of_nat d) ds n0).
Proof.
  intros Hds. revert n0.
  induction Hds as [|d ds Hd Hds IH]; intros n0.
  - by exists n0.
  - rewrite renderDigits_cons.
    rewrite (scanDuration_digit _ _ _ _ _ (digitValue_digitChar d Hd)).
    destruct (IH (wrap64 (10 * n0 + Z.of_nat d))) as (n & Hscan & Hn).
    exists n. split; [exact Hscan|]. rewrite Hn. cbn [fold_left].
    apply digits_fold_wrap, wrap64_idem.
Qed.

Lemma scanDuration_segment (seg : list nat * timeUnit) (rest : string)
      (total : Z) :
  wellFormedSegment seg ->
  scanDuration (renderDigits (fst seg) +:+ String (unitSuffix (snd seg)) rest)
               total None
  = scanDuration rest
                 (wrap64 (total + digitsValue (fst seg) * unitMillis (snd seg)))
                 None.
Proof.
  destruct seg as [ds u]. intros [Hne Hds]. cbn [fst snd] in *.
  destruct ds as [|d ds]; [done|]. apply Forall_cons in Hds as [Hd Hds].
  rewrite renderDigits_cons.
  rewrite (scanDuration_digit _ _ _ _ _ (digitValue_digitChar d Hd)).
  destruct (scanDuration_digits ds (String (unitSuffix u) rest) total
                                (wrap64 (10 * 0 + Z.of_nat d)) Hds)
    as (n & Hscan & Hn).
  rewrite Hscan.
  rewrite (scanDuration_unit _ _ _ _ u (digitValue_unitSuffix u)
                             (unitOfSuffix_unitSuffix u)).
  f_equal. apply wrap64_accumulate. rewrite Hn.
  unfold digitsValue. cbn [fold_left].
  apply digits_fold_wrap, wrap64_idem.
Qed.

Lemma renderDuration_cons (seg : list nat * timeUnit)
      (segments : list (list nat * timeUnit)) :
  renderDuration (seg :: segments)
  = renderDigits (fst seg)
    +:+ String (unitSuffix (snd seg)) (renderDuration segments).
Proof. reflexivity. Qed.

Lemma scanDuration_segments (segments : list (list nat * timeUnit)) (total : Z) :
  0 <= total < 2 ^ 64 ->
  Forall wellFormedSegment segments ->
  scanDuration (renderDuration segments) total None
  = Some (wrap64 (total + durationMillis segments)).
Proof.
  intros Ht Hwf. revert total Ht.
  induction Hwf as [|seg segments Hseg Hwf IH]; intros total Ht.
  - cbn [renderDuration fold_right scanDuration durationMillis].
    rewrite Z.add_0_r. by rewrite wrap64_small.
  - rewrite renderDuration_cons, (scanDuration_segment seg _ total Hseg).
    rewrite IH by apply wrap64_range. f_equal.
    unfold durationMillis. cbn [fold_right]. fold (durationMillis segments).
    rewrite Z.add_assoc. apply wrap64_shift, wrap64_idem.
Qed.

Lemma digitsValue_nonneg (ds : list nat) : 0 <= digitsValue ds.
Proof.
  unfold digitsValue.
  assert (Hfold : forall a, 0 <= a ->
             0 <= fold_left (fun acc d => 10 * acc + Z.of_nat d) ds a).
  { induction ds as [|d ds IH]; intros a Ha; simpl; [done|]. apply IH. lia. }
  by apply Hfold.
Qed.

Lemma unitMillis_pos (u : timeUnit) : 0 < unitMillis u.
Proof. by destruct u. Qed.

Lemma durationMillis_nonneg (segments : list (list nat * timeUnit)) :
  0 <= durationMillis segments.
Proof.
  induction segments as [|[ds u] segments IH]; [done|].
  unfold durationMillis. cbn [fold_right fst snd].
  fold (durationMillis segments).
  pose proof (digitsValue_nonneg ds). pose proof (unitMillis_pos u). nia.
Qed.

(** C8: the conversion factors are 1000, 60,000, 3,600,000, 86,400,000
    and 604,800,000 milliseconds per second, minute, hour, day and week;
    ["1d"] converts to 86,400,000 and ["1w"] to 604,800,000; and every
    duration made of one or more segments of decimal digits and a supported
    unit converts to the sum of its magnitudes times those factors, as a
    [uint64] (the exact sum whenever it fits).  The conversion is a
    function of the string alone. *)
Theorem thresholdMillis_converts_with_fixed_factors :
  (unitMillis Seconds = 1000 /\ unitMillis Minutes = 60000
   /\ unitMillis Hours = 3600000 /\ unitMillis Days = 86400000
   /\ unitMillis Weeks = 604800000)
  /\ calculateMillisForTimeUnit "1d" = Some 86400000
  /\ calculateMillisForTimeUnit "1w" = Some 604800000
  /\ (forall segments,
         segments <> [] ->
         Forall wellFormedSegment segments ->
         calculateMillisForTimeUnit (renderDuration segments)
         = Some (wrap64 (durationMillis segments)))
  /\ (forall segments,
         segments <> [] ->
         Forall wellFormedSegment segments ->
         durationMillis segments < 2 ^ 64 ->
         calculateMillisForTimeUnit (renderDuration segments)
         = Some (durationMillis segments)).
Proof.
  assert (Hgen : forall segments,
             segments <> [] ->
             Forall wellFormedSegment segments ->
             calculateMillisForTimeUnit (renderDuration segments)
             = Some (wrap64 (durationMillis segments))).
  { intros segments Hne Hwf.
    rewrite <- (Z.add_0_l (durationMillis segments)).
    rewrite <- (scanDuration_segments segments 0) by (done || lia).
    destruct segments as [|[ds u] segments]; [done|].
    apply Forall_cons in Hwf as [[Hds _] _]. cbn [fst] in Hds.
    destruct ds as [|d ds]; [done|].
    rewrite renderDuration_cons. cbn [fst]. rewrite renderDigits_cons.
    reflexivity. }
  split; [by repeat split|]. split; [reflexivity|]. split; [reflexivity|].
  split; [exact Hgen|].
  intros segments Hne Hwf Hfit. rewrite (Hgen segments Hne Hwf). f_equal.
  apply wrap64_small. split; [apply durationMillis_nonneg|exact Hfit].
Qed.

(** * The protocol on the in-memory store *)

(** C3, on a store that already holds the job: the second pass leaves the
    store as it found it. *)
Lemma same_verdict_issues_no_update_witness :
  @reconcileCronJob apiError MemStore.t apiErrors MemStore.client
    sampleCluster unchangedJob (@areCronJobsSame plainComparators)
    (storeWith storedJob)
  = (Returns None, storeWith storedJob,
     [CreateCall (CronJobObject unchangedJob);
      GetCronJobCall (NamespacedName.mk "elasticsearch-rollover-app"
                                        "openshift-logging")]).
Proof.
  refine (proj1 (proj1 (same_verdict_issues_no_update
                          (errs := apiErrors) (cl := MemStore.client)
                          (pkg := plainPackaging)
                          sampleCluster unchangedJob
                          (@areCronJobsSame plainComparators)
                          (storeWith storedJob) (storeWith storedJob)
                          (storeWith storedJob) ErrAlreadyExists _)
                       storedJob storedJob _ _ _));
    vm_compute; reflexivity.
Defined.

(** C2, on a store that holds the job under its old schedule: one update,
    and it carries the stored object with the new schedule. *)
Lemma schedule_drift_updates_schedule_only_witness :
  traceOf (@reconcileCronJob apiError MemStore.t apiErrors MemStore.client
             sampleCluster driftedJob (@areCronJobsSame plainComparators))
          (storeWith storedJob)
  = [CreateCall (CronJobObject driftedJob);
     GetCronJobCall (NamespacedName.mk "elasticsearch-rollover-app"
                                       "openshift-logging");
     UpdateCall (CronJobObject
                   (sampleJob "elasticsearch-rollover-app" "*/5 * * * *" "1"
                              (Some [sampleContainer "indexmanagement"])))].
Proof.
  unfold traceOf.
  rewrite (proj1 (schedule_drift_updates_schedule_only
                    (errs := apiErrors) (cl := MemStore.client)
                    (cmp := plainComparators)
                    sampleCluster driftedJob storedJob
                    (storeWith storedJob) (storeWith storedJob)
                    (storeWith storedJob)
                    (snd (MemStore.update
                            (CronJobObject
                               (sampleJob "elasticsearch-rollover-app"
                                          "*/5 * * * *" "1"
                                          (Some [sampleContainer
                                                   "indexmanagement"])))
                            (storeWith storedJob)))
                    ErrAlreadyExists None
                    ltac:(vm_compute; reflexivity)
                    ltac:(vm_compute; discriminate)
                    ltac:(vm_compute; reflexivity)
                    ltac:(vm_compute; reflexivity)
                    ltac:(vm_compute; reflexivity)
                    ltac:(vm_compute; reflexivity)
                    ltac:(vm_compute; reflexivity))).
  vm_compute. reflexivity.
Defined.

(** C5, the cleanup example: rollover-X is expected, delete-X and
    rollover-Y are not. *)
Lemma orphans_are_listed_minus_expected_witness :
  deletedObjects
    (traceOf (@RemoveCronJobsForMappings apiError MemStore.t apiErrors
                MemStore.client sampleCluster [Mapping.mk "X" "hot-only"]
                samplePolicies)
             orphanStore)
  = [orphanObject "openshift-logging" "elasticsearch-delete-X";
     orphanObject "openshift-logging" "elasticsearch-rollover-Y"].
Proof.
  pose proof (orphans_are_listed_minus_expected
                (errs := apiErrors) (cl := MemStore.client)
                sampleCluster [Mapping.mk "X" "hot-only"] samplePolicies
                orphanStore orphanStore orphanItems
                ltac:(vm_compute; reflexivity)) as Hw.
  cbv zeta in Hw. destruct Hw as (_ & _ & Hdel & _).
  rewrite Hdel. vm_compute. reflexivity.
Defined.

(** C6, on a store that refuses every deletion: cleanup still returns nil,
    having tried both orphans and logged both refusals. *)
Lemma failed_deletion_never_aborts_cleanup_witness :
  resultOf (@RemoveCronJobsForMappings apiError unit apiErrors
              (stubbornClient orphanItems ErrForbidden) sampleCluster
              [Mapping.mk "X" "hot-only"] samplePolicies) tt
  = Returns None
  /\ deletedObjects
       (traceOf (@RemoveCronJobsForMappings apiError unit apiErrors
                   (stubbornClient orphanItems ErrForbidden) sampleCluster
                   [Mapping.mk "X" "hot-only"] samplePolicies) tt)
     = [orphanObject "openshift-logging" "elasticsearch-delete-X";
        orphanObject "openshift-logging" "elasticsearch-rollover-Y"].
Proof.
  pose proof (failed_deletion_never_aborts_cleanup
                (errs := apiErrors)
                (cl := stubbornClient orphanItems ErrForbidden)
                sampleCluster [Mapping.mk "X" "hot-only"] samplePolicies
                tt tt orphanItems eq_refl) as Hw.
  cbv zeta in Hw. destruct Hw as (Hres & Hdel & _).
  split; [exact Hres|]. rewrite Hdel. vm_compute. reflexivity.
Defined.

(** C10, with mapping Y pointing at a policy that does not exist. *)
Lemma dangling_policy_reference_is_silent_witness :
  @RemoveCronJobsForMappings apiError MemStore.t apiErrors MemStore.client
    sampleCluster [Mapping.mk "X" "hot-only"; Mapping.mk "Y" "no-such-policy"]
    samplePolicies orphanStore
  = @RemoveCronJobsForMappings apiError MemStore.t apiErrors MemStore.client
      sampleCluster [Mapping.mk "X" "hot-only"] samplePolicies orphanStore.
Proof.
  pose proof (dangling_policy_reference_is_silent
                (errs := apiErrors) (cl := MemStore.client)
                sampleCluster [Mapping.mk "X" "hot-only"] []
                (Mapping.mk "Y" "no-such-policy") samplePolicies orphanStore
                ltac:(vm_compute; reflexivity)) as Hw.
  cbv zeta in Hw. destruct Hw as (_ & _ & _ & _ & _ & Hrun & _).
  exact Hrun.
Defined.

(** What the scanner refuses: no segment at all, an unknown unit, a unit
    without a magnitude, a magnitude without a unit. *)
Example malformed_durations_fail :
  calculateMillisForTimeUnit "" = None
  /\ calculateMillisForTimeUnit "3y" = None
  /\ calculateMillisForTimeUnit "d" = None
  /\ calculateMillisForTimeUnit "12" = None
  /\ calculateMillisForTimeUnit "1d 12h" = None.
Proof. by repeat split. Qed.

(** C8, on a two-segment duration. *)
Lemma thresholdMillis_converts_with_fixed_factors_witness :
  calculateMillisForTimeUnit "1d12h" = Some 129600000.
Proof.
  exact (proj2 (proj2 (proj2 (proj2 thresholdMillis_converts_with_fixed_factors)))
               [([1%nat], Days); ([1%nat; 2%nat], Hours)]
               ltac:(discriminate)
               ltac:(repeat constructor; simpl; lia || discriminate)
               ltac:(vm_compute; reflexivity)).
Defined.

(** Two passes over an empty store with an unchanged desired job: the
    first creates, the second only asks. *)
Example second_pass_is_silent :
  let pass := @reconcileCronJob apiError MemStore.t apiErrors MemStore.client
                sampleCluster unchangedJob (@areCronJobsSame plainComparators) in
  traceOf pass MemStore.empty = [CreateCall (CronJobObject unchangedJob)]
  /\ traceOf pass (storeAfter pass MemStore.empty)
     = [CreateCall (CronJobObject unchangedJob);
        GetCronJobCall (NamespacedName.mk "elasticsearch-rollover-app"
                                          "openshift-logging")]
  /\ storeAfter pass (storeAfter pass MemStore.empty)
     = storeAfter pass MemStore.empty.
Proof. vm_compute. by repeat split. Qed.


(** * Further properties of the sameness predicate *)

Section MoreSamenessFacts.
Context {cmp : Comparators}.

Lemma compareContainer_never_true (c o : Container.t) (b : bool) :
  compareContainer c o = Some b -> b = false.
Proof.
  unfold compareContainer. intros Hc.
  repeat match type of Hc with
         | (if ?g then _ else _) = _ => destruct g
         end; congruence.
Qed.

Lemma containerLoop_true_inv (containers others : list Container.t) (i : nat) :
  containerLoop i containers others = Returns true ->
  forall j c, containers !! j = Some c ->
              exists o, others !! (i + j)%nat = Some o
                        /\ compareContainer c o = None.
Proof.
  revert i. induction containers as [|c0 rest IH]; intros i Hloop j c Hj.
  - by rewrite lookup_nil in Hj.
  - simpl in Hloop. destruct (others !! i) as [o|] eqn:Ho; [|discriminate].
    destruct (compareContainer c0 o) as [b|] eqn:Hc.
    + apply compareContainer_never_true in Hc. congruence.
    + destruct j as [|j]; simpl in Hj.
      * injection Hj as <-. exists o. by rewrite Nat.add_0_r.
      * destruct (IH (S i) Hloop j c Hj) as (o' & Ho' & Hc').
        exists o'. by rewrite Nat.add_succ_r.
Qed.

Lemma compareContainer_compared (c c2 o o2 : Container.t) :
  comparedOfContainer c = comparedOfContainer c2 ->
  comparedOfContainer o = comparedOfContainer o2 ->
  compareContainer c o = compareContainer c2 o2.
Proof.
  unfold comparedOfContainer, compareContainer. intros Hc Ho.
  injection Hc as -> -> -> -> -> ->. injection Ho as -> -> -> -> -> ->.
  reflexivity.
Qed.

Lemma containerLoop_compared (cs cs2 os os2 : list Container.t) (i : nat) :
  comparedOfContainer <$> cs = comparedOfContainer <$> cs2 ->
  comparedOfContainer <$> os = comparedOfContainer <$> os2 ->
  containerLoop i cs os = containerLoop i cs2 os2.
Proof.
  intros Hcs Hos. revert cs2 Hcs i.
  induction cs as [|c rest IH]; intros [|c2 rest2] Hcs i;
    try discriminate Hcs; [reflexivity|].
  assert (Hc : comparedOfContainer c = comparedOfContainer c2)
    by exact (f_equal (fun l => default (comparedOfContainer c) (head l)) Hcs).
  assert (Hrest : comparedOfContainer <$> rest = comparedOfContainer <$> rest2)
    by exact (f_equal (drop 1) Hcs).
  simpl.
  pose proof (f_equal (fun l => l !! i) Hos) as Hi. simpl in Hi.
  rewrite !list_lookup_fmap in Hi.
  destruct (os !! i) as [o|], (os2 !! i) as [o2|]; simpl in Hi;
    try discriminate Hi; [|reflexivity].
  assert (Ho : comparedOfContainer o = comparedOfContainer o2) by congruence.
  rewrite (compareContainer_compared c c2 o o2 Hc Ho).
  destruct (compareContainer c2 o2); [reflexivity|]. by apply IH.
Qed.

Lemma suspendDiffers_same (flag : option bool) : suspendDiffers flag flag = false.
Proof. by destruct flag as [[|]|]. Qed.

(** X1: the verdict is "same" exactly when the four header checks pass,
    the current job has no more containers than the desired one, and the
    per-container checks pass wherever both have a container; the object
    handed back is then the current job as it was. *)
Theorem areCronJobsSame_same_iff (lhs rhs lhs' : CronJob.t) :
  areCronJobsSame lhs rhs = Returns (true, lhs')
  <-> lhs' = lhs
      /\ headerSame lhs rhs = true
      /\ (containerCount lhs <= containerCount rhs)%nat
      /\ containersAgree (elems (PodSpec.Containers (CronJob.podSpec lhs)))
                         (elems (PodSpec.Containers (CronJob.podSpec rhs))).
Proof.
  split.
  - unfold areCronJobsSame, headerSame. rewrite containerCountGuard_false.
    simpl. intros Hrun.
    destruct (AreStringMapsSame _ _); simpl in *; [|discriminate].
    destruct (AreTolerationsSame _ _); simpl in *; [|discriminate].
    destruct (String.eqb _ _); simpl in *; [|discriminate].
    destruct (suspendDiffers _ _); simpl in *; [discriminate|].
    destruct (containerLoop 0 _ _) as [b|msg] eqn:Hloop; [|discriminate].
    injection Hrun as -> <-.
    pose proof (containerLoop_true_inv _ _ _ Hloop) as Hinv. simpl in Hinv.
    split; [done|]. split; [done|]. split.
    + unfold containerCount.
      destruct (Nat.le_gt_cases
                  (length (elems (PodSpec.Containers (CronJob.podSpec lhs))))
                  (length (elems (PodSpec.Containers (CronJob.podSpec rhs)))))
        as [Hle|Hgt]; [exact Hle|].
      apply lookup_lt_is_Some_2 in Hgt as [c Hc].
      destruct (Hinv _ c Hc) as (o & Ho & _).
      apply lookup_lt_Some in Ho. lia.
    + intros j c o Hc Ho. destruct (Hinv j c Hc) as (o' & Ho' & Hagree).
      congruence.
  - intros (-> & Hh & Hle & Hag). rewrite (areCronJobsSame_after_header _ _ Hh).
    rewrite containerLoop_agree; [reflexivity| |exact Hle].
    intros j c o Hc Ho. exact (Hag j c o Hc Ho).
Qed.

(** X2: the schedule is the only thing the call assigns.  When the node
    selectors and the tolerations are accepted and the schedules differ,
    the call returns "different" and hands the current job back with the
    desired schedule, every other field as it was; in every other case in
    which it returns, it hands the current job back as it was. *)
Theorem areCronJobsSame_assigns_schedule_only (lhs rhs : CronJob.t) :
  let adopted :=
    CronJob.setSpec
      (CronJobSpec.setSchedule (CronJobSpec.Schedule (CronJob.Spec rhs))
                               (CronJob.Spec lhs))
      lhs in
  let selectorsSame :=
    AreStringMapsSame (PodSpec.NodeSelector (CronJob.podSpec lhs))
                      (PodSpec.NodeSelector (CronJob.podSpec rhs)) in
  let tolerationsSame :=
    AreTolerationsSame (PodSpec.Tolerations (CronJob.podSpec lhs))
                       (PodSpec.Tolerations (CronJob.podSpec rhs)) in
  (selectorsSame = true ->
   tolerationsSame = true ->
   CronJobSpec.Schedule (CronJob.Spec lhs)
   <> CronJobSpec.Schedule (CronJob.Spec rhs) ->
   areCronJobsSame lhs rhs = Returns (false, adopted))
  /\ (forall same lhs',
         areCronJobsSame lhs rhs = Returns (same, lhs') ->
         selectorsSame = false
         \/ tolerationsSame = false
         \/ CronJobSpec.Schedule (CronJob.Spec lhs)
            = CronJobSpec.Schedule (CronJob.Spec rhs) ->
         lhs' = lhs)
  /\ (forall same lhs',
         areCronJobsSame lhs rhs = Returns (same, lhs') ->
         lhs' = lhs \/ (same = false /\ lhs' = adopted))
  /\ CronJobSpec.Schedule (CronJob.Spec adopted)
     = CronJobSpec.Schedule (CronJob.Spec rhs)
  /\ CronJob.Type_ adopted = CronJob.Type_ lhs
  /\ CronJob.Meta adopted = CronJob.Meta lhs
  /\ CronJob.Status adopted = CronJob.Status lhs
  /\ CronJobSpec.Suspend (CronJob.Spec adopted)
     = CronJobSpec.Suspend (CronJob.Spec lhs)
  /\ CronJobSpec.ConcurrencyPolicy (CronJob.Spec adopted)
     = CronJobSpec.ConcurrencyPolicy (CronJob.Spec lhs)
  /\ CronJobSpec.SuccessfulJobsHistoryLimit (CronJob.Spec adopted)
     = CronJobSpec.SuccessfulJobsHistoryLimit (CronJob.Spec lhs)
  /\ CronJobSpec.FailedJobsHistoryLimit (CronJob.Spec adopted)
     = CronJobSpec.FailedJobsHistoryLimit (CronJob.Spec lhs)
  /\ CronJobSpec.JobTemplate (CronJob.Spec adopted)
     = CronJobSpec.JobTemplate (CronJob.Spec lhs).
Proof.
  intros adopted selectorsSame tolerationsSame.
  split; [|split; [|split; [|by repeat split]]].
  - intros Hsel Htol Hsch. unfold areCronJobsSame.
    rewrite containerCountGuard_false. simpl.
    fold selectorsSame tolerationsSame. rewrite Hsel, Htol. simpl.
    apply String.eqb_neq in Hsch. by rewrite Hsch.
  - intros same lhs'. unfold areCronJobsSame.
    rewrite containerCountGuard_false. simpl.
    fold selectorsSame tolerationsSame.
    destruct selectorsSame; simpl; [|by intros [= <- <-]].
    destruct tolerationsSame; simpl; [|by intros [= <- <-]].
    destruct (String.eqb _ _) eqn:Hsch; simpl.
    + destruct (suspendDiffers _ _); [by intros [= <- <-]|].
      destruct (containerLoop 0 _ _); [|discriminate].
      by intros [= <- <-].
    + apply String.eqb_neq in Hsch.
      intros _ [Hf|[Hf|Hf]]; [discriminate Hf|discriminate Hf|by destruct Hsch].
  - intros same lhs'. unfold areCronJobsSame.
    rewrite containerCountGuard_false. simpl.
    fold selectorsSame tolerationsSame.
    destruct selectorsSame; simpl; [|intros [= <- <-]; by left].
    destruct tolerationsSame; simpl; [|intros [= <- <-]; by left].
    destruct (String.eqb _ _) eqn:Hsch; simpl.
    + destruct (suspendDiffers _ _); [intros [= <- <-]; by left|].
      destruct (containerLoop 0 _ _); [|discriminate].
      intros [= <- <-]. by left.
    + intros [= <- <-]. by right.
Qed.

(** X3: the verdict, a panic included, is a function of the fields the
    predicate reads: schedule, suspend flag, node selector, tolerations
    and, per container, name, image, command, args, resources and
    environment.  Jobs that agree on those get the same verdict, on either
    side of the comparison. *)
Theorem areCronJobsSame_reads_compared_fields_only
        (lhs lhs2 rhs rhs2 : CronJob.t) :
  comparedPart lhs = comparedPart lhs2 ->
  comparedPart rhs = comparedPart rhs2 ->
  verdictOf (areCronJobsSame lhs rhs) = verdictOf (areCronJobsSame lhs2 rhs2).
Proof.
  unfold comparedPart. intros [= Hls Hlu Hln Hlt Hlc] [= Hrs Hru Hrn Hrt Hrc].
  unfold areCronJobsSame. rewrite !containerCountGuard_false.
  rewrite Hls, Hlu, Hln, Hlt, Hrs, Hru, Hrn, Hrt.
  rewrite (containerLoop_compared _ _ _ _ 0 Hlc Hrc). simpl.
  destruct (AreStringMapsSame _ _); simpl; [|reflexivity].
  destruct (AreTolerationsSame _ _); simpl; [|reflexivity].
  destruct (String.eqb _ _); simpl; [|reflexivity].
  destruct (suspendDiffers _ _); simpl; [reflexivity|].
  by destruct (containerLoop 0 _ _).
Qed.

Lemma same_on_equal_compared_part (current desired : CronJob.t) :
  comparedPart current = comparedPart desired ->
  comparatorsAccept desired ->
  areCronJobsSame current desired = Returns (true, current).
Proof.
  unfold comparedPart. intros [= Hs Hu Hn Ht Hc] (Hsel & Htol & Hcs).
  assert (Hh : headerSame current desired = true).
  { unfold headerSame. rewrite Hs, Hu, Hn, Ht, Hsel, Htol, String.eqb_refl.
    by rewrite suspendDiffers_same. }
  rewrite (areCronJobsSame_after_header _ _ Hh).
  rewrite containerLoop_agree; [reflexivity| |].
  - intros j c o Hj Ho. simpl in Ho.
    pose proof (f_equal (fun l => l !! j) Hc) as Hi. simpl in Hi.
    rewrite !list_lookup_fmap, Hj, Ho in Hi. simpl in Hi.
    assert (Hco : comparedOfContainer c = comparedOfContainer o) by congruence.
    rewrite (compareContainer_compared c o o o Hco eq_refl).
    rewrite Forall_forall in Hcs.
    destruct (Hcs o) as [Hres Henv]; [apply list_elem_of_lookup; eauto|].
    unfold compareContainer, deepEqualStrings.
    rewrite !String.eqb_refl, !bool_decide_eq_true_2, Hres, Henv by done.
    reflexivity.
  - simpl. apply (f_equal length) in Hc. rewrite !length_fmap in Hc. lia.
Qed.

(** X4: a stored job that agrees with the desired one on the fields the
    predicate reads is "same", whatever its metadata, status and other
    settings, provided the comparators accept the desired job's own
    values. *)
Theorem job_equal_on_compared_fields_is_same (current desired : CronJob.t) :
  comparedPart current = comparedPart desired ->
  comparatorsAccept desired ->
  areCronJobsSame current desired = Returns (true, current).
Proof.
  intros Hpart Hacc. exact (same_on_equal_compared_part _ _ Hpart Hacc).
Qed.

Lemma suspendDiffers_unset (flag : option bool) : suspendDiffers flag None = false.
Proof. by destruct flag as [[|]|]. Qed.

(** X17: when the desired job leaves the suspend flag unset, as every job
    built by [newCronJob] does, the verdict does not depend on the suspend
    flag of the stored job: suspending the stored job is not seen as a
    difference. *)
Theorem unset_suspend_is_never_compared
        {error : Type} {absent : Absent.t error}
        (clusterName image namespace name schedule : string)
        (nodeSelector : gomap) (tolerations : slice Toleration.t)
        (envvars : slice EnvVar.t)
        (fnContainerHander : Container.t -> Container.t) :
  CronJobSpec.Suspend
    (CronJob.Spec (newCronJob clusterName image namespace name schedule
                              nodeSelector tolerations envvars
                              fnContainerHander)) = None
  /\ forall (desired current : CronJob.t) (flag : option bool),
      CronJobSpec.Suspend (CronJob.Spec desired) = None ->
      verdictOf (areCronJobsSame (setSuspend flag current) desired)
      = verdictOf (areCronJobsSame current desired).
Proof.
  split; [reflexivity|]. intros desired current flag Hunset.
  unfold areCronJobsSame. rewrite !containerCountGuard_false, Hunset.
  rewrite !suspendDiffers_unset. simpl.
  destruct (AreStringMapsSame _ _); simpl; [|reflexivity].
  destruct (AreTolerationsSame _ _); simpl; [|reflexivity].
  destruct (String.eqb _ _); simpl; [|reflexivity].
  by destruct (containerLoop 0 _ _).
Qed.

(** X18: [newCronJob] builds a job with exactly one container, whatever
    the container handler returns; a stored job with at most one
    container is therefore compared against it without a panic. *)
Theorem comparison_with_built_job_returns
        {error : Type} {absent : Absent.t error}
        (clusterName image namespace name schedule : string)
        (nodeSelector : gomap) (tolerations : slice Toleration.t)
        (envvars : slice EnvVar.t)
        (fnContainerHander : Container.t -> Container.t) (current : CronJob.t) :
  let desired := newCronJob clusterName image namespace name schedule
                            nodeSelector tolerations envvars fnContainerHander in
  containerCount desired = 1%nat
  /\ ((containerCount current <= 1)%nat ->
      exists v, areCronJobsSame current desired = Returns v).
Proof.
  intros desired. split; [reflexivity|]. intros Hle.
  destruct (areCronJobsSame current desired) as [v|msg] eqn:Hrun; [eauto|].
  apply areCronJobsSame_panics_only_on_overrun in Hrun.
  change (containerCount desired) with 1%nat in Hrun. lia.
Qed.
End MoreSamenessFacts.


(** * Further properties of the create-or-update protocol *)

Section MoreConvergerFacts.
Context {error St : Type} {errs : ApiErrors error} {cl : Client error St}.
Context {cmp : Comparators} {pkg : Packaging}.

Lemma bind_trace {A B : Type} (m : @M error St A) (k : A -> @M error St B)
      (s : St) :
  traceOf (bind m k) s =
  (traceOf m s
   ++ match resultOf m s with
      | Returns a => traceOf (k a) (storeAfter m s)
      | Panics _ => []
      end)%list.
Proof.
  unfold traceOf, resultOf, storeAfter, bind.
  destruct (m s) as [[[a|msg] s1] t1]; simpl.
  - by destruct (k a s1) as [[r s2] t2].
  - by rewrite app_nil_r.
Qed.

Lemma retryLoop_trace_Forall (P : Event error -> Prop)
      (fn : @M error St (option error)) :
  (forall s, Forall P (traceOf fn s)) ->
  forall n last s, Forall P (traceOf (retryLoop n last fn) s).
Proof.
  intros Hfn. induction n as [|n IH]; intros last s; simpl.
  - constructor.
  - rewrite bind_trace. apply Forall_app. split; [apply Hfn|].
    destruct (resultOf fn s) as [[e|]|msg]; try constructor.
    destruct (IsConflict e); [apply IH|constructor].
Qed.

Lemma retryLoop_trace_count (f : Event error -> bool)
      (fn : @M error St (option error)) :
  (forall s, (length (List.filter f (traceOf fn s)) <= 1)%nat) ->
  forall n last s,
    (length (List.filter f (traceOf (retryLoop n last fn) s)) <= n)%nat.
Proof.
  intros Hfn. induction n as [|n IH]; intros last s; simpl.
  - lia.
  - rewrite bind_trace, List.filter_app, length_app.
    pose proof (Hfn s) as Hone.
    destruct (resultOf fn s) as [[e|]|msg]; simpl; try lia.
    destruct (IsConflict e); simpl; [|lia].
    pose proof (IH (Some e) (storeAfter fn s)). lia.
Qed.

Lemma updateCronJobOnce_trace (desired : CronJob.t)
      (fn : CronJob.t -> CronJob.t -> outcome (bool * CronJob.t)) (s : St) :
  let key := NamespacedName.mk (CronJob.Name desired)
                               (CronJob.Namespace desired) in
  traceOf (updateCronJobOnce desired fn) s = [GetCronJobCall key]
  \/ exists current,
      traceOf (updateCronJobOnce desired fn) s =
      [GetCronJobCall key;
       UpdateCall (CronJobObject
                     (CronJob.setSpec (CronJob.Spec desired) current))].
Proof.
  intros key. unfold updateCronJobOnce, traceOf. fold key.
  rewrite bind_roundTrip. simpl.
  destruct (GetCronJob key s) as [[e|current] s1]; simpl; [by left|].
  unfold traceOf, bind, liftOutcome, roundTrip, ret.
  destruct (fn current desired) as [[same current']|msg]; simpl; [|by left].
  destruct same; simpl; [by left|].
  destruct (Update _ s1) as [r s2]. simpl. right. by exists current'.
Qed.

Lemma updateConfigMapOnce_trace (desired : ConfigMap.t) (s : St) :
  let key := NamespacedName.mk (ConfigMap.Name desired)
                               (ConfigMap.Namespace desired) in
  traceOf (updateConfigMapOnce desired) s = [GetConfigMapCall key]
  \/ exists current,
      traceOf (updateConfigMapOnce desired) s =
      [GetConfigMapCall key;
       UpdateCall (ConfigMapObject
                     (ConfigMap.setData (ConfigMap.Data desired) current))].
Proof.
  intros key. unfold updateConfigMapOnce, traceOf. fold key.
  rewrite bind_roundTrip. simpl.
  destruct (GetConfigMap key s) as [[e|current] s1]; simpl; [by left|].
  unfold traceOf, roundTrip, ret.
  destruct (negb _); simpl; [|by left].
  destruct (Update _ s1) as [r s2]. simpl. right. by exists current.
Qed.

Lemma reconcileCronJob_trace (cluster : Elasticsearch.t) (desired : CronJob.t)
      (fn : CronJob.t -> CronJob.t -> outcome (bool * CronJob.t)) (s : St) :
  traceOf (reconcileCronJob cluster desired fn) s =
  CreateCall (CronJobObject desired)
  :: match fst (Create (CronJobObject desired) s) with
     | Some e =>
         if IsAlreadyExists e
         then traceOf (RetryOnConflict DefaultRetrySteps
                                       (updateCronJobOnce desired fn))
                      (snd (Create (CronJobObject desired) s))
         else []
     | None => []
     end.
Proof.
  unfold reconcileCronJob, traceOf at 1. rewrite bind_roundTrip. simpl.
  destruct (fst (Create (CronJobObject desired) s)) as [e|]; [|reflexivity].
  destruct (IsAlreadyExists e); simpl; [|reflexivity].
  unfold traceOf at 1. by rewrite bind_then_wrap.
Qed.

Lemma ReconcileCurationConfigmap_trace (cluster : Elasticsearch.t) (s : St) :
  traceOf (ReconcileCurationConfigmap cluster) s =
  CreateCall (ConfigMapObject (desiredConfigMap cluster))
  :: match fst (Create (ConfigMapObject (desiredConfigMap cluster)) s) with
     | Some e =>
         if IsAlreadyExists e
         then traceOf (RetryOnConflict
                         DefaultRetrySteps
                         (updateConfigMapOnce (desiredConfigMap cluster)))
                      (snd (Create (ConfigMapObject (desiredConfigMap cluster))
                                   s))
         else []
     | None => []
     end.
Proof.
  unfold ReconcileCurationConfigmap, traceOf at 1. rewrite bind_roundTrip.
  simpl.
  destruct (fst (Create (ConfigMapObject (desiredConfigMap cluster)) s))
    as [e|]; [|reflexivity].
  destruct (IsAlreadyExists e); simpl; [|reflexivity].
  unfold traceOf at 1. by rewrite bind_then_wrap.
Qed.

(** X5: for any store and any sameness predicate, a reconcile run starts
    with the [Create] of the desired object, and everything after it is a
    [Get] of the desired key or an [Update] that carries the desired
    specification (the desired data, for the configuration object).  The
    reconcilers never delete, never list and never log. *)
Theorem reconcile_only_gets_and_updates_desired (cluster : Elasticsearch.t)
        (desired : CronJob.t)
        (fn : CronJob.t -> CronJob.t -> outcome (bool * CronJob.t)) (s : St) :
  (exists rest,
      traceOf (reconcileCronJob cluster desired fn) s
      = CreateCall (CronJobObject desired) :: rest
      /\ Forall (cronJobRetryEvent desired) rest)
  /\ (exists rest,
         traceOf (ReconcileCurationConfigmap cluster) s
         = CreateCall (ConfigMapObject (desiredConfigMap cluster)) :: rest
         /\ Forall (configMapRetryEvent (desiredConfigMap cluster)) rest).
Proof.
  split.
  - rewrite reconcileCronJob_trace. eexists. split; [reflexivity|].
    destruct (fst (Create _ s)) as [e|]; [|constructor].
    destruct (IsAlreadyExists e); [|constructor].
    apply retryLoop_trace_Forall. intros s'.
    destruct (updateCronJobOnce_trace desired fn s') as [->|[current ->]].
    + apply Forall_cons. split; [by left|constructor].
    + apply Forall_cons. split; [by left|].
      apply Forall_cons. split; [|constructor].
      right. by exists (CronJob.setSpec (CronJob.Spec desired) current).
  - rewrite ReconcileCurationConfigmap_trace. eexists. split; [reflexivity|].
    destruct (fst (Create _ s)) as [e|]; [|constructor].
    destruct (IsAlreadyExists e); [|constructor].
    apply retryLoop_trace_Forall. intros s'.
    destruct (updateConfigMapOnce_trace (desiredConfigMap cluster) s')
      as [->|[current ->]].
    + apply Forall_cons. split; [by left|constructor].
    + apply Forall_cons. split; [by left|].
      apply Forall_cons. split; [|constructor].
      right.
      by exists (ConfigMap.setData (ConfigMap.Data (desiredConfigMap cluster))
                                   current).
Qed.

(** X6: for any store and any sameness predicate, one reconcile run makes
    one [Create], at most [DefaultRetrySteps] (five) [Get]s and at most as
    many [Update]s, whatever the store answers. *)
Theorem reconcile_call_budget (cluster : Elasticsearch.t) (desired : CronJob.t)
        (fn : CronJob.t -> CronJob.t -> outcome (bool * CronJob.t)) (s : St) :
  let job := traceOf (reconcileCronJob cluster desired fn) s in
  let cm := traceOf (ReconcileCurationConfigmap cluster) s in
  (length (List.filter isGetCall job) <= DefaultRetrySteps)%nat
  /\ (length (List.filter isUpdateCall job) <= DefaultRetrySteps)%nat
  /\ (length job <= 1 + 2 * DefaultRetrySteps)%nat
  /\ (length (List.filter isGetCall cm) <= DefaultRetrySteps)%nat
  /\ (length (List.filter isUpdateCall cm) <= DefaultRetrySteps)%nat
  /\ (length cm <= 1 + 2 * DefaultRetrySteps)%nat.
Proof.
  assert (Hget : forall s',
             (length (List.filter isGetCall
                        (traceOf (updateCronJobOnce desired fn) s')) <= 1)%nat).
  { intros s'.
    destruct (updateCronJobOnce_trace desired fn s') as [->|[c ->]]; simpl; lia. }
  assert (Hupd : forall s',
             (length (List.filter isUpdateCall
                        (traceOf (updateCronJobOnce desired fn) s')) <= 1)%nat).
  { intros s'.
    destruct (updateCronJobOnce_trace desired fn s') as [->|[c ->]]; simpl; lia. }
  assert (Hgetc : forall s',
             (length (List.filter isGetCall
                        (traceOf (updateConfigMapOnce (desiredConfigMap cluster))
                                 s')) <= 1)%nat).
  { intros s'.
    destruct (updateConfigMapOnce_trace (desiredConfigMap cluster) s')
      as [->|[c ->]]; simpl; lia. }
  assert (Hupdc : forall s',
             (length (List.filter isUpdateCall
                        (traceOf (updateConfigMapOnce (desiredConfigMap cluster))
                                 s')) <= 1)%nat).
  { intros s'.
    destruct (updateConfigMapOnce_trace (desiredConfigMap cluster) s')
      as [->|[c ->]]; simpl; lia. }
  assert (Hsplit : forall t : list (Event error),
             Forall (fun ev => isGetCall ev = true \/ isUpdateCall ev = true) t ->
             length t = (length (List.filter isGetCall t)
                         + length (List.filter isUpdateCall t))%nat).
  { induction 1 as [|ev t [Hev|Hev] _ IH]; simpl; [done| |];
      destruct ev; simpl in *; try discriminate; lia. }
  cbv zeta. rewrite reconcileCronJob_trace, ReconcileCurationConfigmap_trace.
  unfold RetryOnConflict.
  set (tj := match fst (Create (CronJobObject desired) s) with
             | Some e => if IsAlreadyExists e then _ else []
             | None => []
             end).
  set (tc := match fst (Create (ConfigMapObject (desiredConfigMap cluster)) s) with
             | Some e => if IsAlreadyExists e then _ else []
             | None => []
             end).
  assert (Hj : (length (List.filter isGetCall tj) <= DefaultRetrySteps)%nat
               /\ (length (List.filter isUpdateCall tj) <= DefaultRetrySteps)%nat
               /\ length tj = (length (List.filter isGetCall tj)
                               + length (List.filter isUpdateCall tj))%nat).
  { unfold tj. destruct (fst (Create (CronJobObject desired) s)) as [e|];
      [|simpl; lia].
    destruct (IsAlreadyExists e); [|simpl; lia].
    split; [by apply retryLoop_trace_count|].
    split; [by apply retryLoop_trace_count|].
    apply Hsplit, retryLoop_trace_Forall. intros s'.
    destruct (updateCronJobOnce_trace desired fn s') as [->|[c ->]].
    - apply Forall_cons. split; [by left|constructor].
    - apply Forall_cons. split; [by left|].
      apply Forall_cons. split; [by right|constructor]. }
  assert (Hc : (length (List.filter isGetCall tc) <= DefaultRetrySteps)%nat
               /\ (length (List.filter isUpdateCall tc) <= DefaultRetrySteps)%nat
               /\ length tc = (length (List.filter isGetCall tc)
                               + length (List.filter isUpdateCall tc))%nat).
  { unfold tc.
    destruct (fst (Create (ConfigMapObject (desiredConfigMap cluster)) s))
      as [e|]; [|simpl; lia].
    destruct (IsAlreadyExists e); [|simpl; lia].
    split; [by apply retryLoop_trace_count|].
    split; [by apply retryLoop_trace_count|].
    apply Hsplit, retryLoop_trace_Forall. intros s'.
    destruct (updateConfigMapOnce_trace (desiredConfigMap cluster) s')
      as [->|[c ->]].
    - apply Forall_cons. split; [by left|constructor].
    - apply Forall_cons. split; [by left|].
      apply Forall_cons. split; [by right|constructor]. }
  simpl. unfold DefaultRetrySteps in *. lia.
Qed.
Lemma reconcileCronJob_update_path (cluster : Elasticsearch.t)
      (desired : CronJob.t)
      (fn : CronJob.t -> CronJob.t -> outcome (bool * CronJob.t))
      (s s1 : St) (e : error) :
  Create (CronJobObject desired) s = (Some e, s1) ->
  IsAlreadyExists e = true ->
  reconcileCronJob cluster desired fn s =
  (match resultOf (RetryOnConflict DefaultRetrySteps
                                   (updateCronJobOnce desired fn)) s1 with
   | Returns err =>
       Returns (Wrap err "failed to update cronjob for cluster"
                     [("namespace", KVString (CronJob.Namespace desired));
                      ("cluster", KVString (CronJob.Name desired))])
   | Panics p => Panics p
   end,
   storeAfter (RetryOnConflict DefaultRetrySteps
                               (updateCronJobOnce desired fn)) s1,
   CreateCall (CronJobObject desired)
   :: traceOf (RetryOnConflict DefaultRetrySteps
                               (updateCronJobOnce desired fn)) s1).
Proof.
  intros Hc He. unfold reconcileCronJob. rewrite bind_roundTrip, Hc. simpl.
  rewrite He. simpl. unfold resultOf at 1, storeAfter at 1, traceOf at 1.
  by rewrite bind_then_wrap.
Qed.

Lemma ReconcileCurationConfigmap_update_path (cluster : Elasticsearch.t)
      (s s1 : St) (e : error) :
  Create (ConfigMapObject (desiredConfigMap cluster)) s = (Some e, s1) ->
  IsAlreadyExists e = true ->
  ReconcileCurationConfigmap cluster s =
  (match resultOf (RetryOnConflict
                     DefaultRetrySteps
                     (updateConfigMapOnce (desiredConfigMap cluster))) s1 with
   | Returns err =>
       Returns (Wrap err "failed to update configmap"
                     [("configmap",
                       KVString (ConfigMap.Name (desiredConfigMap cluster)));
                      ("cluster", KVString (Elasticsearch.Name cluster));
                      ("namespace", KVString (Elasticsearch.Namespace cluster))])
   | Panics p => Panics p
   end,
   storeAfter (RetryOnConflict DefaultRetrySteps
                               (updateConfigMapOnce (desiredConfigMap cluster)))
              s1,
   CreateCall (ConfigMapObject (desiredConfigMap cluster))
   :: traceOf (RetryOnConflict DefaultRetrySteps
                               (updateConfigMapOnce (desiredConfigMap cluster)))
              s1).
Proof.
  intros Hc He. unfold ReconcileCurationConfigmap. rewrite bind_roundTrip, Hc.
  simpl. rewrite He. simpl.
  unfold resultOf at 1, storeAfter at 1, traceOf at 1.
  by rewrite bind_then_wrap.
Qed.

(** one attempt of the closure, by what the store and the predicate answer *)
Lemma updateCronJobOnce_different (desired current current' : CronJob.t)
      (fn : CronJob.t -> CronJob.t -> outcome (bool * CronJob.t)) (s s1 : St) :
  GetCronJob (NamespacedName.mk (CronJob.Name desired)
                                (CronJob.Namespace desired)) s
  = (inr current, s1) ->
  fn current desired = Returns (false, current') ->
  updateCronJobOnce desired fn s =
  (Returns (fst (Update (CronJobObject
                           (CronJob.setSpec (CronJob.Spec desired) current'))
                        s1)),
   snd (Update (CronJobObject
                  (CronJob.setSpec (CronJob.Spec desired) current')) s1),
   [GetCronJobCall (NamespacedName.mk (CronJob.Name desired)
                                      (CronJob.Namespace desired));
    UpdateCall (CronJobObject
                  (CronJob.setSpec (CronJob.Spec desired) current'))]).
Proof.
  intros Hg Hfn. unfold updateCronJobOnce.
  unfold bind, roundTrip, liftOutcome, ret. rewrite Hg, Hfn. simpl.
  by destruct (Update _ s1).
Qed.

Lemma updateCronJobOnce_verdict (desired current : CronJob.t)
      (fn : CronJob.t -> CronJob.t -> outcome (bool * CronJob.t)) (s s1 : St) :
  GetCronJob (NamespacedName.mk (CronJob.Name desired)
                                (CronJob.Namespace desired)) s
  = (inr current, s1) ->
  updateCronJobOnce desired fn s =
  match fn current desired with
  | Panics msg =>
      (Panics msg, s1,
       [GetCronJobCall (NamespacedName.mk (CronJob.Name desired)
                                          (CronJob.Namespace desired))])
  | Returns (true, _) =>
      (Returns None, s1,
       [GetCronJobCall (NamespacedName.mk (CronJob.Name desired)
                                          (CronJob.Namespace desired))])
  | Returns (false, current') =>
      (Returns (fst (Update (CronJobObject
                               (CronJob.setSpec (CronJob.Spec desired) current'))
                            s1)),
       snd (Update (CronJobObject
                      (CronJob.setSpec (CronJob.Spec desired) current')) s1),
       [GetCronJobCall (NamespacedName.mk (CronJob.Name desired)
                                          (CronJob.Namespace desired));
        UpdateCall (CronJobObject
                      (CronJob.setSpec (CronJob.Spec desired) current'))])
  end.
Proof.
  intros Hg. destruct (fn current desired) as [[[|] current']|msg] eqn:Hfn.
  - unfold updateCronJobOnce, bind, roundTrip, liftOutcome, ret.
    by rewrite Hg, Hfn.
  - exact (updateCronJobOnce_different _ _ _ _ _ _ Hg Hfn).
  - unfold updateCronJobOnce, bind, roundTrip, liftOutcome, ret.
    by rewrite Hg, Hfn.
Qed.

Lemma retryLoop_step (n : nat) (last : option error)
      (fn : @M error St (option error)) (s : St) :
  retryLoop (S n) last fn s =
  match fn s with
  | (Returns None, s1, t) => (Returns None, s1, t)
  | (Returns (Some e), s1, t) =>
      if IsConflict e
      then (resultOf (retryLoop n (Some e) fn) s1,
            storeAfter (retryLoop n (Some e) fn) s1,
            (t ++ traceOf (retryLoop n (Some e) fn) s1)%list)
      else (Returns (Some e), s1, t)
  | (Panics msg, s1, t) => (Panics msg, s1, t)
  end.
Proof.
  simpl. unfold bind, resultOf, storeAfter, traceOf, ret.
  destruct (fn s) as [[[[e|]|msg] s1] t]; simpl.
  - destruct (IsConflict e); [|by rewrite app_nil_r].
    by destruct (retryLoop n (Some e) fn s1) as [[r s2] t2].
  - by rewrite app_nil_r.
  - reflexivity.
Qed.

Lemma reconcileCronJob_same_run (cluster : Elasticsearch.t)
      (desired current current' : CronJob.t)
      (fn : CronJob.t -> CronJob.t -> outcome (bool * CronJob.t))
      (s s1 s2 : St) (e : error) :
  Create (CronJobObject desired) s = (Some e, s1) ->
  IsAlreadyExists e = true ->
  GetCronJob (NamespacedName.mk (CronJob.Name desired)
                                (CronJob.Namespace desired)) s1
  = (inr current, s2) ->
  fn current desired = Returns (true, current') ->
  reconcileCronJob cluster desired fn s =
  (Returns None, s2,
   [CreateCall (CronJobObject desired);
    GetCronJobCall (NamespacedName.mk (CronJob.Name desired)
                                      (CronJob.Namespace desired))]).
Proof.
  intros Hc He Hg Hfn.
  assert (Hloop : RetryOnConflict DefaultRetrySteps
                                  (updateCronJobOnce desired fn) s1
                  = (Returns None, s2,
                     [GetCronJobCall
                        (NamespacedName.mk (CronJob.Name desired)
                                           (CronJob.Namespace desired))])).
  { unfold RetryOnConflict, DefaultRetrySteps.
    by rewrite retryLoop_step, (updateCronJobOnce_verdict _ _ _ _ _ Hg), Hfn. }
  rewrite (reconcileCronJob_update_path _ _ _ _ _ _ Hc He).
  unfold resultOf, storeAfter, traceOf. rewrite Hloop. reflexivity.
Qed.

(** X7: a version conflict on the first update makes the run read the
    object again and update again; when the second update is accepted
    the run returns nil, having made the calls Create, Get, Update, Get,
    Update. *)
Theorem conflict_is_retried_after_fresh_read (cluster : Elasticsearch.t)
        (desired cur1 cur1' cur2 cur2' : CronJob.t)
        (fn : CronJob.t -> CronJob.t -> outcome (bool * CronJob.t))
        (s s1 s2 s3 s4 s5 : St) (e ec : error) :
  let key := NamespacedName.mk (CronJob.Name desired)
                               (CronJob.Namespace desired) in
  let first := CronJobObject (CronJob.setSpec (CronJob.Spec desired) cur1') in
  let second := CronJobObject (CronJob.setSpec (CronJob.Spec desired) cur2') in
  Create (CronJobObject desired) s = (Some e, s1) ->
  IsAlreadyExists e = true ->
  GetCronJob key s1 = (inr cur1, s2) ->
  fn cur1 desired = Returns (false, cur1') ->
  Update first s2 = (Some ec, s3) ->
  IsConflict ec = true ->
  GetCronJob key s3 = (inr cur2, s4) ->
  fn cur2 desired = Returns (false, cur2') ->
  Update second s4 = (None, s5) ->
  reconcileCronJob cluster desired fn s =
  (Returns None, s5,
   [CreateCall (CronJobObject desired); GetCronJobCall key; UpdateCall first;
    GetCronJobCall key; UpdateCall second]).
Proof.
  intros key first second Hc He Hg1 Hf1 Hu1 Hec Hg2 Hf2 Hu2.
  assert (Hloop : RetryOnConflict DefaultRetrySteps
                                  (updateCronJobOnce desired fn) s1
                  = (Returns None, s5,
                     [GetCronJobCall key; UpdateCall first;
                      GetCronJobCall key; UpdateCall second])).
  { unfold RetryOnConflict, DefaultRetrySteps.
    rewrite retryLoop_step, (updateCronJobOnce_different _ _ _ _ _ _ Hg1 Hf1).
    fold first. rewrite Hu1. cbn [fst snd]. rewrite Hec.
    unfold resultOf, storeAfter, traceOf.
    rewrite retryLoop_step, (updateCronJobOnce_different _ _ _ _ _ _ Hg2 Hf2).
    fold second. rewrite Hu2. reflexivity. }
  rewrite (reconcileCronJob_update_path _ _ _ _ _ _ Hc He).
  unfold resultOf, storeAfter, traceOf. rewrite Hloop. reflexivity.
Qed.

Lemma retryLoop_always_conflict (desired current current' : CronJob.t)
      (fn : CronJob.t -> CronJob.t -> outcome (bool * CronJob.t)) (ec : error) :
  (forall s, fst (GetCronJob (NamespacedName.mk (CronJob.Name desired)
                                                (CronJob.Namespace desired)) s)
             = inr current) ->
  fn current desired = Returns (false, current') ->
  (forall s, fst (Update (CronJobObject
                            (CronJob.setSpec (CronJob.Spec desired) current'))
                         s) = Some ec) ->
  IsConflict ec = true ->
  forall n last s,
    resultOf (retryLoop n last (updateCronJobOnce desired fn)) s
    = Returns (match n with O => last | S _ => Some ec end)
    /\ length (List.filter isUpdateCall
                 (traceOf (retryLoop n last (updateCronJobOnce desired fn)) s))
       = n
    /\ length (List.filter isGetCall
                 (traceOf (retryLoop n last (updateCronJobOnce desired fn)) s))
       = n.
Proof.
  intros Hget Hfn Hupd Hec. induction n as [|n IH]; intros last s.
  - by repeat split.
  - simpl retryLoop.
    destruct (GetCronJob (NamespacedName.mk (CronJob.Name desired)
                                            (CronJob.Namespace desired)) s)
      as [g s1] eqn:Hg.
    pose proof (Hget s) as Hg'. rewrite Hg in Hg'. simpl in Hg'. subst g.
    pose proof (updateCronJobOnce_different _ _ _ _ _ _ Hg Hfn) as Hrun.
    rewrite Hupd in Hrun.
    specialize (IH (Some ec)
                   (snd (Update (CronJobObject
                                   (CronJob.setSpec (CronJob.Spec desired)
                                                    current')) s1))).
    destruct IH as (Hres & Hu & Hgc).
    unfold resultOf, traceOf, bind in *. rewrite Hrun, Hec.
    destruct (retryLoop n (Some ec) (updateCronJobOnce desired fn) _)
      as [[r s2] t2]. simpl in *.
    split; [|split; congruence]. subst r. by destruct n.
Qed.

(** X8: when the object is there and every update is refused as a
    version conflict, the run gives up after [DefaultRetrySteps] rounds of
    Get and Update and returns the last conflict, wrapped. *)
Theorem persistent_conflict_exhausts_the_retries (cluster : Elasticsearch.t)
        (desired current current' : CronJob.t)
        (fn : CronJob.t -> CronJob.t -> outcome (bool * CronJob.t))
        (s s1 : St) (e ec : error) :
  Create (CronJobObject desired) s = (Some e, s1) ->
  IsAlreadyExists e = true ->
  (forall s', fst (GetCronJob (NamespacedName.mk (CronJob.Name desired)
                                                 (CronJob.Namespace desired)) s')
              = inr current) ->
  fn current desired = Returns (false, current') ->
  (forall s', fst (Update (CronJobObject
                             (CronJob.setSpec (CronJob.Spec desired) current'))
                          s') = Some ec) ->
  IsConflict ec = true ->
  resultOf (reconcileCronJob cluster desired fn) s
  = Returns (Some (WrapError ec "failed to update cronjob for cluster"
                     [("namespace", KVString (CronJob.Namespace desired));
                      ("cluster", KVString (CronJob.Name desired))]))
  /\ length (List.filter isUpdateCall
               (traceOf (reconcileCronJob cluster desired fn) s))
     = DefaultRetrySteps
  /\ length (List.filter isGetCall
               (traceOf (reconcileCronJob cluster desired fn) s))
     = DefaultRetrySteps.
Proof.
  intros Hc He Hget Hfn Hupd Hec.
  destruct (retryLoop_always_conflict desired current current' fn ec
              Hget Hfn Hupd Hec DefaultRetrySteps None s1)
    as (Hres & Hu & Hg).
  pose proof (reconcileCronJob_update_path cluster _ fn _ _ _ Hc He) as Hrun.
  unfold RetryOnConflict in Hrun.
  unfold resultOf, storeAfter, traceOf in *.
  destruct (retryLoop DefaultRetrySteps None (updateCronJobOnce desired fn) s1)
    as [[r sF] t]. cbn [fst snd] in *. rewrite Hrun. cbn [fst snd].
  subst r. split; [reflexivity|]. split; [exact Hu|exact Hg].
Qed.

(** X9: when the object cannot be read after the refused Create (it may
    have vanished in between), and the failure is not a conflict, the run
    returns that failure wrapped, after Create and one Get; it neither
    creates again nor updates.  The same for the configuration object. *)
Theorem failed_read_is_returned (cluster : Elasticsearch.t)
        (desired : CronJob.t)
        (fn : CronJob.t -> CronJob.t -> outcome (bool * CronJob.t))
        (s s1 s2 : St) (e e' : error) :
  IsAlreadyExists e = true ->
  IsConflict e' = false ->
  (Create (CronJobObject desired) s = (Some e, s1) ->
   GetCronJob (NamespacedName.mk (CronJob.Name desired)
                                 (CronJob.Namespace desired)) s1
   = (inl e', s2) ->
   reconcileCronJob cluster desired fn s =
   (Returns (Some (WrapError e' "failed to update cronjob for cluster"
                     [("namespace", KVString (CronJob.Namespace desired));
                      ("cluster", KVString (CronJob.Name desired))])),
    s2,
    [CreateCall (CronJobObject desired);
     GetCronJobCall (NamespacedName.mk (CronJob.Name desired)
                                       (CronJob.Namespace desired))]))
  /\
  (Create (ConfigMapObject (desiredConfigMap cluster)) s = (Some e, s1) ->
   GetConfigMap (NamespacedName.mk
                   (ConfigMap.Name (desiredConfigMap cluster))
                   (ConfigMap.Namespace (desiredConfigMap cluster))) s1
   = (inl e', s2) ->
   ReconcileCurationConfigmap cluster s =
   (Returns (Some (WrapError e' "failed to update configmap"
                     [("configmap",
                       KVString (ConfigMap.Name (desiredConfigMap cluster)));
                      ("cluster", KVString (Elasticsearch.Name cluster));
                      ("namespace",
                       KVString (Elasticsearch.Namespace cluster))])),
    s2,
    [CreateCall (ConfigMapObject (desiredConfigMap cluster));
     GetConfigMapCall (NamespacedName.mk
                         (ConfigMap.Name (desiredConfigMap cluster))
                         (ConfigMap.Namespace (desiredConfigMap cluster)))])).
Proof.
  intros He He'. split.
  - intros Hc Hg. rewrite (reconcileCronJob_update_path _ _ _ _ _ _ Hc He).
    unfold RetryOnConflict, DefaultRetrySteps, resultOf, storeAfter, traceOf.
    simpl retryLoop. unfold updateCronJobOnce, bind, roundTrip, ret.
    rewrite Hg. simpl. rewrite He'. reflexivity.
  - intros Hc Hg.
    rewrite (ReconcileCurationConfigmap_update_path _ _ _ _ Hc He).
    unfold RetryOnConflict, DefaultRetrySteps, resultOf, storeAfter, traceOf.
    simpl retryLoop. unfold updateConfigMapOnce, bind, roundTrip, ret.
    rewrite Hg. simpl. rewrite He'. reflexivity.
Qed.

(** X10: when the stored configuration object holds other data than the
    desired one, and the update is not refused as a conflict, the run
    issues exactly one Update; the object it submits is the fetched one
    with its data replaced by the desired data, type and metadata kept. *)
Theorem config_data_drift_replaces_data_only (cluster : Elasticsearch.t)
        (current : ConfigMap.t) (s s1 s2 s3 : St) (e : error)
        (r : option error) :
  let wanted := desiredConfigMap cluster in
  let key := NamespacedName.mk (ConfigMap.Name wanted)
                               (ConfigMap.Namespace wanted) in
  let updated := ConfigMap.setData (ConfigMap.Data wanted) current in
  Create (ConfigMapObject wanted) s = (Some e, s1) ->
  IsAlreadyExists e = true ->
  GetConfigMap key s1 = (inr current, s2) ->
  ConfigMap.Data wanted <> ConfigMap.Data current ->
  Update (ConfigMapObject updated) s2 = (r, s3) ->
  notConflict r = true ->
  ReconcileCurationConfigmap cluster s =
  (Returns (Wrap r "failed to update configmap"
                 [("configmap", KVString (ConfigMap.Name wanted));
                  ("cluster", KVString (Elasticsearch.Name cluster));
                  ("namespace", KVString (Elasticsearch.Namespace cluster))]),
   s3,
   [CreateCall (ConfigMapObject wanted); GetConfigMapCall key;
    UpdateCall (ConfigMapObject updated)])
  /\ ConfigMap.Type_ updated = ConfigMap.Type_ current
  /\ ConfigMap.Meta updated = ConfigMap.Meta current
  /\ ConfigMap.Data updated = ConfigMap.Data wanted.
Proof.
  intros wanted key updated Hc He Hg Hne Hu Hr.
  split; [|by repeat split].
  rewrite (ReconcileCurationConfigmap_update_path _ _ _ _ Hc He).
  unfold RetryOnConflict, DefaultRetrySteps, resultOf, storeAfter, traceOf.
  simpl retryLoop. unfold updateConfigMapOnce, bind, roundTrip, ret.
  fold wanted. fold key. rewrite Hg. simpl.
  unfold deepEqualData. rewrite bool_decide_eq_false_2 by exact Hne. simpl.
  fold updated. rewrite Hu. simpl.
  destruct r as [e'|]; simpl in *; [|reflexivity].
  apply negb_true_iff in Hr. by rewrite Hr.
Qed.

(** X11: a stored job with more containers than the desired one, equal
    to it in everything the predicate checks before it runs out of desired
    containers, makes the reconcile panic right after the Get: no update
    is issued and no error is returned. *)
Theorem extra_stored_container_panics_the_reconcile (cluster : Elasticsearch.t)
        (desired current : CronJob.t) (s s1 s2 : St) (e : error) :
  Create (CronJobObject desired) s = (Some e, s1) ->
  IsAlreadyExists e = true ->
  GetCronJob (NamespacedName.mk (CronJob.Name desired)
                                (CronJob.Namespace desired)) s1
  = (inr current, s2) ->
  (containerCount desired < containerCount current)%nat ->
  headerSame current desired = true ->
  containersAgree (elems (PodSpec.Containers (CronJob.podSpec current)))
                  (elems (PodSpec.Containers (CronJob.podSpec desired))) ->
  reconcileCronJob cluster desired areCronJobsSame s =
  (Panics "index out of range", s2,
   [CreateCall (CronJobObject desired);
    GetCronJobCall (NamespacedName.mk (CronJob.Name desired)
                                      (CronJob.Namespace desired))]).
Proof.
  intros Hc He Hg Hgt Hh Hag.
  assert (Hpanic : areCronJobsSame current desired
                   = Panics "index out of range").
  { rewrite (areCronJobsSame_after_header _ _ Hh).
    rewrite containerLoop_overrun; [reflexivity| |lia|exact Hgt].
    intros j c o Hj Ho. exact (Hag j c o Hj Ho). }
  assert (Hloop : RetryOnConflict DefaultRetrySteps
                                  (updateCronJobOnce desired areCronJobsSame) s1
                  = (Panics "index out of range", s2,
                     [GetCronJobCall
                        (NamespacedName.mk (CronJob.Name desired)
                                           (CronJob.Namespace desired))])).
  { unfold RetryOnConflict, DefaultRetrySteps.
    by rewrite retryLoop_step, (updateCronJobOnce_verdict _ _ _ _ _ Hg), Hpanic. }
  rewrite (reconcileCronJob_update_path _ _ _ _ _ _ Hc He).
  unfold resultOf, storeAfter, traceOf. rewrite Hloop. reflexivity.
Qed.

(** X12: a stored job with fewer containers than the desired one, equal
    to it in everything the predicate checks, is left as it is: the run
    ends with nil after Create and Get, and the missing container is not
    restored. *)
Theorem missing_stored_container_is_not_restored (cluster : Elasticsearch.t)
        (desired current : CronJob.t) (s s1 s2 : St) (e : error) :
  Create (CronJobObject desired) s = (Some e, s1) ->
  IsAlreadyExists e = true ->
  GetCronJob (NamespacedName.mk (CronJob.Name desired)
                                (CronJob.Namespace desired)) s1
  = (inr current, s2) ->
  (containerCount current < containerCount desired)%nat ->
  headerSame current desired = true ->
  containersAgree (elems (PodSpec.Containers (CronJob.podSpec current)))
                  (elems (PodSpec.Containers (CronJob.podSpec desired))) ->
  reconcileCronJob cluster desired areCronJobsSame s =
  (Returns None, s2,
   [CreateCall (CronJobObject desired);
    GetCronJobCall (NamespacedName.mk (CronJob.Name desired)
                                      (CronJob.Namespace desired))]).
Proof.
  intros Hc He Hg Hlt Hh Hag.
  assert (Hsame : areCronJobsSame current desired = Returns (true, current)).
  { rewrite (areCronJobsSame_after_header _ _ Hh).
    rewrite containerLoop_agree;
      [reflexivity| |unfold containerCount in Hlt; lia].
    intros j c o Hj Ho. exact (Hag j c o Hj Ho). }
  assert (Hloop : RetryOnConflict DefaultRetrySteps
                                  (updateCronJobOnce desired areCronJobsSame) s1
                  = (Returns None, s2,
                     [GetCronJobCall
                        (NamespacedName.mk (CronJob.Name desired)
                                           (CronJob.Namespace desired))])).
  { unfold RetryOnConflict, DefaultRetrySteps.
    by rewrite retryLoop_step, (updateCronJobOnce_verdict _ _ _ _ _ Hg), Hsame. }
  rewrite (reconcileCronJob_update_path _ _ _ _ _ _ Hc He).
  unfold resultOf, storeAfter, traceOf. rewrite Hloop. reflexivity.
Qed.
End MoreConvergerFacts.

(** * Further properties of the orphan collector *)

Section MoreOrphanFacts.
Context {error St : Type} {errs : ApiErrors error} {cl : Client error St}.

Lemma forEach_removeOne_events (namespace : string) (names : list string)
      (s : St) :
  Forall (cleanupEvent namespace)
         (traceOf (forEach names (removeOne namespace)) s).
Proof.
  revert s. induction names as [|name rest IH]; intros s; [constructor|].
  unfold traceOf at 1. rewrite forEach_removeOne_cons. simpl.
  apply Forall_cons. split; [left; by exists name|].
  apply Forall_app. split; [|apply IH].
  unfold removalLog.
  destruct (fst (Delete (orphanObject namespace name) s)) as [e|];
    [|constructor].
  destruct (IsNotFound e); simpl; [constructor|].
  apply Forall_cons. split; [|constructor]. right. by exists e, name.
Qed.

Lemma expected_name_is_never_deleted (cluster : Elasticsearch.t)
      (mappings : list Mapping.t) (policies : gmap string Policy.t) (s : St)
      (name : string) :
  name ∈ expectedNames cluster mappings policies ->
  DeleteCall (orphanObject (Elasticsearch.Namespace cluster) name)
  ∉ traceOf (RemoveCronJobsForMappings cluster mappings policies) s.
Proof.
  intros Hexp Hin.
  destruct (ListCronJobs (Elasticsearch.Namespace cluster) imLabels s)
    as [[e|items] s1] eqn:Hl; unfold traceOf in Hin.
  - rewrite (RemoveCronJobsForMappings_list_failed _ _ _ _ _ _ Hl) in Hin.
    simpl in Hin. apply list_elem_of_singleton in Hin. discriminate Hin.
  - rewrite (RemoveCronJobsForMappings_listed _ _ _ _ _ _ Hl) in Hin.
    simpl in Hin. apply elem_of_cons in Hin as [Hin|Hin]; [discriminate Hin|].
    apply deletedObjects_elem_of in Hin.
    rewrite forEach_removeOne_deletes in Hin.
    apply list_elem_of_fmap in Hin as (name' & Heq & Hin).
    apply orphanObject_inj in Heq. subst name'.
    apply sortedList_elem_of, elem_of_difference in Hin as [_ Hnot].
    by apply Hnot.
Qed.

Lemma expectedNames_same_members (cluster : Elasticsearch.t)
      (mappings mappings' : list Mapping.t) (policies : gmap string Policy.t) :
  (forall m, m ∈ mappings <-> m ∈ mappings') ->
  expectedNames cluster mappings policies
  = expectedNames cluster mappings' policies.
Proof.
  intros Hsame. apply leibniz_equiv. intros x.
  rewrite !expectedNames_elem_of. split; intros (m & Hm & Hc); exists m;
    (split; [by apply Hsame|done]).
Qed.

(** X13: for any store, the cleanup run starts with the List, and
    everything after it is the Delete of a bare job of the cluster's
    namespace or the error line of a failed deletion: cleanup never
    creates, reads or updates.  When the List fails, the List is the only
    call and the failure is returned wrapped. *)
Theorem cleanup_only_lists_and_deletes (cluster : Elasticsearch.t)
        (mappings : list Mapping.t) (policies : gmap string Policy.t) (s : St) :
  let namespace := Elasticsearch.Namespace cluster in
  let run := RemoveCronJobsForMappings cluster mappings policies in
  (exists rest, traceOf run s = ListCall namespace imLabels :: rest
                /\ Forall (cleanupEvent namespace) rest)
  /\ (forall e s1,
         ListCronJobs namespace imLabels s = (inl e, s1) ->
         run s = (Returns (Some (WrapError e "failed to list cron jobs"
                                   [("namespace", KVString namespace);
                                    ("labels", KVLabels imLabels)])),
                  s1, [ListCall namespace imLabels])).
Proof.
  intros namespace run. split.
  - unfold run, traceOf.
    destruct (ListCronJobs namespace imLabels s) as [[e|items] s1] eqn:Hl.
    + rewrite (RemoveCronJobsForMappings_list_failed _ _ _ _ _ _ Hl).
      exists []. split; [reflexivity|constructor].
    + rewrite (RemoveCronJobsForMappings_listed _ _ _ _ _ _ Hl).
      eexists. split; [reflexivity|]. apply forEach_removeOne_events.
  - intros e s1 Hl. apply (RemoveCronJobsForMappings_list_failed _ _ _ _ _ _ Hl).
Qed.

(** X14: cleanup does not depend on the order of the mappings nor on
    repetitions among them: two mapping lists with the same members give
    the same run on every store. *)
Theorem cleanup_ignores_mapping_order (cluster : Elasticsearch.t)
        (mappings mappings' : list Mapping.t) (policies : gmap string Policy.t)
        (s : St) :
  (forall m, m ∈ mappings <-> m ∈ mappings') ->
  RemoveCronJobsForMappings cluster mappings policies s
  = RemoveCronJobsForMappings cluster mappings' policies s.
Proof.
  intros Hsame. unfold RemoveCronJobsForMappings.
  by rewrite (expectedNames_same_members cluster mappings mappings' policies
                                         Hsame).
Qed.

(** X15: when no mapping's policy has a phase (in particular when there
    is no mapping at all), nothing is expected and cleanup hands every
    listed name to Delete, each once, in ascending order. *)
Theorem cleanup_without_phases_deletes_all_listed (cluster : Elasticsearch.t)
        (mappings : list Mapping.t) (policies : gmap string Policy.t)
        (s s1 : St) (items : list CronJob.t) :
  (forall m, m ∈ mappings ->
             Phases.Hot (Policy.Phases
                           (policyAt policies (Mapping.PolicyRef m))) = None
             /\ Phases.Delete (Policy.Phases
                                 (policyAt policies (Mapping.PolicyRef m)))
                = None) ->
  ListCronJobs (Elasticsearch.Namespace cluster) imLabels s = (inr items, s1) ->
  expectedNames cluster mappings policies = ∅
  /\ deletedObjects
       (traceOf (RemoveCronJobsForMappings cluster mappings policies) s)
     = orphanObject (Elasticsearch.Namespace cluster)
         <$> sortedList (existingNames items)
  /\ forall job, job ∈ items ->
                 DeleteCall (orphanObject (Elasticsearch.Namespace cluster)
                                          (CronJob.Name job))
                 ∈ traceOf (RemoveCronJobsForMappings cluster mappings policies)
                           s.
Proof.
  intros Hnone Hl.
  assert (Hexp : expectedNames cluster mappings policies = ∅).
  { apply leibniz_equiv. intros x. rewrite expectedNames_elem_of. split.
    - intros (m & Hm & Hc). destruct (Hnone m Hm) as [Hhot Hdel].
      unfold contributes in Hc. rewrite Hhot, Hdel in Hc.
      destruct Hc as [[_ Hc]|[_ Hc]]; by destruct Hc.
    - intros Hx. by apply not_elem_of_empty in Hx. }
  assert (Hdel : deletedObjects
                   (traceOf (RemoveCronJobsForMappings cluster mappings policies)
                            s)
                 = orphanObject (Elasticsearch.Namespace cluster)
                     <$> sortedList (existingNames items)).
  { unfold traceOf. rewrite (RemoveCronJobsForMappings_listed _ _ _ _ _ _ Hl).
    simpl. rewrite forEach_removeOne_deletes, Hexp.
    by rewrite difference_empty_L. }
  split; [exact Hexp|]. split; [exact Hdel|].
  intros job Hjob. apply deletedObjects_elem_of. rewrite Hdel.
  apply list_elem_of_fmap. exists (CronJob.Name job). split; [done|].
  apply sortedList_elem_of, existingNames_elem_of. by exists job.
Qed.

(** X16: when every listed object carries an expected name, cleanup
    makes the List and nothing else, and returns nil. *)
Theorem converged_cleanup_deletes_nothing (cluster : Elasticsearch.t)
        (mappings : list Mapping.t) (policies : gmap string Policy.t)
        (s s1 : St) (items : list CronJob.t) :
  ListCronJobs (Elasticsearch.Namespace cluster) imLabels s = (inr items, s1) ->
  (forall job, job ∈ items ->
               CronJob.Name job ∈ expectedNames cluster mappings policies) ->
  RemoveCronJobsForMappings cluster mappings policies s
  = (Returns None, s1, [ListCall (Elasticsearch.Namespace cluster) imLabels]).
Proof.
  intros Hl Hall.
  assert (Hnil : sortedList (existingNames items
                             ∖ expectedNames cluster mappings policies) = []).
  { destruct (sortedList _) as [|name rest] eqn:Hs; [reflexivity|].
    assert (Hin : name ∈ sortedList
                           (existingNames items
                            ∖ expectedNames cluster mappings policies))
      by (rewrite Hs; apply elem_of_cons; by left).
    apply sortedList_elem_of, elem_of_difference in Hin as [Hex Hnot].
    apply existingNames_elem_of in Hex as (job & Hjob & <-).
    by destruct (Hnot (Hall job Hjob)). }
  rewrite (RemoveCronJobsForMappings_listed _ _ _ _ _ _ Hl), Hnil.
  reflexivity.
Qed.
End MoreOrphanFacts.

(** * Properties of the two entry points *)

Section EntryPointFacts.
Context {error St : Type} {errs : ApiErrors error} {cl : Client error St}.
Context {cmp : Comparators} {absent : Absent.t error}.

Lemma desiredRolloverJob_name (cluster : Elasticsearch.t) (mapping : Mapping.t)
      (schedule payload : string) :
  (forall job, CronJob.Name (Absent.AddOwnerRefTo cluster job)
               = CronJob.Name job) ->
  CronJob.Name (desiredRolloverJob cluster mapping schedule payload)
  = rolloverName (Elasticsearch.Name cluster) (Mapping.Name mapping).
Proof. intros Hown. unfold desiredRolloverJob. by rewrite Hown. Qed.

Lemma desiredCurationJob_name (cluster : Elasticsearch.t) (mapping : Mapping.t)
      (schedule : string) (minAgeMillis : Z) :
  (forall job, CronJob.Name (Absent.AddOwnerRefTo cluster job)
               = CronJob.Name job) ->
  CronJob.Name (desiredCurationJob cluster mapping schedule minAgeMillis)
  = deleteName (Elasticsearch.Name cluster) (Mapping.Name mapping).
Proof. intros Hown. unfold desiredCurationJob. by rewrite Hown. Qed.

(** X19: a policy without a Hot phase makes the rollover entry point
    return nil without touching the store; a policy without a Delete phase
    does the same for the curation entry point; and a mapping whose policy
    has neither phase adds nothing to what cleanup expects.  A policy
    without phases thus yields no derived object and no error. *)
Theorem missing_phase_is_skipped (cluster : Elasticsearch.t) (policy : Policy.t)
        (mapping : Mapping.t) (primaryShards : Z) (s : St) :
  (Phases.Hot (Policy.Phases policy) = None ->
   ReconcileRolloverCronjob cluster policy mapping primaryShards s
   = (Returns None, s, []))
  /\ (Phases.Delete (Policy.Phases policy) = None ->
      ReconcileCurationCronjob cluster policy mapping primaryShards s
      = (Returns None, s, []))
  /\ (forall policies expected,
         policies !! Mapping.PolicyRef mapping = Some policy ->
         Phases.Hot (Policy.Phases policy) = None ->
         Phases.Delete (Policy.Phases policy) = None ->
         insertExpected cluster policies expected mapping = expected).
Proof.
  split; [|split].
  - intros Hnone. unfold ReconcileRolloverCronjob. by rewrite Hnone.
  - intros Hnone. unfold ReconcileCurationCronjob. by rewrite Hnone.
  - intros policies expected Hpol Hhot Hdel.
    unfold insertExpected, policyAt. by rewrite Hpol, Hhot, Hdel.
Qed.

(** X23: within one cluster the derived names tell mapping and phase
    apart: the rollover (or delete) names of two mappings coincide only if
    the mapping names do, and a rollover name is never a delete name.  So
    the jobs the two entry points want for the same or for different
    mappings never share a name. *)
Theorem derived_names_do_not_collide (cluster : Elasticsearch.t)
        (a b : Mapping.t) (schedule schedule' payload : string) (minAge : Z) :
  (forall job, CronJob.Name (Absent.AddOwnerRefTo cluster job)
               = CronJob.Name job) ->
  (CronJob.Name (desiredRolloverJob cluster a schedule payload)
   = CronJob.Name (desiredRolloverJob cluster b schedule' payload) ->
   Mapping.Name a = Mapping.Name b)
  /\ (CronJob.Name (desiredCurationJob cluster a schedule minAge)
      = CronJob.Name (desiredCurationJob cluster b schedule' minAge) ->
      Mapping.Name a = Mapping.Name b)
  /\ CronJob.Name (desiredRolloverJob cluster a schedule payload)
     <> CronJob.Name (desiredCurationJob cluster b schedule' minAge).
Proof.
  intros Hown.
  rewrite !(desiredRolloverJob_name _ _ _ _ Hown).
  rewrite !(desiredCurationJob_name _ _ _ _ Hown).
  split; [apply rolloverName_inj|].
  split; [apply deleteName_inj|apply rolloverName_not_deleteName].
Qed.

(** X20: a poll interval that does not translate, a payload that does not
    serialize or a minimum age that does not convert ends the entry point
    before any store call.  The rollover entry point returns the failure
    wrapped; the curation entry point returns it as it is. *)
Theorem translation_failure_makes_no_store_call (cluster : Elasticsearch.t)
        (policy : Policy.t) (mapping : Mapping.t) (primaryShards : Z) (s : St)
        (err : error) :
  (Phases.Hot (Policy.Phases policy) <> None ->
   Absent.crontabScheduleFor (Policy.PollInterval policy) = inl err ->
   ReconcileRolloverCronjob cluster policy mapping primaryShards s
   = (Returns (Some (WrapError err "failed to reconcile rollover cronjob"
                       [("policymapping", KVString (Mapping.Name mapping))])),
      s, []))
  /\ (forall schedule,
         Phases.Hot (Policy.Phases policy) <> None ->
         Absent.crontabScheduleFor (Policy.PollInterval policy) = inr schedule ->
         Absent.jsonMarshal (Absent.calculateConditions policy primaryShards)
         = inl err ->
         ReconcileRolloverCronjob cluster policy mapping primaryShards s
         = (Returns (Some (WrapError
                             err
                             "failed to serialize the rollover conditions to JSON"
                             [])),
            s, []))
  /\ (Phases.Delete (Policy.Phases policy) <> None ->
      Absent.crontabScheduleFor (Policy.PollInterval policy) = inl err ->
      ReconcileCurationCronjob cluster policy mapping primaryShards s
      = (Returns (Some err), s, []))
  /\ (forall schedule deletePhase,
         Phases.Delete (Policy.Phases policy) = Some deletePhase ->
         Absent.crontabScheduleFor (Policy.PollInterval policy) = inr schedule ->
         Absent.calculateMillisForTimeUnit (DeletePhase.MinAge deletePhase)
         = inl err ->
         ReconcileCurationCronjob cluster policy mapping primaryShards s
         = (Returns (Some err), s, [])).
Proof.
  split; [|split; [|split]].
  - intros Hhot Hsch. unfold ReconcileRolloverCronjob.
    destruct (Phases.Hot (Policy.Phases policy)); [|done]. simpl.
    by rewrite Hsch.
  - intros schedule Hhot Hsch Hjson. unfold ReconcileRolloverCronjob.
    destruct (Phases.Hot (Policy.Phases policy)); [|done]. simpl.
    by rewrite Hsch, Hjson.
  - intros Hdel Hsch. unfold ReconcileCurationCronjob.
    destruct (Phases.Delete (Policy.Phases policy)); [|done].
    by rewrite Hsch.
  - intros schedule deletePhase Hdel Hsch Hage.
    unfold ReconcileCurationCronjob. by rewrite Hdel, Hsch, Hage.
Qed.

(** X21: what the entry points create, cleanup keeps.  If the owner
    back-reference leaves the job's name alone, then whenever an entry
    point reaches the store for a mapping, its first call is the Create of
    a job named [<cluster>-rollover-<mapping>] (rollover) or
    [<cluster>-delete-<mapping>] (curation), and a cleanup run over any
    mapping list that holds the mapping, with a policy map that gives it
    this policy, never deletes an object of that name. *)
Theorem reconciled_jobs_survive_cleanup (cluster : Elasticsearch.t)
        (policy : Policy.t) (mapping : Mapping.t) (primaryShards : Z)
        (mappings : list Mapping.t) (policies : gmap string Policy.t)
        (s s' : St) :
  (forall job, CronJob.Name (Absent.AddOwnerRefTo cluster job)
               = CronJob.Name job) ->
  mapping ∈ mappings ->
  policies !! Mapping.PolicyRef mapping = Some policy ->
  let namespace := Elasticsearch.Namespace cluster in
  let cleanup := traceOf (RemoveCronJobsForMappings cluster mappings policies) s' in
  (forall obj rest,
      traceOf (ReconcileRolloverCronjob cluster policy mapping primaryShards) s
      = obj :: rest ->
      exists job,
        obj = CreateCall (CronJobObject job)
        /\ CronJob.Name job
           = rolloverName (Elasticsearch.Name cluster) (Mapping.Name mapping)
        /\ DeleteCall (orphanObject namespace (CronJob.Name job)) ∉ cleanup)
  /\ (forall obj rest,
         traceOf (ReconcileCurationCronjob cluster policy mapping primaryShards) s
         = obj :: rest ->
         exists job,
           obj = CreateCall (CronJobObject job)
           /\ CronJob.Name job
              = deleteName (Elasticsearch.Name cluster) (Mapping.Name mapping)
           /\ DeleteCall (orphanObject namespace (CronJob.Name job)) ∉ cleanup).
Proof.
  intros Hown Hin Hpol namespace cleanup.
  assert (Hat : policyAt policies (Mapping.PolicyRef mapping) = policy).
  { unfold policyAt. by rewrite Hpol. }
  split.
  - intros obj rest. unfold ReconcileRolloverCronjob.
    destruct (Phases.Hot (Policy.Phases policy)) as [hot|] eqn:Hhot; simpl;
      [|discriminate].
    destruct (Absent.crontabScheduleFor _) as [err|schedule]; [discriminate|].
    destruct (Absent.jsonMarshal _) as [err|payload]; [discriminate|].
    rewrite reconcileCronJob_trace. intros [= <- _].
    eexists. split; [reflexivity|].
    rewrite (desiredRolloverJob_name _ _ _ _ Hown). split; [reflexivity|].
    apply expected_name_is_never_deleted, expectedNames_elem_of.
    exists mapping. split; [exact Hin|]. left. split; [reflexivity|].
    by rewrite Hat, Hhot.
  - intros obj rest. unfold ReconcileCurationCronjob.
    destruct (Phases.Delete (Policy.Phases policy)) as [del|] eqn:Hdel;
      [|discriminate].
    destruct (Absent.crontabScheduleFor _) as [err|schedule]; [discriminate|].
    destruct (Absent.calculateMillisForTimeUnit _) as [err|minAge];
      [discriminate|].
    rewrite reconcileCronJob_trace. intros [= <- _].
    eexists. split; [reflexivity|].
    rewrite (desiredCurationJob_name _ _ _ _ Hown). split; [reflexivity|].
    apply expected_name_is_never_deleted, expectedNames_elem_of.
    exists mapping. split; [exact Hin|]. right. split; [reflexivity|].
    by rewrite Hat, Hdel.
Qed.

(** X22: a second pass of an entry point over a store that holds the job
    it wants, however the store has decorated the fields the predicate
    does not read, issues no update: the run is the refused Create and the
    Get, and returns nil. *)
Theorem entry_point_second_pass_is_silent (cluster : Elasticsearch.t)
        (policy : Policy.t) (mapping : Mapping.t) (primaryShards : Z)
        (s s1 s2 : St) (e : error) (current : CronJob.t) (schedule : string) :
  Absent.crontabScheduleFor (Policy.PollInterval policy) = inr schedule ->
  IsAlreadyExists e = true ->
  (forall payload,
      Phases.Hot (Policy.Phases policy) <> None ->
      Absent.jsonMarshal (Absent.calculateConditions policy primaryShards)
      = inr payload ->
      let desired := desiredRolloverJob cluster mapping schedule payload in
      Create (CronJobObject desired) s = (Some e, s1) ->
      GetCronJob (NamespacedName.mk (CronJob.Name desired)
                                    (CronJob.Namespace desired)) s1
      = (inr current, s2) ->
      comparedPart current = comparedPart desired ->
      comparatorsAccept desired ->
      ReconcileRolloverCronjob cluster policy mapping primaryShards s
      = (Returns None, s2,
         [CreateCall (CronJobObject desired);
          GetCronJobCall (NamespacedName.mk (CronJob.Name desired)
                                            (CronJob.Namespace desired))]))
  /\ (forall deletePhase minAgeMillis,
         Phases.Delete (Policy.Phases policy) = Some deletePhase ->
         Absent.calculateMillisForTimeUnit (DeletePhase.MinAge deletePhase)
         = inr minAgeMillis ->
         let desired :=
           desiredCurationJob cluster mapping schedule minAgeMillis in
         Create (CronJobObject desired) s = (Some e, s1) ->
         GetCronJob (NamespacedName.mk (CronJob.Name desired)
                                       (CronJob.Namespace desired)) s1
         = (inr current, s2) ->
         comparedPart current = comparedPart desired ->
         comparatorsAccept desired ->
         ReconcileCurationCronjob cluster policy mapping primaryShards s
         = (Returns None, s2,
            [CreateCall (CronJobObject desired);
             GetCronJobCall (NamespacedName.mk (CronJob.Name desired)
                                               (CronJob.Namespace desired))])).
Proof.
  intros Hsch He. split.
  - intros payload Hhot Hjson desired Hc Hg Hpart Hacc.
    unfold ReconcileRolloverCronjob.
    destruct (Phases.Hot (Policy.Phases policy)); [|done]. simpl.
    rewrite Hsch, Hjson. fold desired.
    apply (reconcileCronJob_same_run cluster desired current current
                                     areCronJobsSame s s1 s2 e Hc He Hg).
    exact (same_on_equal_compared_part _ _ Hpart Hacc).
  - intros deletePhase minAgeMillis Hdel Hage desired Hc Hg Hpart Hacc.
    unfold ReconcileCurationCronjob. rewrite Hdel, Hsch, Hage. fold desired.
    apply (reconcileCronJob_same_run cluster desired current current
                                     areCronJobsSame s s1 s2 e Hc He Hg).
    exact (same_on_equal_compared_part _ _ Hpart Hacc).
Qed.
End EntryPointFacts.


(** * The further properties on concrete inputs *)

(** X2, on the drift example: the stored job comes back with the desired
    schedule and the verdict "different". *)
Lemma areCronJobsSame_assigns_schedule_only_witness :
  @areCronJobsSame plainComparators storedJob driftedJob
  = Returns (false, adoptedJob).
Proof.
  exact (proj1 (areCronJobsSame_assigns_schedule_only
                  (cmp := plainComparators) storedJob driftedJob)
               ltac:(vm_compute; reflexivity)
               ltac:(vm_compute; reflexivity)
               ltac:(vm_compute; discriminate)).
Defined.

(** X3, on a stored job with other metadata, status, policy, limits and
    pod settings. *)
Lemma areCronJobsSame_reads_compared_fields_only_witness :
  verdictOf (@areCronJobsSame plainComparators (decorated storedJob) driftedJob)
  = verdictOf (@areCronJobsSame plainComparators storedJob driftedJob).
Proof.
  apply (areCronJobsSame_reads_compared_fields_only
           (cmp := plainComparators) (decorated storedJob) storedJob
           driftedJob driftedJob);
    vm_compute; reflexivity.
Defined.

(** X4, on the same decorated job. *)
Lemma job_equal_on_compared_fields_is_same_witness :
  @areCronJobsSame plainComparators (decorated unchangedJob) unchangedJob
  = Returns (true, decorated unchangedJob).
Proof.
  apply (job_equal_on_compared_fields_is_same
           (cmp := plainComparators) (decorated unchangedJob) unchangedJob).
  - vm_compute. reflexivity.
  - split; [vm_compute; reflexivity|]. split; [vm_compute; reflexivity|].
    apply Forall_cons. split; [|constructor].
    split; vm_compute; reflexivity.
Defined.

(** X7, on a store whose first update is refused as a conflict. *)
Lemma conflict_is_retried_after_fresh_read_witness :
  @reconcileCronJob apiError nat apiErrors conflictOnceClient sampleCluster
    driftedJob (@areCronJobsSame plainComparators) 0%nat
  = (Returns None, 2%nat,
     [CreateCall (CronJobObject driftedJob);
      GetCronJobCall (NamespacedName.mk "elasticsearch-rollover-app"
                                        "openshift-logging");
      UpdateCall (CronJobObject adoptedJob);
      GetCronJobCall (NamespacedName.mk "elasticsearch-rollover-app"
                                        "openshift-logging");
      UpdateCall (CronJobObject adoptedJob)]).
Proof.
  apply (conflict_is_retried_after_fresh_read
           (errs := apiErrors) (cl := conflictOnceClient)
           sampleCluster driftedJob storedJob adoptedJob storedJob adoptedJob
           (@areCronJobsSame plainComparators)
           0%nat 0%nat 0%nat 1%nat 1%nat 2%nat ErrAlreadyExists ErrConflict);
    vm_compute; reflexivity.
Defined.

(** X8, on a store that refuses every update as a conflict. *)
Lemma persistent_conflict_exhausts_the_retries_witness :
  resultOf (@reconcileCronJob apiError nat apiErrors alwaysConflictClient
              sampleCluster driftedJob (@areCronJobsSame plainComparators))
           0%nat
  = Returns (Some (ErrWrapped ErrConflict "failed to update cronjob for cluster"
                     [("namespace", KVString "openshift-logging");
                      ("cluster", KVString "elasticsearch-rollover-app")]))
  /\ storeAfter (@reconcileCronJob apiError nat apiErrors alwaysConflictClient
                   sampleCluster driftedJob (@areCronJobsSame plainComparators))
                0%nat
     = 5%nat.
Proof.
  split.
  - apply (persistent_conflict_exhausts_the_retries
             (errs := apiErrors) (cl := alwaysConflictClient)
             sampleCluster driftedJob storedJob adoptedJob
             (@areCronJobsSame plainComparators) 0%nat 0%nat
             ErrAlreadyExists ErrConflict);
      try (vm_compute; reflexivity); intros s'; reflexivity.
  - vm_compute. reflexivity.
Defined.

(** X9, on a store that refuses the Create as a duplicate and then finds
    nothing to read. *)
Lemma failed_read_is_returned_witness :
  @reconcileCronJob apiError nat apiErrors unreadableClient sampleCluster
    unchangedJob (@areCronJobsSame plainComparators) 0%nat
  = (Returns (Some (ErrWrapped ErrNotFound "failed to update cronjob for cluster"
                      [("namespace", KVString "openshift-logging");
                       ("cluster", KVString "elasticsearch-rollover-app")])),
     0%nat,
     [CreateCall (CronJobObject unchangedJob);
      GetCronJobCall (NamespacedName.mk "elasticsearch-rollover-app"
                                        "openshift-logging")]).
Proof.
  apply (proj1 (failed_read_is_returned
                  (errs := apiErrors) (cl := unreadableClient)
                  (pkg := plainPackaging) sampleCluster unchangedJob
                  (@areCronJobsSame plainComparators) 0%nat 0%nat 0%nat
                  ErrAlreadyExists ErrNotFound eq_refl eq_refl));
    reflexivity.
Defined.

(** X10, on a store that holds the configuration object with an older
    script. *)
Lemma config_data_drift_replaces_data_only_witness :
  traceOf (@ReconcileCurationConfigmap apiError MemStore.t apiErrors
             MemStore.client plainPackaging sampleCluster)
          staleConfigStore
  = [CreateCall (ConfigMapObject (@desiredConfigMap plainPackaging sampleCluster));
     GetConfigMapCall (NamespacedName.mk indexManagementConfigmap
                                         "openshift-logging");
     UpdateCall (ConfigMapObject
                   (ConfigMap.setData (@scriptMap plainPackaging)
                                      staleConfigMap))].
Proof.
  unfold traceOf.
  rewrite (proj1 (config_data_drift_replaces_data_only
                    (errs := apiErrors) (cl := MemStore.client)
                    (pkg := plainPackaging) sampleCluster staleConfigMap
                    staleConfigStore staleConfigStore staleConfigStore
                    (snd (MemStore.update
                            (ConfigMapObject
                               (ConfigMap.setData (@scriptMap plainPackaging)
                                                  staleConfigMap))
                            staleConfigStore))
                    ErrAlreadyExists None
                    ltac:(vm_compute; reflexivity)
                    ltac:(vm_compute; reflexivity)
                    ltac:(vm_compute; reflexivity)
                    ltac:(vm_compute; discriminate)
                    ltac:(vm_compute; reflexivity)
                    ltac:(vm_compute; reflexivity))).
  vm_compute. reflexivity.
Defined.

(** X11, on a store whose job has got a second container. *)
Lemma extra_stored_container_panics_the_reconcile_witness :
  resultOf (@reconcileCronJob apiError MemStore.t apiErrors MemStore.client
              sampleCluster unchangedJob (@areCronJobsSame plainComparators))
           (storeWith sidecarJob)
  = Panics "index out of range".
Proof.
  unfold resultOf.
  rewrite (extra_stored_container_panics_the_reconcile
             (errs := apiErrors) (cl := MemStore.client)
             (cmp := plainComparators) sampleCluster unchangedJob sidecarJob
             (storeWith sidecarJob) (storeWith sidecarJob)
             (storeWith sidecarJob) ErrAlreadyExists
             ltac:(vm_compute; reflexivity) ltac:(vm_compute; reflexivity)
             ltac:(vm_compute; reflexivity) ltac:(vm_compute; lia)
             ltac:(vm_compute; reflexivity)
             ltac:(intros [|[|i]] c o Hc Ho; [|discriminate Ho ..];
                   injection Hc as <-; injection Ho as <-;
                   vm_compute; reflexivity)).
  reflexivity.
Defined.

(** X12, on a store whose job has lost its container. *)
Lemma missing_stored_container_is_not_restored_witness :
  traceOf (@reconcileCronJob apiError MemStore.t apiErrors MemStore.client
             sampleCluster unchangedJob (@areCronJobsSame plainComparators))
          (storeWith emptiedJob)
  = [CreateCall (CronJobObject unchangedJob);
     GetCronJobCall (NamespacedName.mk "elasticsearch-rollover-app"
                                       "openshift-logging")].
Proof.
  unfold traceOf.
  rewrite (missing_stored_container_is_not_restored
             (errs := apiErrors) (cl := MemStore.client)
             (cmp := plainComparators) sampleCluster unchangedJob emptiedJob
             (storeWith emptiedJob) (storeWith emptiedJob)
             (storeWith emptiedJob) ErrAlreadyExists
             ltac:(vm_compute; reflexivity) ltac:(vm_compute; reflexivity)
             ltac:(vm_compute; reflexivity) ltac:(vm_compute; lia)
             ltac:(vm_compute; reflexivity)
             ltac:(intros i c o Hc; destruct i; discriminate Hc)).
  reflexivity.
Defined.

(** X13, on a store that refuses the listing. *)
Lemma cleanup_only_lists_and_deletes_witness :
  @RemoveCronJobsForMappings apiError nat apiErrors listFailsClient
    sampleCluster [Mapping.mk "X" "hot-only"] samplePolicies 0%nat
  = (Returns (Some (ErrWrapped ErrForbidden "failed to list cron jobs"
                      [("namespace", KVString "openshift-logging");
                       ("labels", KVLabels imLabels)])),
     0%nat, [ListCall "openshift-logging" imLabels]).
Proof.
  apply (proj2 (cleanup_only_lists_and_deletes
                  (errs := apiErrors) (cl := listFailsClient) sampleCluster
                  [Mapping.mk "X" "hot-only"] samplePolicies 0%nat)
               ErrForbidden 0%nat).
  reflexivity.
Defined.

(** X14, on the mappings X and Y in another order and with a repetition. *)
Lemma cleanup_ignores_mapping_order_witness :
  @RemoveCronJobsForMappings apiError MemStore.t apiErrors MemStore.client
    sampleCluster
    [Mapping.mk "X" "hot-only"; Mapping.mk "Y" "hot-and-delete"]
    samplePolicies orphanStore
  = @RemoveCronJobsForMappings apiError MemStore.t apiErrors MemStore.client
      sampleCluster
      [Mapping.mk "Y" "hot-and-delete"; Mapping.mk "X" "hot-only";
       Mapping.mk "Y" "hot-and-delete"]
      samplePolicies orphanStore.
Proof.
  apply (cleanup_ignores_mapping_order (errs := apiErrors)
                                       (cl := MemStore.client)).
  intros m. rewrite !elem_of_cons, elem_of_nil. tauto.
Defined.

(** X15, on a single mapping whose policy has no phase. *)
Lemma cleanup_without_phases_deletes_all_listed_witness :
  deletedObjects
    (traceOf (@RemoveCronJobsForMappings apiError MemStore.t apiErrors
                MemStore.client sampleCluster [Mapping.mk "X" "no-phases"]
                phaselessPolicies)
             orphanStore)
  = [orphanObject "openshift-logging" "elasticsearch-delete-X";
     orphanObject "openshift-logging" "elasticsearch-rollover-X";
     orphanObject "openshift-logging" "elasticsearch-rollover-Y"].
Proof.
  destruct (cleanup_without_phases_deletes_all_listed
              (errs := apiErrors) (cl := MemStore.client) sampleCluster
              [Mapping.mk "X" "no-phases"] phaselessPolicies
              orphanStore orphanStore orphanItems)
    as (_ & Hdel & _).
  - intros m Hm. apply list_elem_of_singleton in Hm. subst m.
    split; vm_compute; reflexivity.
  - vm_compute. reflexivity.
  - rewrite Hdel. vm_compute. reflexivity.
Defined.

(** X16, on a store that holds nothing but the expected rollover job. *)
Lemma converged_cleanup_deletes_nothing_witness :
  @RemoveCronJobsForMappings apiError MemStore.t apiErrors MemStore.client
    sampleCluster [Mapping.mk "X" "hot-only"] samplePolicies convergedStore
  = (Returns None, convergedStore, [ListCall "openshift-logging" imLabels]).
Proof.
  apply (converged_cleanup_deletes_nothing
           (errs := apiErrors) (cl := MemStore.client) sampleCluster
           [Mapping.mk "X" "hot-only"] samplePolicies
           convergedStore convergedStore
           [sampleJob "elasticsearch-rollover-X" "*/15 * * * *" "1"
                      (Some [sampleContainer "indexmanagement"])]).
  - vm_compute. reflexivity.
  - intros job Hjob. apply list_elem_of_singleton in Hjob. subst job.
    apply expectedNames_elem_of. exists (Mapping.mk "X" "hot-only").
    split; [by apply list_elem_of_singleton|].
    left. split; [reflexivity|]. vm_compute. discriminate.
Defined.

(** X17, on a stored job that has been suspended. *)
Lemma unset_suspend_is_never_compared_witness :
  verdictOf (@areCronJobsSame plainComparators
               (setSuspend (Some true) storedJob) unchangedJob)
  = Returns true.
Proof.
  rewrite (proj2 (unset_suspend_is_never_compared
                    (cmp := plainComparators) (absent := sampleAbsent)
                    "elasticsearch" "image" "openshift-logging" "name"
                    "*/15 * * * *" None None None (fun c => c))
                 unchangedJob storedJob (Some true) eq_refl).
  vm_compute. reflexivity.
Defined.

(** X18, on the stored job of the examples against a freshly built one. *)
Lemma comparison_with_built_job_returns_witness :
  exists v,
    @areCronJobsSame plainComparators storedJob builtRolloverJob = Returns v.
Proof.
  apply (proj2 (comparison_with_built_job_returns
                  (cmp := plainComparators) (absent := sampleAbsent)
                  "elasticsearch" "quay.io/openshift/elasticsearch:latest"
                  "openshift-logging" "elasticsearch-rollover-app"
                  "*/15 * * * *" None None
                  (Some [EnvVar.mk "PAYLOAD" "cGF5bG9hZA==";
                         EnvVar.mk "POLICY_MAPPING" "app"])
                  (setCommandAndArgs (Some ["bash"])
                                     (Some ["-c"; "/tmp/scripts/rollover"]))
                  storedJob)).
  vm_compute. lia.
Defined.

(** X19, on a policy that has no phase. *)
Lemma missing_phase_is_skipped_witness :
  @ReconcileRolloverCronjob passError nat passErrors acceptingClient
    plainComparators sampleAbsent sampleCluster noPhases
    (Mapping.mk "app" "no-phases") 3 0%nat
  = (Returns None, 0%nat, [])
  /\ @ReconcileCurationCronjob passError nat passErrors acceptingClient
       plainComparators sampleAbsent sampleCluster noPhases
       (Mapping.mk "app" "no-phases") 3 0%nat
     = (Returns None, 0%nat, []).
Proof.
  destruct (missing_phase_is_skipped
              (errs := passErrors) (cl := acceptingClient)
              (cmp := plainComparators) (absent := sampleAbsent)
              sampleCluster noPhases (Mapping.mk "app" "no-phases") 3 0%nat)
    as (Hroll & Hcur & _).
  split; [apply Hroll|apply Hcur]; reflexivity.
Defined.

(** X20, on a poll interval that does not translate. *)
Lemma translation_failure_makes_no_store_call_witness :
  @ReconcileRolloverCronjob passError nat passErrors acceptingClient
    plainComparators sampleAbsent sampleCluster badInterval
    (Mapping.mk "app" "bad-interval") 3 0%nat
  = (Returns (Some (InContext (BadInput "poll interval" "every now and then")
                              "failed to reconcile rollover cronjob"
                              [("policymapping", KVString "app")])),
     0%nat, [])
  /\ @ReconcileCurationCronjob passError nat passErrors acceptingClient
       plainComparators sampleAbsent sampleCluster badInterval
       (Mapping.mk "app" "bad-interval") 3 0%nat
     = (Returns (Some (BadInput "poll interval" "every now and then")),
        0%nat, []).
Proof.
  destruct (translation_failure_makes_no_store_call
              (errs := passErrors) (cl := acceptingClient)
              (cmp := plainComparators) (absent := sampleAbsent)
              sampleCluster badInterval (Mapping.mk "app" "bad-interval") 3
              0%nat (BadInput "poll interval" "every now and then"))
    as (Hroll & _ & Hcur & _).
  split; [apply Hroll|apply Hcur]; (discriminate || reflexivity).
Defined.

(** X21, on the mapping [app]: the rollover job just created is not
    deleted by a cleanup that finds it listed. *)
Lemma reconciled_jobs_survive_cleanup_witness :
  DeleteCall (orphanObject "openshift-logging" "elasticsearch-rollover-app")
  ∉ traceOf (@RemoveCronJobsForMappings passError nat passErrors
               (holdingClient wantedRolloverJob) sampleCluster
               [Mapping.mk "app" "hot-and-delete"] quarterlyPolicies)
            0%nat.
Proof.
  pose proof (reconciled_jobs_survive_cleanup
                (errs := passErrors) (cl := holdingClient wantedRolloverJob)
                (cmp := plainComparators) (absent := sampleAbsent)
                sampleCluster hotAndDeleteQuarterly
                (Mapping.mk "app" "hot-and-delete") 3
                [Mapping.mk "app" "hot-and-delete"] quarterlyPolicies
                0%nat 0%nat
                (fun job => eq_refl)
                ltac:(by apply list_elem_of_singleton)
                ltac:(vm_compute; reflexivity)) as Hw.
  cbv zeta in Hw. destruct Hw as [Hroll _].
  destruct (Hroll (CreateCall (CronJobObject wantedRolloverJob))
                  [GetCronJobCall
                     (NamespacedName.mk "elasticsearch-rollover-app"
                                        "openshift-logging")]
                  ltac:(vm_compute; reflexivity))
    as (job & Hjob & Hname & Hkept).
  by rewrite Hname in Hkept.
Defined.

(** X22, on a store that holds the wanted rollover job, decorated. *)
Lemma entry_point_second_pass_is_silent_witness :
  @ReconcileRolloverCronjob passError nat passErrors
    (holdingClient (decorated wantedRolloverJob)) plainComparators sampleAbsent
    sampleCluster hotAndDeleteQuarterly (Mapping.mk "app" "hot-and-delete") 3
    0%nat
  = (Returns None, 0%nat,
     [CreateCall (CronJobObject wantedRolloverJob);
      GetCronJobCall (NamespacedName.mk "elasticsearch-rollover-app"
                                        "openshift-logging")]).
Proof.
  apply (proj1 (entry_point_second_pass_is_silent
                  (errs := passErrors)
                  (cl := holdingClient (decorated wantedRolloverJob))
                  (cmp := plainComparators) (absent := sampleAbsent)
                  sampleCluster hotAndDeleteQuarterly
                  (Mapping.mk "app" "hot-and-delete") 3 0%nat 0%nat 0%nat
                  (StoreAnswer ErrAlreadyExists) (decorated wantedRolloverJob)
                  "*/15 * * * *" eq_refl eq_refl)
               "{conditions:{max_age:1d,max_size:120gb}}").
  - discriminate.
  - vm_compute. reflexivity.
  - reflexivity.
  - reflexivity.
  - vm_compute. reflexivity.
  - split; [vm_compute; reflexivity|]. split; [vm_compute; reflexivity|].
    apply Forall_cons. split; [|constructor].
    split; vm_compute; reflexivity.
Defined.

(** X23, on the mappings [app] and [infra]. *)
Lemma derived_names_do_not_collide_witness :
  CronJob.Name (@desiredRolloverJob passError sampleAbsent sampleCluster
                  (Mapping.mk "app" "hot-and-delete") "*/15 * * * *" "e30=")
  <> CronJob.Name (@desiredCurationJob passError sampleAbsent sampleCluster
                     (Mapping.mk "infra" "hot-and-delete") "*/15 * * * *"
                     604800000).
Proof.
  apply (derived_names_do_not_collide
           (absent := sampleAbsent) sampleCluster
           (Mapping.mk "app" "hot-and-delete")
           (Mapping.mk "infra" "hot-and-delete")
           "*/15 * * * *" "*/15 * * * *" "e30=" 604800000
           (fun job => eq_refl)).
Defined.

(** * Where the per-mapping reading fails *)

(** C5, the claim as stated fails on [sharedNameMappings]: the first
    mapping's policy has no Hot phase, yet the rollover name of "a" is
    expected, put there by the second mapping of the same name. *)
Lemma expected_by_own_policy_fails_on_shared_name :
  ~ (forall m, m ∈ sharedNameMappings ->
       rolloverName (Elasticsearch.Name sampleCluster) (Mapping.Name m)
         ∈ expectedNames sampleCluster sharedNameMappings sharedNamePolicies
       <-> Phases.Hot (Policy.Phases
                         (policyAt sharedNamePolicies (Mapping.PolicyRef m)))
           <> None).
Proof.
  intros Hall.
  destruct (Hall (Mapping.mk "a" "no-phases")) as [Hhot _].
  { apply elem_of_cons. by left. }
  apply Hhot; [|reflexivity].
  apply rolloverName_expected_iff. exists (Mapping.mk "a" "hot-only").
  split; [apply elem_of_cons; right; apply elem_of_cons; by left|].
  split; [reflexivity|]. vm_compute. discriminate.
Qed.

(** C10, the claim as stated fails on [danglingTwinMappings]: the first
    mapping's policy reference is not a key of the policy map and the
    store lists an object with that mapping's rollover name, yet the
    object is not deleted, being expected through the second mapping of
    the same name. *)
Lemma dangling_reference_object_is_kept_by_twin :
  Mapping.mk "Y" "no-such-policy" ∈ danglingTwinMappings
  /\ samplePolicies !! "no-such-policy" = None
  /\ rolloverName (Elasticsearch.Name sampleCluster) "Y"
       ∈ (CronJob.Name <$> orphanItems)
  /\ fst (MemStore.listCronJobs (Elasticsearch.Namespace sampleCluster)
                                imLabels orphanStore)
     = inr orphanItems
  /\ DeleteCall (orphanObject (Elasticsearch.Namespace sampleCluster)
                              (rolloverName (Elasticsearch.Name sampleCluster)
                                            "Y"))
     ∉ traceOf (@RemoveCronJobsForMappings apiError MemStore.t apiErrors
                  MemStore.client sampleCluster danglingTwinMappings
                  samplePolicies)
               orphanStore.
Proof.
  split; [apply elem_of_cons; by left|].
  split; [vm_compute; reflexivity|].
  split.
  { vm_compute. constructor. }
  split; [vm_compute; reflexivity|].
  apply (expected_name_is_never_deleted (errs := apiErrors)
                                        (cl := MemStore.client)).
  apply rolloverName_expected_iff. exists (Mapping.mk "Y" "hot-only").
  split; [apply elem_of_cons; right; apply elem_of_cons; by left|].
  split; [reflexivity|]. vm_compute. discriminate.
Qed.
